(** * Pytorch-MT data pipeline: [src/utils/reader.py]

    A shallow embedding of the vocabulary, corpus, padding, data-queue,
    input-pipeline and language classes of [reader.py], followed by the
    properties of the specification that concern them.

    Conventions of the embedding:
    - Python [int] is [Z]; a list of ids is [list Z]; [str] is [string];
    - a call that may raise returns a [Py.result];
    - a generator is the finite trace of what it yields ([Py.gen]);
    - a [dict] is an insertion-ordered association list ([Py.dict]);
    - list objects that are mutated in place live in a heap of rows
      ([Heap.heap]) and are passed around as references. *)

From Stdlib Require Import ZArith String Ascii List Bool Lia Arith.
From Stdlib Require Import Permutation Sorted.
Import ListNotations.

Open Scope string_scope.
Open Scope list_scope.
Open Scope Z_scope.

(* ================================================================== *)
(** * Part I. The embedding                                            *)
(* ================================================================== *)

(** ** Python values, exceptions, generators, built-ins *)

Module Py.

(** The exceptions that [reader.py] can raise or let through. *)
Inductive exception : Type :=
| ValueError
| KeyError
| IndexError
| AttributeError (attribute : string)
| AssertionError (message : string)
| TypeError
| OSError
| SystemExit.

Inductive result (A : Type) : Type :=
| Ok (a : A)
| Raise (e : exception).
Arguments Ok {A} a.
Arguments Raise {A} e.

Definition bind {A B : Type} (r : result A) (k : A -> result B) : result B :=
  match r with
  | Ok a => k a
  | Raise e => Raise e
  end.

(** [for x in xs: acc = body(acc, x)], stopping at the first exception. *)
Fixpoint foldM {A S : Type} (body : S -> A -> result S) (xs : list A) (acc : S)
  : result S :=
  match xs with
  | [] => Ok acc
  | x :: xs' => bind (body acc x) (foldM body xs')
  end.

(** A generator run to exhaustion: the values it yields, in order, and
    how it ends (normally, or by an exception reaching the consumer). *)
Inductive gen (A : Type) : Type :=
| Yield (a : A) (rest : gen A)
| StopIteration
| Abort (e : exception).
Arguments Yield {A} a rest.
Arguments StopIteration {A}.
Arguments Abort {A} e.

Fixpoint yielded {A : Type} (g : gen A) : list A :=
  match g with
  | Yield a rest => a :: yielded rest
  | StopIteration => []
  | Abort _ => []
  end.

Fixpoint outcome {A : Type} (g : gen A) : option exception :=
  match g with
  | Yield _ rest => outcome rest
  | StopIteration => None
  | Abort e => Some e
  end.

(** *** [range] and slices *)

(** [len(range(start, stop, step))] for [step <> 0]. *)
Definition range_len (start stop step : Z) : nat :=
  if 0 <? step then Z.to_nat ((stop - start + step - 1) / step)
  else Z.to_nat ((start - stop - step - 1) / (- step)).

(** [range(start, stop, step)]; a zero step is a [ValueError]. *)
Definition range (start stop step : Z) : result (list Z) :=
  if step =? 0 then Raise ValueError
  else Ok (map (fun i => start + Z.of_nat i * step)
               (seq 0 (range_len start stop step))).

(** The clamping of one slice bound: negative bounds count from the end. *)
Definition slice_bound {A : Type} (l : list A) (i : Z) : nat :=
  let n := Z.of_nat (length l) in
  Z.to_nat (if i <? 0 then Z.max 0 (i + n) else Z.min i n).

(** [l[i:j]]. *)
Definition slice {A : Type} (l : list A) (i j : Z) : list A :=
  let lo := slice_bound l i in
  let hi := slice_bound l j in
  firstn (hi - lo) (skipn lo l).

(** [l[-1]]. *)
Definition last_item {A : Type} (l : list A) : result A :=
  match rev l with
  | [] => Raise IndexError
  | x :: _ => Ok x
  end.

(** [l[0]]. *)
Definition first_item {A : Type} (l : list A) : result A :=
  match l with
  | [] => Raise IndexError
  | x :: _ => Ok x
  end.

(** [l[i]] for [i >= 0]. *)
Definition item {A : Type} (l : list A) (i : nat) : result A :=
  match nth_error l i with
  | Some x => Ok x
  | None => Raise IndexError
  end.

(** [l.insert(-1, x)]: before the last element; at the front of an
    empty list. *)
Fixpoint insert_before_last {A : Type} (x : A) (l : list A) : list A :=
  match l with
  | [] => [x]
  | [a] => [x; a]
  | a :: l' => a :: insert_before_last x l'
  end.

(** *** Strings *)

(** [str.isspace] on the ASCII range. *)
Definition is_space (c : ascii) : bool :=
  let n := nat_of_ascii c in
  ((9 <=? n)%nat && (n <=? 13)%nat) || ((28 <=? n)%nat && (n <=? 32)%nat).

Definition snoc (s : string) (c : ascii) : string := s ++ String c "".

Fixpoint lstrip (s : string) : string :=
  match s with
  | String c s' => if is_space c then lstrip s' else s
  | EmptyString => EmptyString
  end.

Definition string_rev (s : string) : string :=
  string_of_list_ascii (rev (list_ascii_of_string s)).

Definition rstrip (s : string) : string := string_rev (lstrip (string_rev s)).

(** [s.strip()]. *)
Definition strip (s : string) : string := rstrip (lstrip s).

(** [s[:-1]]. *)
Definition drop_last (s : string) : string :=
  string_of_list_ascii (removelast (list_ascii_of_string s)).

Fixpoint split_whitespace_from (cur : string) (s : string) : list string :=
  match s with
  | EmptyString => if String.eqb cur "" then [] else [cur]
  | String c s' =>
      if is_space c
      then (if String.eqb cur "" then split_whitespace_from "" s'
            else cur :: split_whitespace_from "" s')
      else split_whitespace_from (snoc cur c) s'
  end.

(** [s.split()]: runs of whitespace separate, empty pieces are dropped. *)
Definition split_whitespace (s : string) : list string :=
  split_whitespace_from "" s.

Fixpoint split_from (sep : string) (skip : nat) (cur : string) (s : string)
  : list string :=
  match s with
  | EmptyString => [cur]
  | String c s' =>
      match skip with
      | S k => split_from sep k cur s'
      | O =>
          if String.prefix sep s
          then cur :: split_from sep (String.length sep - 1) "" s'
          else split_from sep 0 (snoc cur c) s'
      end
  end.

(** [s.split(sep)]: every occurrence separates, empty pieces are kept;
    an empty separator is a [ValueError]. *)
Definition split (sep : string) (s : string) : result (list string) :=
  if String.eqb sep "" then Raise ValueError
  else Ok (split_from sep 0 "" s).

Definition digit_value (c : ascii) : option Z :=
  let n := nat_of_ascii c in
  if (48 <=? n)%nat && (n <=? 57)%nat then Some (Z.of_nat (n - 48)) else None.

(** The digits of a decimal literal; single underscores may separate
    digits. *)
Fixpoint int_digits (acc : Z) (after_digit : bool) (s : string) : option Z :=
  match s with
  | EmptyString => if after_digit then Some acc else None
  | String c s' =>
      match digit_value c with
      | Some d => int_digits (10 * acc + d) true s'
      | None =>
          if Ascii.eqb c "_" && after_digit then int_digits acc false s'
          else None
      end
  end.

(** [int(s)] for an ASCII string: surrounding whitespace, an optional
    sign, decimal digits. *)
Definition int (s : string) : result Z :=
  let t := strip s in
  let parsed :=
    match t with
    | String "-" r => option_map Z.opp (int_digits 0 false r)
    | String "+" r => int_digits 0 false r
    | _ => int_digits 0 false t
    end in
  match parsed with
  | Some z => Ok z
  | None => Raise ValueError
  end.

(** [list(map(f, xs))] for an [f] that may raise. *)
Fixpoint mapM {A B : Type} (f : A -> result B) (xs : list A) : result (list B) :=
  match xs with
  | [] => Ok []
  | x :: xs' =>
      bind (f x) (fun y => bind (mapM f xs') (fun ys => Ok (y :: ys)))
  end.

(** *** Insertion-ordered dictionaries *)

Section Dict.
Context {K V : Type} (eq_dec : forall x y : K, {x = y} + {x <> y}).

Definition dict : Type := list (K * V).

(** [d[k]] as an option; [None] is where Python raises [KeyError]. *)
Fixpoint get (d : dict) (k : K) : option V :=
  match d with
  | [] => None
  | (k', v) :: d' => if eq_dec k k' then Some v else get d' k
  end.

(** [d[k] = v]: a present key keeps its position, a new key goes last. *)
Fixpoint set (d : dict) (k : K) (v : V) : dict :=
  match d with
  | [] => [(k, v)]
  | (k', v') :: d' =>
      if eq_dec k k' then (k', v) :: d' else (k', v') :: set d' k v
  end.

Definition contains (d : dict) (k : K) : bool :=
  match get d k with Some _ => true | None => false end.

Definition keys (d : dict) : list K := map fst d.
Definition values (d : dict) : list V := map snd d.
Definition len (d : dict) : Z := Z.of_nat (length d).

(** [dict(pairs)]. *)
Definition of_pairs (pairs : list (K * V)) : dict :=
  fold_left (fun d kv => set d (fst kv) (snd kv)) pairs [].

Definition getitem (d : dict) (k : K) : result V :=
  match get d k with
  | Some v => Ok v
  | None => Raise KeyError
  end.
End Dict.

End Py.

Notation "x <- r ;; k" := (Py.bind r (fun x => k))
  (at level 61, r at next level, right associativity).

(** ** [DataQueue]: segments read from the id-cache file

    A text file is the list of its lines, each with its line end. *)

Module DataQueue.

(** [list(map(int, line.strip().split()))] *)
Definition parse_line (line : string) : Py.result (list Z) :=
  Py.mapM Py.int (Py.split_whitespace (Py.strip line)).

(** The body of [for line in file] in [generator], with the accumulator
    [data_segment] threaded through, and the final [yield]. *)
Fixpoint generator_loop (max_segment_size : Z) (data_segment : list (list Z))
         (file : list string) : Py.gen (list (list Z)) :=
  match file with
  | [] => Py.Yield data_segment Py.StopIteration
  | line :: file' =>
      if Z.of_nat (length data_segment) <? max_segment_size then
        match parse_line line with
        | Py.Ok ids => generator_loop max_segment_size (data_segment ++ [ids]) file'
        | Py.Raise e => Py.Abort e
        end
      else
        (* temp_data_segment = copy.deepcopy(data_segment);
           del data_segment[:]; yield temp_data_segment *)
        Py.Yield data_segment (generator_loop max_segment_size [] file')
  end.

(** [DataQueue.generator], over the lines of the id-cache file. *)
Definition generator (max_segment_size : Z) (id_file : list string)
  : Py.gen (list (list Z)) :=
  generator_loop max_segment_size [] id_file.

(** The default of the constructor's [max_segment_size]. *)
Definition MAX_SEGMENT : Z := 50000.

Definition total_size (segments : list (list (list Z))) : nat :=
  list_sum (map (@length _) segments).

End DataQueue.

(** ** [Vocabulary]: the lookup tables of a language

    The embedding matrix holds floating-point numbers, which are not
    represented: of [_embedding_weights] the model keeps the shape and
    every check that can make the constructor raise. *)

Module Vocabulary.

Record t : Type := {
  _word_to_id : @Py.dict string Z;
  _id_to_word : @Py.dict Z string;
  _language_identifiers : list string;
  _cuda : bool;
  _provided : bool;
  requires_grad : bool;
  _vocab_size : Z;
  _embedding_size : Z
}.

(** [self._word_to_id[token] = len(self._word_to_id)] *)
Definition add_token (d : @Py.dict string Z) (token : string) : @Py.dict string Z :=
  Py.set string_dec d token (Py.len d).

(** [matrix[index, :] = values] on a matrix of [rows] by [columns]
    cells, for [count] values: the row must exist, and the values must
    fill the row or be a single one. *)
Definition store_row (rows columns index : Z) (count : nat) : Py.result unit :=
  if (index <? rows) && (- rows <=? index) then
    if (Z.of_nat count =? columns) || (count =? 1)%nat then Py.Ok tt
    else Py.Raise Py.ValueError
  else Py.Raise Py.IndexError.

Section Loading.
(** Whether [float(s)] returns a number. *)
Variable float_accepts : string -> bool.

(** [numpy.array([float(element) for element in fields])], as the
    number of values. *)
Definition weights (fields : list string) : Py.result nat :=
  if forallb float_accepts fields then Py.Ok (length fields)
  else Py.Raise Py.ValueError.

(** [for index, line in enumerate(file)]: the word of the line gets
    the index; with provided embeddings the rest of the line becomes
    row [index] of the matrix. *)
Fixpoint load_words (provided : bool) (rows columns : Z) (index : Z)
         (lines : list string) (d : @Py.dict string Z)
  : Py.result (@Py.dict string Z) :=
  match lines with
  | [] => Py.Ok d
  | line :: lines' =>
      line_as_list <- Py.split " " line ;;
      word <- Py.item line_as_list 0 ;;
      let d' := Py.set string_dec d word index in
      _ <- (if provided then
              count <- weights (tl line_as_list) ;;
              store_row rows columns index count
            else Py.Ok tt) ;;
      load_words provided rows columns (index + 1) lines' d'
  end.

(** The rows written after the loop: [-1] to [-4] for the reserved
    tokens, then [range(-5, -5 - k, -1)] for the identifiers. *)
Definition special_rows (identifiers : nat) : list Z :=
  [-1; -2; -3; -4] ++ map (fun i => -5 - Z.of_nat i) (seq 0 identifiers).

(** [_load_data], from the lines of the vocabulary file; [readline] on
    an empty file gives the empty string. *)
Definition _load_data (language_identifiers : list string)
           (provided_embeddings fixed_embeddings cuda : bool)
           (file : list string) : Py.result t :=
  first_line <- Py.split " " (hd "" file) ;;
  declared <- Py.item first_line 0 ;;
  base <- Py.int declared ;;
  let vocab_size := base + 4 + Z.of_nat (length language_identifiers) in
  dimension <- Py.item first_line 1 ;;
  embedding_size <- Py.int dimension ;;
  (* numpy.empty((vocab_size, embedding_size)) *)
  _ <- (if provided_embeddings && ((vocab_size <? 0) || (embedding_size <? 0))
        then Py.Raise Py.ValueError else Py.Ok tt) ;;
  words <- load_words provided_embeddings vocab_size embedding_size 0 (tl file) [] ;;
  let with_identifiers := fold_left add_token language_identifiers words in
  let with_sos := add_token with_identifiers "<SOS>" in
  let with_eos := add_token with_sos "<EOS>" in
  let with_unk := add_token with_eos "<UNK>" in
  let word_to_id := add_token with_unk "<PAD>" in
  let id_to_word :=
    Py.of_pairs Z.eq_dec (combine (Py.values word_to_id) (Py.keys word_to_id)) in
  _ <- (if provided_embeddings then
          Py.foldM (fun _ index =>
                      store_row vocab_size embedding_size index
                                (Z.to_nat embedding_size))
                   (special_rows (length language_identifiers)) tt
        else Py.Ok tt) ;;
  Py.Ok {| _word_to_id := word_to_id;
           _id_to_word := id_to_word;
           _language_identifiers := language_identifiers;
           _cuda := cuda;
           _provided := provided_embeddings;
           requires_grad := negb fixed_embeddings;
           _vocab_size := vocab_size;
           _embedding_size := embedding_size |}.

(** The constructor, given the content of the file at [vocab_path];
    the [Embedding] layer it builds last is not represented. *)
Definition __init__ (file : list string) (language_identifiers : list string)
           (provided_embeddings fixed_embeddings cuda : bool) : Py.result t :=
  _load_data language_identifiers provided_embeddings fixed_embeddings cuda file.
End Loading.

(** What [__call__] can be applied to, by the type tests it makes.
    [bool] is a subclass of [int] but [type(True)] is not [int]. *)
Inductive expression : Type :=
| Str (word : string)
| Int (id : Z)
| NpInt32 (id : Z)
| NpInt64 (id : Z)
| Bool (b : bool)
| Other.

Inductive value : Type :=
| Id (id : Z)
| Word (word : string).

Definition __call__ (self : t) (e : expression) : Py.result value :=
  match e with
  | Str word =>
      id <- Py.getitem string_dec (_word_to_id self) word ;; Py.Ok (Id id)
  | Int id | NpInt32 id | NpInt64 id =>
      word <- Py.getitem Z.eq_dec (_id_to_word self) id ;; Py.Ok (Word word)
  | Bool _ | Other => Py.Raise Py.ValueError
  end.

(** The [tokens] property: the four reserved ids, looked up in order. *)
Definition tokens (self : t) : Py.result (@Py.dict string Z) :=
  sos <- Py.getitem string_dec (_word_to_id self) "<SOS>" ;;
  eos <- Py.getitem string_dec (_word_to_id self) "<EOS>" ;;
  unk <- Py.getitem string_dec (_word_to_id self) "<UNK>" ;;
  pad <- Py.getitem string_dec (_word_to_id self) "<PAD>" ;;
  Py.Ok [("<SOS>", sos); ("<EOS>", eos); ("<UNK>", unk); ("<PAD>", pad)].

(** [self._vocabulary.tokens['<PAD>']] *)
Definition pad_token (self : t) : Py.result Z :=
  toks <- tokens self ;; Py.getitem string_dec toks "<PAD>".

(** The [vocab_size] property. *)
Definition vocab_size (self : t) : Z := _vocab_size self - 1.

Definition reserved_tokens : list string := ["<SOS>"; "<EOS>"; "<UNK>"; "<PAD>"].

End Vocabulary.

(** ** [Corpora], [Monolingual], [Parallel]

    The corpus classes differ in which attributes their constructors
    store, so an instance is its attribute dictionary.  The file system
    maps a path to the lines of the regular file there, if any. *)

Module Corpora.

Definition filesystem : Type := string -> option (list string).

Inductive attribute : Type :=
| AttrNone
| AttrStr (s : string)
| AttrBool (b : bool)
| AttrVocabulary (v : Vocabulary.t)
| AttrLines (data : list string)
| AttrRecords (data : list (list string)).

Definition instance : Type := @Py.dict string attribute.

Definition getattr (self : instance) (name : string) : Py.result attribute :=
  match Py.get string_dec self name with
  | Some v => Py.Ok v
  | None => Py.Raise (Py.AttributeError name)
  end.

Definition setattr (self : instance) (name : string) (v : attribute) : instance :=
  Py.set string_dec self name v.

(** [Corpora.__init__] *)
Definition __init__ (fs : filesystem) (data_path : string)
           (vocabulary : Vocabulary.t) (cuda : bool) : Py.result instance :=
  match fs data_path with
  | None => Py.Raise (Py.AssertionError (data_path ++ " is not a file"))
  | Some _ =>
      let self := setattr [] "_vocabulary" (AttrVocabulary vocabulary) in
      let self := setattr self "_data_path" (AttrStr data_path) in
      let self := setattr self "_cuda" (AttrBool cuda) in
      Py.Ok (setattr self "_data" AttrNone)
  end.

(** [open(path, 'r')] *)
Definition open (fs : filesystem) (path : string) : Py.result (list string) :=
  match fs path with
  | Some file => Py.Ok file
  | None => Py.Raise Py.OSError
  end.

Definition data_path (self : instance) : Py.result string :=
  a <- getattr self "_data_path" ;;
  match a with AttrStr s => Py.Ok s | _ => Py.Raise Py.TypeError end.

Definition vocabulary (self : instance) : Py.result Vocabulary.t :=
  a <- getattr self "_vocabulary" ;;
  match a with AttrVocabulary v => Py.Ok v | _ => Py.Raise Py.TypeError end.

End Corpora.

Module Monolingual.
Import Corpora.

Definition __init__ (fs : filesystem) (data_path : string)
           (vocabulary : Vocabulary.t) (cuda : bool) : Py.result instance :=
  Corpora.__init__ fs data_path vocabulary cuda.

Definition _load_data (fs : filesystem) (self : instance) (path : string)
  : Py.result (list string) :=
  file <- open fs path ;;
  data <- Py.foldM (fun data line => Py.Ok (data ++ [line])) file [] ;;
  if (length data =? 0)%nat then Py.Raise Py.ValueError else Py.Ok data.

Definition initialize_corpus (fs : filesystem) (self : instance)
  : Py.result instance :=
  path <- data_path self ;;
  data <- _load_data fs self path ;;
  Py.Ok (setattr self "_data" (AttrLines data)).

(** The [data] property, for a corpus loaded by [initialize_corpus]. *)
Definition data (self : instance) : Py.result (list string) :=
  a <- getattr self "_data" ;;
  match a with AttrLines d => Py.Ok d | _ => Py.Raise Py.TypeError end.

End Monolingual.

Module Parallel.
Import Corpora.

(** [Parallel.__init__]: [separator] is accepted; the body is the call
    of the base constructor. *)
Definition __init__ (fs : filesystem) (data_path : string) (separator : string)
           (vocabulary : Vocabulary.t) (cuda : bool) : Py.result instance :=
  Corpora.__init__ fs data_path vocabulary cuda.

(** One iteration of [for line in file]:
    [data.append(line[:-1].split(self._separator_token))] *)
Definition load_line (self : instance) (data : list (list string)) (line : string)
  : Py.result (list (list string)) :=
  separator <- getattr self "_separator_token" ;;
  match separator with
  | AttrStr sep =>
      fields <- Py.split sep (Py.drop_last line) ;; Py.Ok (data ++ [fields])
  | _ => Py.Raise Py.TypeError
  end.

Definition _load_data (fs : filesystem) (self : instance) (path : string)
  : Py.result (list (list string)) :=
  file <- open fs path ;;
  data <- Py.foldM (load_line self) file [] ;;
  if (length data =? 0)%nat then Py.Raise Py.ValueError else Py.Ok data.

Definition initialize_corpus (fs : filesystem) (self : instance)
  : Py.result instance :=
  path <- data_path self ;;
  data <- _load_data fs self path ;;
  Py.Ok (setattr self "_data" (AttrRecords data)).

End Parallel.

(** ** [Language] *)

Module Language.

Section WithPipelines.
(** The input pipelines are opaque here. *)
Context {InputPipeline : Type}.

(** The [input_pipelines] argument: a [dict] keyed by strings, or an
    object of another type. *)
Inductive argument : Type :=
| Dict (d : @Py.dict string InputPipeline)
| NotADict.

Record t : Type := {
  _identifier : string;
  _input_pipelines : @Py.dict string InputPipeline;
  _vocabulary : Vocabulary.t
}.

(** [assert condition, message] *)
Definition assert (condition : bool) (message : string) : Py.result unit :=
  if condition then Py.Ok tt else Py.Raise (Py.AssertionError message).

(** The body of the [try] block. *)
Definition check_pipelines (input_pipelines : argument)
  : Py.result (@Py.dict string InputPipeline) :=
  match input_pipelines with
  | NotADict => Py.Raise (Py.AssertionError "train, dev, test")
  | Dict d =>
      _ <- assert (Py.contains string_dec d "train") "train" ;;
      _ <- assert (Py.contains string_dec d "dev") "dev" ;;
      _ <- assert (Py.contains string_dec d "test") "test" ;;
      Py.Ok d
  end.

(** [Language.__init__]: an [AssertionError] is logged and turned
    into [sys.exit()]. *)
Definition __init__ (identifier : string) (input_pipelines : argument)
           (vocabulary : Vocabulary.t) : Py.result t :=
  match check_pipelines input_pipelines with
  | Py.Raise (Py.AssertionError _) => Py.Raise Py.SystemExit
  | Py.Raise e => Py.Raise e
  | Py.Ok d =>
      Py.Ok {| _identifier := identifier;
               _input_pipelines := d;
               _vocabulary := vocabulary |}
  end.
End WithPipelines.

Arguments argument : clear implicits.
Arguments t : clear implicits.

End Language.

(** ** Row objects

    [PostPadding.create_batch] pads the rows it is given in place, so the
    rows that pipelines keep, copy and pass on are objects in a heap,
    addressed by position. *)

Module Heap.

Definition ref : Type := nat.
Definition heap : Type := list (list Z).

Definition read (h : heap) (r : ref) : list Z := nth r h [].

Fixpoint write (h : heap) (r : ref) (row : list Z) : heap :=
  match h, r with
  | [], _ => []
  | _ :: h', O => row :: h'
  | x :: h', S r' => x :: write h' r' row
  end.

(** New objects for the given rows. *)
Definition alloc (h : heap) (rows : list (list Z)) : heap * list ref :=
  (h ++ rows, seq (length h) (length rows)).

(** [copy.deepcopy] of a list of distinct row objects. *)
Definition deepcopy (h : heap) (refs : list ref) : heap * list ref :=
  alloc h (map (read h) refs).

End Heap.

(** ** NumPy arrays of integers, as far as the padders use them *)

Module Numpy.

(** A two-dimensional array is the list of its rows. *)
Definition ndarray : Type := list (list Z).

Definition rectangular (rows : list (list Z)) : bool :=
  match rows with
  | [] => true
  | r :: rs => forallb (fun r' => (length r' =? length r)%nat) rs
  end.

(** [numpy.array(rows)] for rows of integers: rows of unequal lengths
    are a [ValueError] (always with [dtype='int'], and without it since
    NumPy 1.24). *)
Definition array (rows : list (list Z)) : Py.result ndarray :=
  if rectangular rows then Py.Ok rows else Py.Raise Py.ValueError.

(** [target[:] = source] for a one-dimensional [target] of [n] cells:
    equal shapes copy, a single value is broadcast, anything else is a
    [ValueError]. *)
Definition assign (n : nat) (source : list Z) : Py.result (list Z) :=
  if (length source =? n)%nat then Py.Ok source
  else match source with
       | [x] => Py.Ok (repeat x n)
       | _ => Py.Raise Py.ValueError
       end.

End Numpy.

(** ** The padding strategies *)

Module Padding.

Inductive kind : Type := PostPadding | PrePadding.

Record t : Type := {
  strategy : kind;
  _vocabulary : Vocabulary.t;
  _max_segment_size : Z
}.

(** Modelled from the spec: [subclasses] of [src/utils/utils.py] is not
    among the sources.  The spec has the variants of an abstract
    contract found among its subclasses and chosen by name; for
    [Padding] these are the two classes below.
    [subclasses(Padding)[padding_type]]: *)
Definition subclasses (padding_type : string) : Py.result kind :=
  if String.eqb padding_type "PostPadding" then Py.Ok PostPadding
  else if String.eqb padding_type "PrePadding" then Py.Ok PrePadding
  else Py.Raise Py.KeyError.

(** [sorted(xs, key=..., reverse=True)] on keyed items: descending and
    stable (equal keys keep their order). *)
Fixpoint insert_desc {A : Type} (x : Z * A) (l : list (Z * A)) : list (Z * A) :=
  match l with
  | [] => [x]
  | y :: l' => if fst x <? fst y then y :: insert_desc x l' else x :: y :: l'
  end.

Fixpoint sorted_desc {A : Type} (l : list (Z * A)) : list (Z * A) :=
  match l with
  | [] => []
  | x :: l' => insert_desc x (sorted_desc l')
  end.

End Padding.

Module PostPadding.
Import Heap.

(** The key [x[-1]] of one row, paired with the row. *)
Definition keyed (h : heap) (r : ref) : Py.result (Z * ref) :=
  k <- Py.last_item (read h r) ;; Py.Ok (k, r).

(** [sorted(data, key=lambda x: x[-1], reverse=True)]: a new list of the
    same row objects. *)
Definition sorted_by_length (h : heap) (data : list ref) : Py.result (list ref) :=
  ks <- Py.mapM (keyed h) data ;; Py.Ok (map snd (Padding.sorted_desc ks)).

(** How often [while len(row) - 1 < batch_length] runs: every pass
    makes the row one longer. *)
Definition deficit (batch_length : Z) (row : list Z) : nat :=
  Z.to_nat (batch_length - (Z.of_nat (length row) - 1)).

(** The [while] loop on one row; [pad] is the value of
    [self._vocabulary.tokens['<PAD>']], looked up in each pass. *)
Definition pad_row (pad : Py.result Z) (batch_length : Z) (row : list Z)
  : Py.result (list Z) :=
  match deficit batch_length row with
  | O => Py.Ok row
  | S _ as n => p <- pad ;; Py.Ok (Nat.iter n (Py.insert_before_last p) row)
  end.

(** [for index in range(len(sorted_data))]: the rows are padded in
    place, one after the other. *)
Fixpoint pad_rows (pad : Py.result Z) (batch_length : Z) (sorted_data : list ref)
         (h : heap) : Py.result unit * heap :=
  match sorted_data with
  | [] => (Py.Ok tt, h)
  | r :: rest =>
      match pad_row pad batch_length (read h r) with
      | Py.Ok row => pad_rows pad batch_length rest (write h r row)
      | Py.Raise e => (Py.Raise e, h)
      end
  end.

(** [PostPadding.create_batch]: the array, and the heap it leaves. *)
Definition create_batch (self : Padding.t) (data : list ref) (h : heap)
  : Py.result Numpy.ndarray * heap :=
  match sorted_by_length h data with
  | Py.Raise e => (Py.Raise e, h)
  | Py.Ok sorted_data =>
      match (first <- Py.first_item sorted_data ;; Py.last_item (read h first)) with
      | Py.Raise e => (Py.Raise e, h)
      | Py.Ok batch_length =>
          match pad_rows (Vocabulary.pad_token (Padding._vocabulary self))
                         batch_length sorted_data h with
          | (Py.Raise e, h') => (Py.Raise e, h')
          | (Py.Ok _, h') => (Numpy.array (map (read h') sorted_data), h')
          end
      end
  end.

(** [create_batch] on a batch given by value: a list of fresh rows. *)
Definition create_batch_of (self : Padding.t) (batch : list (list Z))
  : Py.result Numpy.ndarray :=
  fst (create_batch self (seq 0 (length batch)) batch).

Section Conversion.
(** [ids_from_sentence] of [src.utils.utils]: the ids of the words of
    a sentence, or an exception. *)
Variable ids_from_sentence : Vocabulary.t -> string -> Py.result (list Z).

Definition convert_line (self : Padding.t) (data_to_ids : list (list Z))
           (line : string) : Py.result (list (list Z)) :=
  ids <- ids_from_sentence (Padding._vocabulary self) line ;;
  Py.Ok (data_to_ids ++ [ids ++ [Z.of_nat (length ids)]]).

(** [PostPadding.__call__] *)
Definition __call__ (self : Padding.t) (data : list string)
  : Py.result (list (list Z)) :=
  let size := Padding._max_segment_size self in
  indices <- Py.range 0 (Z.of_nat (length data)) size ;;
  Py.foldM (fun data_to_ids index =>
              Py.foldM (convert_line self)
                       (Py.slice data index (index + size)) data_to_ids)
           indices [].
End Conversion.

End PostPadding.

Module PrePadding.
Import Heap.

(** [PrePadding.create_batch]: sorting only; no row is written. *)
Definition create_batch (self : Padding.t) (data : list ref) (h : heap)
  : Py.result Numpy.ndarray :=
  sorted_data <- PostPadding.sorted_by_length h data ;;
  Numpy.array (map (read h) sorted_data).

Definition create_batch_of (self : Padding.t) (batch : list (list Z))
  : Py.result Numpy.ndarray :=
  create_batch self (seq 0 (length batch)) batch.

Section Conversion.
Variable ids_from_sentence : Vocabulary.t -> string -> Py.result (list Z).

(** [while len(ids) < segment_length: ids.append(<PAD>)] *)
Definition pad_ids (pad : Py.result Z) (segment_length : nat) (ids : list Z)
  : Py.result (list Z) :=
  match (segment_length - length ids)%nat with
  | O => Py.Ok ids
  | S _ as n => p <- pad ;; Py.Ok (ids ++ repeat p n)
  end.

(** The body of [for line in data[index:index + size]]. *)
Definition convert_line (self : Padding.t) (segment_length : nat)
           (data_to_ids : list (list Z)) (line : string)
  : Py.result (list (list Z)) :=
  ids <- ids_from_sentence (Padding._vocabulary self) line ;;
  let ids_len := Z.of_nat (length ids) in
  padded <- pad_ids (Vocabulary.pad_token (Padding._vocabulary self))
                    segment_length ids ;;
  (* data_line = numpy.zeros(segment_length + 1);
     data_line[:-1] = ids; data_line[-1] = ids_len *)
  cells <- Numpy.assign segment_length padded ;;
  Py.Ok (data_to_ids ++ [cells ++ [ids_len]]).

(** The body of [for index in range(0, len(data), size)]. *)
Definition convert_segment (self : Padding.t) (data : list string)
           (data_to_ids : list (list Z)) (index : Z)
  : Py.result (list (list Z)) :=
  let segment := Py.slice data index (index + Padding._max_segment_size self) in
  first <- Py.first_item segment ;;
  first_ids <- ids_from_sentence (Padding._vocabulary self) first ;;
  Py.foldM (convert_line self (length first_ids)) segment data_to_ids.

(** [PrePadding.__call__] *)
Definition __call__ (self : Padding.t) (data : list string)
  : Py.result (list (list Z)) :=
  indices <- Py.range 0 (Z.of_nat (length data)) (Padding._max_segment_size self) ;;
  Py.foldM (convert_segment self data) indices [].
End Conversion.

End PrePadding.

(** ** [MemoryInput] *)

Module MemoryInput.
Import Heap.

Record t : Type := {
  _cuda : bool;
  _shuffle : bool;
  _corpora : Corpora.instance;
  _batch_size : Z;
  _max_segment_size : Z;
  _padder : Padding.t;
  _data : list ref
}.

(** [self._padder.create_batch(data)], by the class of the padder. *)
Definition create_batch (padder : Padding.t) (data : list ref) (h : heap)
  : Py.result Numpy.ndarray * heap :=
  match Padding.strategy padder with
  | Padding.PostPadding => PostPadding.create_batch padder data h
  | Padding.PrePadding => (PrePadding.create_batch padder data h, h)
  end.

Section Pipeline.
Variable ids_from_sentence : Vocabulary.t -> string -> Py.result (list Z).
(** [sklearn.utils.shuffle]: some rearrangement of the segment. *)
Variable shuffle : list ref -> list ref.

(** [self._padder(data)] *)
Definition convert (padder : Padding.t) (data : list string)
  : Py.result (list (list Z)) :=
  match Padding.strategy padder with
  | Padding.PostPadding => PostPadding.__call__ ids_from_sentence padder data
  | Padding.PrePadding => PrePadding.__call__ ids_from_sentence padder data
  end.

(** [MemoryInput.__init__] over a monolingual corpus: the instance and
    the heap holding the rows of [_data]. *)
Definition __init__ (fs : Corpora.filesystem)
           (max_segment_size batch_size : Z) (shuffle_flag cuda : bool)
           (corpora : Corpora.instance) (padding_type : string)
  : Py.result (t * heap) :=
  strategy <- Padding.subclasses padding_type ;;
  vocabulary <- Corpora.vocabulary corpora ;;
  let padder := {| Padding.strategy := strategy;
                   Padding._vocabulary := vocabulary;
                   Padding._max_segment_size := max_segment_size |} in
  loaded <- Monolingual.initialize_corpus fs corpora ;;
  lines <- Monolingual.data loaded ;;
  rows <- convert padder lines ;;
  let (h, refs) := alloc [] rows in
  Py.Ok ({| _cuda := cuda;
            _shuffle := shuffle_flag;
            _corpora := loaded;
            _batch_size := batch_size;
            _max_segment_size := max_segment_size;
            _padder := padder;
            _data := refs |}, h).

(** One step of [_segment_generator]:
    [copy.deepcopy(self._data[index:index + self._max_segment_size])] *)
Definition _segment (self : t) (index : Z) (h : heap) : heap * list ref :=
  deepcopy h (Py.slice (_data self) index (index + _max_segment_size self)).

(** The inner [for index in range(...)] of [batch_generator] on one
    segment; [rest] is what the generator does after it. *)
Fixpoint batches (self : t) (segment : list ref) (indices : list Z) (h : heap)
         (rest : heap -> Py.gen Numpy.ndarray * heap)
  : Py.gen Numpy.ndarray * heap :=
  match indices with
  | [] => rest h
  | index :: indices' =>
      match create_batch (_padder self)
                         (Py.slice segment index (index + _batch_size self)) h with
      | (Py.Ok batch, h') =>
          let (g, h'') := batches self segment indices' h' rest in
          (Py.Yield batch g, h'')
      | (Py.Raise e, h') => (Py.Abort e, h')
      end
  end.

(** The outer [for data_segment in self._segment_generator()]. *)
Fixpoint segments (self : t) (indices : list Z) (h : heap)
  : Py.gen Numpy.ndarray * heap :=
  match indices with
  | [] => (Py.StopIteration, h)
  | index :: indices' =>
      let (h1, data_segment) := _segment self index h in
      let shuffled_data_segment :=
        if _shuffle self then shuffle data_segment else data_segment in
      match Py.range 0 (Z.of_nat (length shuffled_data_segment)
                        - _batch_size self + 1) (_batch_size self) with
      | Py.Raise e => (Py.Abort e, h1)
      | Py.Ok batch_indices =>
          batches self shuffled_data_segment batch_indices h1
                  (segments self indices')
      end
  end.

(** [MemoryInput.batch_generator], run to exhaustion from heap [h]:
    the batches it yields and the heap it leaves. *)
Definition batch_generator (self : t) (h : heap)
  : Py.gen Numpy.ndarray * heap :=
  match Py.range 0 (Z.of_nat (length (_data self))) (_max_segment_size self) with
  | Py.Raise e => (Py.Abort e, h)
  | Py.Ok indices => segments self indices h
  end.
End Pipeline.

End MemoryInput.

(** ** Helpers of [src/utils/utils.py] *)

Module Utils.

(** Modelled from the spec: [ids_from_sentence] of [src/utils/utils.py]
    is not among the sources.  The spec has it tokenize one line into
    the ids of its words, unknown words mapping to [<UNK>].  It is used
    to run the pipelines on concrete corpora only; the properties below
    hold for any function in its place. *)
Definition ids_from_sentence (vocabulary : Vocabulary.t) (sentence : string)
  : Py.result (list Z) :=
  Py.mapM (fun word =>
             match Py.get string_dec (Vocabulary._word_to_id vocabulary) word with
             | Some id => Py.Ok id
             | None => Py.getitem string_dec (Vocabulary._word_to_id vocabulary) "<UNK>"
             end)
          (Py.split_whitespace sentence).

End Utils.

(** A line of a text file: the text and its line end. *)
Definition ln (text : string) : string :=
  (text ++ String (ascii_of_nat 10) "")%string.

(** ** Predicates and concrete data used in the statements *)

Definition parses (line : string) : Prop :=
  exists ids, DataQueue.parse_line line = Py.Ok ids.

(** A concrete vocabulary and corpus, for running the code. *)

Definition demo_vocabulary_file : list string :=
  [ln "2 3"; ln "hello 0.1 0.2 0.3"; ln "world 0.4 0.5 0.6"].

Definition demo_vocabulary : Vocabulary.t :=
  {| Vocabulary._word_to_id :=
       [("hello", 0); ("world", 1); ("<2>", 2);
        ("<SOS>", 3); ("<EOS>", 4); ("<UNK>", 5); ("<PAD>", 6)];
     Vocabulary._id_to_word :=
       [(0, "hello"); (1, "world"); (2, "<2>");
        (3, "<SOS>"); (4, "<EOS>"); (5, "<UNK>"); (6, "<PAD>")];
     Vocabulary._language_identifiers := ["<2>"];
     Vocabulary._cuda := false;
     Vocabulary._provided := true;
     Vocabulary.requires_grad := false;
     Vocabulary._vocab_size := 7;
     Vocabulary._embedding_size := 3 |}.

Definition demo_fs (lines : list string) : Corpora.filesystem :=
  fun path => if String.eqb path "corpus.txt" then Some lines else None.

Definition demo_pipelines (keys : list string) : @Py.dict string nat :=
  combine keys (seq 0 (length keys)).

(** The failures that the specification calls InvalidKey: a lookup by
    a value ([KeyError]) or by a type ([ValueError]) outside the
    supported set. *)
Definition InvalidKey (e : Py.exception) : Prop :=
  e = Py.KeyError \/ e = Py.ValueError.

Definition supported_id (e : Vocabulary.expression) : option Z :=
  match e with
  | Vocabulary.Int id | Vocabulary.NpInt32 id | Vocabulary.NpInt64 id => Some id
  | _ => None
  end.

Definition unsupported (e : Vocabulary.expression) : Prop :=
  match e with
  | Vocabulary.Bool _ | Vocabulary.Other => True
  | _ => False
  end.

Definition has {InputPipeline : Type} (d : @Py.dict string InputPipeline)
  (key : string) : Prop :=
  Py.get string_dec d key <> None.

(** The vocabulary file: [line.split(' ')] gives the word of a line and
    the fields that hold its weights. *)
Definition word_of (line : string) : string :=
  hd "" (Py.split_from " " 0 "" line).

Definition weights_of (line : string) : list string :=
  tl (Py.split_from " " 0 "" line).

(** The words listed by a vocabulary file, in the order of their lines. *)
Definition words (file : list string) : list string :=
  map word_of (tl file).

(** The first line reads "N D". *)
Definition declares (header : string) (N D : Z) : Prop :=
  exists a b rest,
    Py.split " " header = Py.Ok (a :: b :: rest)
    /\ Py.int a = Py.Ok N /\ Py.int b = Py.Ok D.

(** A word line carries [D] numbers after its word. *)
Definition valid_line (float_accepts : string -> bool) (D : Z) (line : string)
  : Prop :=
  forallb float_accepts (weights_of line) = true
  /\ Z.of_nat (length (weights_of line)) = D.

(** A valid vocabulary file: a header "N D" followed by [N] word lines
    of [D] weights each. *)
Record valid_vocabulary_file (float_accepts : string -> bool)
       (file : list string) (N D : Z) : Prop := {
  valid_header : declares (hd "" file) N D;
  valid_dimension : 0 <= D;
  valid_count : Z.of_nat (length (tl file)) = N;
  valid_lines : Forall (valid_line float_accepts D) (tl file)
}.

(** The tokens in the order in which [_load_data] inserts them. *)
Definition inserted_tokens (file : list string) (language_identifiers : list string)
  : list string :=
  words file ++ language_identifiers ++ Vocabulary.reserved_tokens.

(** Consecutive ids from [start] on. *)
Fixpoint number (start : Z) (tokens : list string) : @Py.dict string Z :=
  match tokens with
  | [] => []
  | token :: rest => (token, start) :: number (start + 1) rest
  end.

(** The assignments of the loop over the word lines, on the table alone. *)
Fixpoint assign_words (index : Z) (ws : list string) (d : @Py.dict string Z)
  : @Py.dict string Z :=
  match ws with
  | [] => d
  | w :: ws' => assign_words (index + 1) ws' (Py.set string_dec d w index)
  end.

(** The table part of [_load_data]. *)
Definition table (file language_identifiers : list string) : @Py.dict string Z :=
  let words := assign_words 0 (words file) [] in
  let with_identifiers := fold_left Vocabulary.add_token language_identifiers words in
  Vocabulary.add_token (Vocabulary.add_token (Vocabulary.add_token (Vocabulary.add_token with_identifiers "<SOS>") "<EOS>")
                       "<UNK>") "<PAD>".


(** A vocabulary file that lists [<UNK>] among its words. *)
Definition unk_vocabulary_file : list string :=
  [ln "2 1"; ln "<UNK> 0.5"; ln "a 0.25"].

(** A converted sample: the ids of a sentence followed by their number. *)
Definition sample (ids : list Z) : list Z :=
  ids ++ [Z.of_nat (length ids)].

(** A sample padded to [n] ids: the ids, the pad cells, the true length. *)
Definition padded (pad : Z) (n : nat) (ids : list Z) : list Z :=
  ids ++ repeat pad (n - length ids) ++ [Z.of_nat (length ids)].

(** The greatest true length of a batch. *)
Definition max_length (batch : list (list Z)) : nat :=
  list_max (map (@length Z) batch).

(** Descending by true length. *)
Definition longer_first (a b : list Z) : Prop := (length b <= length a)%nat.

(** The order of [sorted(..., reverse=True)] on keyed items. *)
Definition key_desc {A : Type} (a b : Z * A) : Prop := fst b <= fst a.

(** The samples in the order of [sorted(..., reverse=True)] by length. *)
Definition by_length (samples : list (list Z)) : list (list Z) :=
  map snd (Padding.sorted_desc (map (fun ids => (Z.of_nat (length ids), ids)) samples)).

Definition demo_padder (strategy : Padding.kind) : Padding.t :=
  {| Padding.strategy := strategy;
     Padding._vocabulary := demo_vocabulary;
     Padding._max_segment_size := 2 |}.

(** Rows in the order of [sorted(..., key=lambda x: x[-1], reverse=True)]. *)
Definition by_true_length (rows : list (list Z)) : list (list Z) :=
  map snd (Padding.sorted_desc (map (fun row => (last row 0, row)) rows)).

(** Descending by the trailing field. *)
Definition true_length_desc (a b : list Z) : Prop := last b 0 <= last a 0.

(** The chunk of [l] that starts at [index]. *)
Definition chunk {A : Type} (size : Z) (l : list A) (index : Z) : list A :=
  Py.slice l index (index + size).

(** What [PrePadding] makes of one chunk of tokenized sentences: every
    sample is padded to the number of ids of the first. *)
Definition pre_padded_chunk (pad : Z) (tokens : list (list Z)) : list (list Z) :=
  map (padded pad (length (hd [] tokens))) tokens.

(** No sentence of the chunk has more ids than the first. *)
Definition first_is_longest (tokens : list (list Z)) : Prop :=
  Forall (fun ids => (length ids <= length (hd [] tokens))%nat) tokens.

(** The sentence [line] has the ids [ids]. *)
Definition tokenized (ids_from_sentence : Vocabulary.t -> string -> Py.result (list Z))
           (self : Padding.t) (line : string) (ids : list Z) : Prop :=
  ids_from_sentence (Padding._vocabulary self) line = Py.Ok ids.

Definition demo_corpus : list string :=
  [ln "hello world"; ln "hello"; ln "world"].

(** The heap [h] is [old] with rows added behind it. *)
Definition extends (old h : Heap.heap) : Prop := exists t, h = old ++ t.

(** Two heaps hold the same rows at the references [data]. *)
Definition agree (data : list Heap.ref) (h h' : Heap.heap) : Prop :=
  forall r, In r data ->
            (r < length h)%nat /\ (r < length h')%nat /\ Heap.read h r = Heap.read h' r.

(** The rows that an instance keeps are distinct objects of the heap. *)
Definition well_formed (self : MemoryInput.t) (h : Heap.heap) : Prop :=
  NoDup (MemoryInput._data self)
  /\ forall r, In r (MemoryInput._data self) -> (r < length h)%nat.

(** [create_batch] on a batch given by value. *)
Definition batch_of (padder : Padding.t) (rows : list (list Z))
  : Py.result Numpy.ndarray :=
  fst (MemoryInput.create_batch padder (seq 0 (length rows)) rows).

(** A batch that [create_batch] turns into an array of as many rows. *)
Definition batchable (padder : Padding.t) (rows : list (list Z)) : Prop :=
  exists array, batch_of padder rows = Py.Ok array /\ length array = length rows.

Definition demo_five_lines : list string :=
  [ln "hello"; ln "hello world"; ln "world moon hello"; ln "world"; ln "hello hello"].

Definition demo_corpora : Corpora.instance :=
  [("_vocabulary", Corpora.AttrVocabulary demo_vocabulary);
   ("_data_path", Corpora.AttrStr "corpus.txt");
   ("_cuda", Corpora.AttrBool false);
   ("_data", Corpora.AttrNone)].

(** Every id of the table lies in [0, bound). *)
Definition ids_below (bound : Z) (d : @Py.dict string Z) : Prop :=
  Forall (fun entry => 0 <= snd entry < bound) d.


(** A vocabulary file that lists more words than the matrix has rows. *)
Definition overfull_vocabulary_file : list string :=
  [ln "1 1"; ln "a 0.5"; ln "b 0.5"; ln "c 0.5"; ln "d 0.5"; ln "e 0.5"; ln "f 0.5"].


(** A row with [<PAD>] cells put before its last cell, so that at least
    [n] cells come before it. *)
Definition widened (pad : Z) (n : nat) (row : list Z) : list Z :=
  removelast row ++ repeat pad (n - length (removelast row)) ++ [last row 0].

(** The greatest trailing field of a batch: that of the first row in the
    sorted order. *)
Definition greatest_key (rows : list (list Z)) : Z :=
  last (hd [] (by_true_length rows)) 0.


(** The pieces of [size] elements that start at the multiples of
    [size]: the first [count] of them. *)
Definition pieces {A : Type} (size count : nat) (l : list A) : list (list A) :=
  map (fun i => firstn size (skipn (i * size) l)) (seq 0 count).

(** The segments of a pass: consecutive pieces that cover the list, the
    last of them possibly short. *)
Definition segments_of {A : Type} (size : Z) (l : list A) : list (list A) :=
  pieces (Z.to_nat size) (Z.to_nat ((Z.of_nat (length l) + size - 1) / size)) l.

(** The batches of a segment: its full pieces only. *)
Definition full_batches {A : Type} (size : Z) (l : list A) : list (list A) :=
  pieces (Z.to_nat size) (Z.to_nat (Z.of_nat (length l) / size)) l.

(** The arrays of batches given by value, up to the first batch that
    [create_batch] refuses, followed by [rest]. *)
Fixpoint arrays_then (padder : Padding.t) (batches : list (list (list Z)))
         (rest : Py.gen Numpy.ndarray) : Py.gen Numpy.ndarray :=
  match batches with
  | [] => rest
  | rows :: more =>
      match batch_of padder rows with
      | Py.Ok array => Py.Yield array (arrays_then padder more rest)
      | Py.Raise e => Py.Abort e
      end
  end.

Definition arrays_of (padder : Padding.t) (batches : list (list (list Z)))
  : Py.gen Numpy.ndarray :=
  arrays_then padder batches Py.StopIteration.

(** The array that [PostPadding] makes of a batch of tokenized
    sentences. *)
Definition post_array (pad : Z) (batch : list (list Z)) : Numpy.ndarray :=
  map (padded pad (max_length batch)) (by_length batch).

(** The generator that yields the given values and ends. *)
Definition yields {A : Type} (values : list A) : Py.gen A :=
  fold_right (fun value rest => Py.Yield value rest) Py.StopIteration values.


(** A pipeline over five converted rows, for running the generator. *)
Definition demo_rows : Heap.heap :=
  [[0; 1]; [0; 1; 2]; [1; 5; 0; 3]; [1; 1]; [0; 0; 2]].

Definition demo_input (max_segment_size batch_size : Z) : MemoryInput.t :=
  {| MemoryInput._cuda := false;
     MemoryInput._shuffle := false;
     MemoryInput._corpora := demo_corpora;
     MemoryInput._batch_size := batch_size;
     MemoryInput._max_segment_size := max_segment_size;
     MemoryInput._padder := demo_padder Padding.PostPadding;
     MemoryInput._data := [0; 1; 2; 3; 4]%nat |}.


(** ** The functions of [os.path] that [_location_scheme] calls, on
    POSIX paths *)

Module Os.

(** [s.rfind(c)]: the position of the last [c] of [s], if there is one. *)
Fixpoint rfind (c : ascii) (s : string) : option nat :=
  match s with
  | EmptyString => None
  | String a s' =>
      match rfind c s' with
      | Some i => Some (S i)
      | None => if Ascii.eqb a c then Some 0%nat else None
      end
  end.

(** [s[:n]] *)
Fixpoint take (n : nat) (s : string) : string :=
  match n, s with
  | S n', String c s' => String c (take n' s')
  | _, _ => EmptyString
  end.

(** [s[n:]] *)
Fixpoint drop (n : nat) (s : string) : string :=
  match n, s with
  | S n', String _ s' => drop n' s'
  | _, _ => s
  end.

Fixpoint drop_slashes (l : list ascii) : list ascii :=
  match l with
  | c :: l' => if Ascii.eqb c "/" then drop_slashes l' else l
  | [] => []
  end.

(** [s.rstrip('/')] *)
Definition rstrip_slashes (s : string) : string :=
  string_of_list_ascii (rev (drop_slashes (rev (list_ascii_of_string s)))).

Definition only_slashes (s : string) : bool :=
  forallb (fun c => Ascii.eqb c "/") (list_ascii_of_string s).

(** [s.endswith('/')] *)
Definition ends_with_slash (s : string) : bool :=
  match rev (list_ascii_of_string s) with
  | c :: _ => Ascii.eqb c "/"
  | [] => false
  end.

(** [os.path.basename]: what follows the last slash. *)
Definition basename (p : string) : string :=
  match rfind "/" p with
  | Some i => drop (S i) p
  | None => p
  end.

(** [os.path.dirname]: what precedes the last slash, without trailing
    slashes unless it consists of slashes only. *)
Definition dirname (p : string) : string :=
  let head := match rfind "/" p with
              | Some i => take (S i) p
              | None => EmptyString
              end in
  if negb (String.eqb head "") && negb (only_slashes head)
  then rstrip_slashes head else head.

(** [os.path.splitext]: the extension starts at the last dot of the
    last component, unless only dots come before it there. *)
Definition splitext (p : string) : string * string :=
  let filename_index := match rfind "/" p with
                        | Some i => S i
                        | None => 0%nat
                        end in
  match rfind "." p with
  | Some dot_index =>
      if (filename_index <=? dot_index)%nat
         && existsb (fun c => negb (Ascii.eqb c "."))
                    (list_ascii_of_string
                       (take (dot_index - filename_index) (drop filename_index p)))
      then (take dot_index p, drop dot_index p)
      else (p, EmptyString)
  | None => (p, EmptyString)
  end.

(** [os.path.join(a, b)] *)
Definition join (a b : string) : string :=
  if String.prefix "/" b then b
  else if String.eqb a "" || ends_with_slash a then (a ++ b)%string
       else (a ++ "/" ++ b)%string.

End Os.

(** ** [DataQueue.__init__] and the id-cache file

    Writing a file replaces what the file system holds at its path. *)

Module DataQueueCache.
Import Corpora.

Record t : Type := {
  _data_path : string;
  _id_data_path : string;
  _corpora : instance;
  _max_segment_size : Z;
  _data_segment_queue : list (list (list Z))
}.

Definition digit (d : Z) : ascii := ascii_of_nat (48 + Z.to_nat d).

(** The decimal digits of [n >= 0] in front of [less_significant];
    [fuel] bounds the number of digits. *)
Fixpoint digits (fuel : nat) (n : Z) (less_significant : string) : string :=
  match fuel with
  | O => less_significant
  | S fuel' =>
      let s := String (digit (n mod 10)) less_significant in
      if n / 10 =? 0 then s else digits fuel' (n / 10) s
  end.

(** [str(z)] and ['%d' % z] for an [int]. *)
Definition str (z : Z) : string :=
  if z <? 0 then String "-" (digits (S (Z.to_nat (- z))) (- z) "")
  else digits (S (Z.to_nat z)) z "".

(** ['%s %d\n' % (' '.join(list(map(str, ids))), len(ids))] *)
Definition id_line (ids : list Z) : string :=
  (String.concat " " (map str ids) ++ " " ++ ln (str (Z.of_nat (length ids))))%string.

(** The file system after [open(path, 'w')], the writes of [lines] and
    the close. *)
Definition write (fs : filesystem) (path : string) (lines : list string)
  : filesystem :=
  fun p => if String.eqb p path then Some lines else fs p.

Section Generation.
Variable ids_from_sentence : Vocabulary.t -> string -> Py.result (list Z).
(** [os.path.realpath], which depends on the links of the file system
    and on the working directory. *)
Variable realpath : string -> string.

(** [DataQueue._location_scheme] *)
Definition _location_scheme (path : string) : string :=
  let file_name := Os.splitext (Os.basename path) in
  Os.join (Os.dirname (realpath path))
          (fst file_name ++ "_id" ++ snd file_name)%string.

(** [for line in text_file] of [_generate_id_file]: the lines written
    to the id file so far, and how the loop ends. *)
Fixpoint write_ids (corpora : instance) (text_file : list string)
         (written : list string) : Py.result unit * list string :=
  match text_file with
  | [] => (Py.Ok tt, written)
  | line :: text_file' =>
      match (vocabulary <- Corpora.vocabulary corpora ;;
             ids_from_sentence vocabulary line) with
      | Py.Ok ids => write_ids corpora text_file' (written ++ [id_line ids])
      | Py.Raise e => (Py.Raise e, written)
      end
  end.

(** [DataQueue._generate_id_file], for an id path that is not the data
    path: the id file is created before the first sentence is read, and
    closed with what was written when the loop ends or raises. *)
Definition _generate_id_file (self : t) (fs : filesystem)
  : Py.result unit * filesystem :=
  match fs (_data_path self) with
  | None => (Py.Raise Py.OSError, fs)
  | Some text_file =>
      let (outcome, written) := write_ids (_corpora self) text_file [] in
      (outcome, write fs (_id_data_path self) written)
  end.

(** [DataQueue.__init__]: the instance, and the file system it leaves. *)
Definition __init__ (fs : filesystem) (corpora : instance) (max_segment_size : Z)
  : Py.result t * filesystem :=
  match Corpora.data_path corpora with
  | Py.Raise e => (Py.Raise e, fs)
  | Py.Ok data_path =>
      let self := {| _data_path := data_path;
                     _id_data_path := _location_scheme data_path;
                     _corpora := corpora;
                     _max_segment_size := max_segment_size;
                     _data_segment_queue := [] |} in
      match fs (_id_data_path self) with
      | Some _ => (Py.Ok self, fs)
      | None =>
          match _generate_id_file self fs with
          | (Py.Ok _, fs') => (Py.Ok self, fs')
          | (Py.Raise e, fs') => (Py.Raise e, fs')
          end
      end
  end.
End Generation.

(** [DataQueue.generator] of an instance, over the file system as it is
    when the generator is started. *)
Definition generator (self : t) (fs : filesystem) : Py.gen (list (list Z)) :=
  match fs (_id_data_path self) with
  | None => Py.Abort Py.OSError
  | Some id_file => DataQueue.generator (_max_segment_size self) id_file
  end.

End DataQueueCache.

(** ** [FileInput] *)

Module FileInput.
Import Heap.

Record t : Type := {
  _cuda : bool;
  _corpora : Corpora.instance;
  _batch_size : Z;
  _shuffle : bool;
  _max_segment_size : Z;
  _data_reader : DataQueueCache.t;
  _padder : Padding.t
}.

(** [FileInput.batch_generator] has the body of
    [MemoryInput.batch_generator], word for word: its inner loop is that
    of a [MemoryInput] with the same padder and batch size. *)
Definition as_memory_input (self : t) : MemoryInput.t :=
  {| MemoryInput._cuda := _cuda self;
     MemoryInput._shuffle := _shuffle self;
     MemoryInput._corpora := _corpora self;
     MemoryInput._batch_size := _batch_size self;
     MemoryInput._max_segment_size := _max_segment_size self;
     MemoryInput._padder := _padder self;
     MemoryInput._data := [] |}.

Section Pipeline.
Variable ids_from_sentence : Vocabulary.t -> string -> Py.result (list Z).
Variable realpath : string -> string.
Variable shuffle : list ref -> list ref.

(** [FileInput.__init__]: the instance, and the file system that the
    construction of the [DataQueue] leaves. *)
Definition __init__ (fs : Corpora.filesystem)
           (max_segment_size batch_size : Z) (cuda shuffle_flag : bool)
           (corpora : Corpora.instance) (padding_type : string)
  : Py.result t * Corpora.filesystem :=
  match DataQueueCache.__init__ ids_from_sentence realpath fs corpora
                                DataQueue.MAX_SEGMENT with
  | (Py.Raise e, fs') => (Py.Raise e, fs')
  | (Py.Ok data_reader, fs') =>
      (strategy <- Padding.subclasses padding_type ;;
       vocabulary <- Corpora.vocabulary corpora ;;
       Py.Ok {| _cuda := cuda;
                _corpora := corpora;
                _batch_size := batch_size;
                _shuffle := shuffle_flag;
                _max_segment_size := max_segment_size;
                _data_reader := data_reader;
                _padder := {| Padding.strategy := strategy;
                              Padding._vocabulary := vocabulary;
                              Padding._max_segment_size := max_segment_size |} |},
       fs')
  end.

(** The loops of [batch_generator] over the segments that
    [_segment_generator] cuts out of one segment of the file; [rest] is
    what happens after them. *)
Fixpoint segments (self : t) (file_data_segment : list ref) (indices : list Z)
         (h : heap) (rest : heap -> Py.gen Numpy.ndarray * heap)
  : Py.gen Numpy.ndarray * heap :=
  match indices with
  | [] => rest h
  | index :: indices' =>
      let (h1, data_segment) :=
        deepcopy h (Py.slice file_data_segment index
                             (index + _max_segment_size self)) in
      let shuffled_data_segment :=
        if _shuffle self then shuffle data_segment else data_segment in
      match Py.range 0 (Z.of_nat (length shuffled_data_segment)
                        - _batch_size self + 1) (_batch_size self) with
      | Py.Raise e => (Py.Abort e, h1)
      | Py.Ok batch_indices =>
          MemoryInput.batches (as_memory_input self) shuffled_data_segment
                              batch_indices h1
                              (fun h' => segments self file_data_segment indices' h' rest)
      end
  end.

(** [for file_data_segment in self._data_reader.generator()]: the rows
    of a segment of the file are new objects. *)
Fixpoint file_segments (self : t) (queue : Py.gen (list (list Z))) (h : heap)
  : Py.gen Numpy.ndarray * heap :=
  match queue with
  | Py.Yield rows queue' =>
      let (h0, file_data_segment) := alloc h rows in
      match Py.range 0 (Z.of_nat (length file_data_segment))
                     (_max_segment_size self) with
      | Py.Raise e => (Py.Abort e, h0)
      | Py.Ok indices =>
          segments self file_data_segment indices h0 (file_segments self queue')
      end
  | Py.StopIteration => (Py.StopIteration, h)
  | Py.Abort e => (Py.Abort e, h)
  end.

(** [FileInput.batch_generator], run to exhaustion over the file system
    [fs] from heap [h]. *)
Definition batch_generator (self : t) (fs : Corpora.filesystem) (h : heap)
  : Py.gen Numpy.ndarray * heap :=
  file_segments self (DataQueueCache.generator (_data_reader self) fs) h.
End Pipeline.

End FileInput.

(** The arrays of the segments of an id-cache file, given by value. *)
Fixpoint file_arrays (padder : Padding.t) (max_segment_size batch_size : Z)
         (queue : Py.gen (list (list Z))) : Py.gen Numpy.ndarray :=
  match queue with
  | Py.Yield rows queue' =>
      arrays_then padder
                  (flat_map (full_batches batch_size)
                            (segments_of max_segment_size rows))
                  (file_arrays padder max_segment_size batch_size queue')
  | Py.StopIteration => Py.StopIteration
  | Py.Abort e => Py.Abort e
  end.

(** No character of [s] is white space. *)
Definition spaceless (s : string) : Prop :=
  Forall (fun c => Py.is_space c = false) (list_ascii_of_string s).

(** A word: not empty, and without white space. *)
Definition wordlike (s : string) : Prop := s <> "" /\ spaceless s.

Definition demo_realpath (path : string) : string := ("/data/" ++ path)%string.


(** A corpus whose second sentence does not tokenize, for running the
    constructors. *)
Definition picky_ids_from_sentence (vocabulary : Vocabulary.t) (sentence : string)
  : Py.result (list Z) :=
  if String.eqb sentence (ln "???") then Py.Raise Py.KeyError
  else Utils.ids_from_sentence vocabulary sentence.

Definition demo_file_input (max_segment_size batch_size : Z) : FileInput.t :=
  {| FileInput._cuda := false;
     FileInput._corpora := demo_corpora;
     FileInput._batch_size := batch_size;
     FileInput._shuffle := false;
     FileInput._max_segment_size := max_segment_size;
     FileInput._data_reader :=
       {| DataQueueCache._data_path := "corpus.txt";
          DataQueueCache._id_data_path := "/data/corpus_id.txt";
          DataQueueCache._corpora := demo_corpora;
          DataQueueCache._max_segment_size := 2;
          DataQueueCache._data_segment_queue := [] |};
     FileInput._padder := demo_padder Padding.PostPadding |}.

Definition demo_id_fs : Corpora.filesystem :=
  DataQueueCache.write (demo_fs demo_five_lines) "/data/corpus_id.txt"
    [ln "0 1"; ln "0 1 2"; ln "1 1"; "not a row"; ln "0 0 2"].


Definition demo_pre_file_input : FileInput.t :=
  {| FileInput._cuda := false;
     FileInput._corpora := demo_corpora;
     FileInput._batch_size := 2;
     FileInput._shuffle := false;
     FileInput._max_segment_size := 3;
     FileInput._data_reader :=
       {| DataQueueCache._data_path := "corpus.txt";
          DataQueueCache._id_data_path := "/data/corpus_id.txt";
          DataQueueCache._corpora := demo_corpora;
          DataQueueCache._max_segment_size := DataQueue.MAX_SEGMENT;
          DataQueueCache._data_segment_queue := [] |};
     FileInput._padder := demo_padder Padding.PrePadding |}.

(** A corpus in which the first sentence of every chunk of three is a
    longest one. *)
Definition demo_sorted_lines : list string :=
  [ln "world moon hello"; ln "hello world"; ln "hello"; ln "hello hello"; ln "world"].


(* ================================================================== *)
(** * Part II. Properties                                              *)
(* ================================================================== *)

(** ** [DataQueue.generator] *)

Section DataQueueFacts.
Import DataQueue.


Lemma total_size_cons (segment : list (list Z)) (segments : list (list (list Z))) :
  total_size (segment :: segments) = (length segment + total_size segments)%nat.
Proof. reflexivity. Qed.

(** What the loop yields from an accumulator of [a] rows and [M] more
    lines: one line in every [S + 1] is consumed by the branch that
    yields and is not kept. *)
Lemma generator_loop_counts (S : Z) (file : list string) :
  1 <= S ->
  Forall parses file ->
  forall acc : list (list Z),
    Z.of_nat (length acc) <= S ->
    let run := generator_loop S acc file in
    let n := Z.of_nat (length acc) + Z.of_nat (length file) in
    Py.outcome run = None /\
    Z.of_nat (length (Py.yielded run)) = n / (S + 1) + 1 /\
    Z.of_nat (total_size (Py.yielded run)) = n - n / (S + 1).
Proof.
  intros HS Hfile. induction Hfile as [| line file [ids Hids] _ IH]; intros acc Hacc.
  - cbn. rewrite Z.add_0_r, Z.div_small by lia.
    unfold total_size. cbn. repeat split; lia.
  - cbn [generator_loop].
    destruct (Z.ltb_spec (Z.of_nat (length acc)) S) as [Hlt | Hge].
    + rewrite Hids.
      specialize (IH (acc ++ [ids])).
      rewrite length_app in IH. cbn [length] in IH.
      cbn zeta in IH |- *.
      replace (Z.of_nat (length acc) + Z.of_nat (length (line :: file)))
        with (Z.of_nat (length acc + 1) + Z.of_nat (length file))
        by (cbn [length]; lia).
      apply IH. lia.
    + assert (Hfull : Z.of_nat (length acc) = S) by lia.
      specialize (IH [] ltac:(cbn; lia)). cbn zeta in IH.
      destruct IH as (Hout & Hlen & Htot).
      cbn [length Z.of_nat Z.add] in Hlen, Htot.
      cbn [Py.outcome Py.yielded length].
      replace (Z.of_nat (length acc) + Z.of_nat (Datatypes.S (length file)))
        with (Z.of_nat (length file) + 1 * (S + 1)) by lia.
      rewrite Z.div_add by lia.
      rewrite total_size_cons, Nat2Z.inj_add.
      remember (Z.of_nat (length file) / (S + 1)) as q.
      repeat split; [exact Hout | lia | lia].
Qed.

(** Over a well-formed id-cache file of [M] lines and a segment size
    [S >= 1] the generator ends normally after [M / (S + 1) + 1]
    segments that hold [M - M / (S + 1)] lines in all. *)
Lemma generator_counts (S : Z) (id_file : list string) :
  1 <= S ->
  Forall parses id_file ->
  let run := generator S id_file in
  let M := Z.of_nat (length id_file) in
  Py.outcome run = None /\
  Z.of_nat (length (Py.yielded run)) = M / (S + 1) + 1 /\
  Z.of_nat (total_size (Py.yielded run)) = M - M / (S + 1).
Proof.
  intros HS Hfile.
  apply (generator_loop_counts S id_file HS Hfile []). cbn. lia.
Qed.

(** The segment that is complete when the file ends is yielded as it
    is; an empty accumulator is yielded too. *)
Lemma generator_loop_end (S : Z) (acc : list (list Z)) :
  generator_loop S acc [] = Py.Yield acc Py.StopIteration.
Proof. reflexivity. Qed.

(** C1 (the code departs from the claim).  An id-cache file of five
    lines read with a segment size of two: the generator yields two
    segments, not ceil(5/2) = 3, and they hold four lines, not five.
    The third line reaches the loop when the accumulator is full; the
    branch that yields the segment never appends it. *)
Theorem C1_generator_loses_lines :
  let id_file := [ln "11 1"; ln "12 1"; ln "13 1"; ln "14 1"; ln "15 1"] in
  let run := DataQueue.generator 2 id_file in
  Py.outcome run = None /\
  Py.yielded run = [ [[11; 1]; [12; 1]]; [[14; 1]; [15; 1]] ] /\
  length (Py.yielded run) = 2%nat /\
  total_size (Py.yielded run) = 4%nat /\
  length id_file = 5%nat.
Proof. vm_compute. repeat split; reflexivity. Qed.

End DataQueueFacts.


(** The vocabulary scenario of the specification. *)
Example demo_vocabulary_loaded :
  Vocabulary.__init__ (fun _ => true) demo_vocabulary_file ["<2>"] true true false
  = Py.Ok demo_vocabulary.
Proof. vm_compute. reflexivity. Qed.


(** ** [Parallel] *)

Section ParallelFacts.
Import Corpora.

(** The attributes that exist after [Corpora.__init__]. *)
Lemma Corpora_init_attributes fs data_path vocabulary cuda self :
  Corpora.__init__ fs data_path vocabulary cuda = Py.Ok self ->
  self = [("_vocabulary", AttrVocabulary vocabulary);
          ("_data_path", AttrStr data_path);
          ("_cuda", AttrBool cuda);
          ("_data", AttrNone)].
Proof.
  unfold Corpora.__init__. destruct (fs data_path); [| discriminate].
  intros H. injection H as <-. reflexivity.
Qed.

(** C10.  A [Parallel] instance never has the attribute
    [_separator_token]: the constructor only runs the base constructor.
    So [initialize_corpus] on a data file with at least one line raises
    [AttributeError] while handling the first line, and no sample is
    produced. *)
Theorem C10_parallel_never_loads
        (fs fs' : filesystem) (data_path separator : string)
        (vocabulary : Vocabulary.t) (cuda : bool) (self : instance)
        (line : string) (file : list string) :
  Parallel.__init__ fs data_path separator vocabulary cuda = Py.Ok self ->
  fs' data_path = Some (line :: file) ->
  getattr self "_separator_token" = Py.Raise (Py.AttributeError "_separator_token")
  /\ Parallel.load_line self [] line = Py.Raise (Py.AttributeError "_separator_token")
  /\ Parallel.initialize_corpus fs' self
     = Py.Raise (Py.AttributeError "_separator_token").
Proof.
  intros Hinit Hfile.
  apply Corpora_init_attributes in Hinit. subst self.
  repeat split; try reflexivity.
  unfold Parallel.initialize_corpus, Parallel._load_data, Corpora.data_path, open.
  cbn. rewrite Hfile. reflexivity.
Qed.

Lemma C10_parallel_never_loads_witness :
  exists self,
    Parallel.__init__ (demo_fs [ln "hello|world"]) "corpus.txt" "|"
                      demo_vocabulary false = Py.Ok self
    /\ Parallel.initialize_corpus (demo_fs [ln "hello|world"]) self
       = Py.Raise (Py.AttributeError "_separator_token").
Proof.
  eexists. split; [reflexivity |].
  apply (C10_parallel_never_loads
           (demo_fs [ln "hello|world"]) (demo_fs [ln "hello|world"])
           "corpus.txt" "|" demo_vocabulary false _ (ln "hello|world") []);
    reflexivity.
Defined.

(** With the attribute set by hand the loader does split the lines. *)
Example Parallel_load_line_with_separator :
  Parallel.load_line [("_separator_token", AttrStr "|")] [] (ln "hello|world")
  = Py.Ok [["hello"; "world"]].
Proof. vm_compute. reflexivity. Qed.

End ParallelFacts.

(** ** [Language] *)

Section LanguageFacts.
Context {InputPipeline : Type}.
Import Language.


Lemma contains_true (d : @Py.dict string InputPipeline) key :
  has d key -> Py.contains string_dec d key = true.
Proof. unfold has, Py.contains. destruct (Py.get string_dec d key); congruence. Qed.

Lemma contains_false (d : @Py.dict string InputPipeline) key :
  Py.get string_dec d key = None -> Py.contains string_dec d key = false.
Proof. unfold Py.contains. intros ->. reflexivity. Qed.

(** C7, as the code has it.  An argument that is not a [dict], or a
    [dict] without one of the keys [train], [dev], [test], ends the
    constructor with [sys.exit()]: no [Language] is returned.  A [dict]
    that has the three keys is accepted and stored as it is, whatever
    other keys it has. *)
Theorem C7_language_requires_pipelines
        (identifier : string) (vocabulary : Vocabulary.t) :
  Language.__init__ (InputPipeline := InputPipeline) identifier NotADict vocabulary
  = Py.Raise Py.SystemExit
  /\ (forall d : @Py.dict string InputPipeline,
        Py.get string_dec d "train" = None \/
        Py.get string_dec d "dev" = None \/
        Py.get string_dec d "test" = None ->
        Language.__init__ identifier (Dict d) vocabulary = Py.Raise Py.SystemExit)
  /\ (forall d : @Py.dict string InputPipeline,
        has d "train" -> has d "dev" -> has d "test" ->
        Language.__init__ identifier (Dict d) vocabulary
        = Py.Ok {| _identifier := identifier;
                   _input_pipelines := d;
                   _vocabulary := vocabulary |}).
Proof.
  split; [reflexivity |]. split.
  - intros d Hmissing. unfold Language.__init__, check_pipelines.
    destruct (Py.get string_dec d "train") eqn:Htrain.
    + rewrite (contains_true d "train") by (unfold has; congruence).
      destruct (Py.get string_dec d "dev") eqn:Hdev.
      * rewrite (contains_true d "dev") by (unfold has; congruence).
        destruct Hmissing as [H | [H | H]]; try discriminate.
        rewrite (contains_false d "test" H). reflexivity.
      * rewrite (contains_false d "dev" Hdev). reflexivity.
    + rewrite (contains_false d "train" Htrain). reflexivity.
  - intros d Htrain Hdev Htest. unfold Language.__init__, check_pipelines.
    rewrite !contains_true by assumption. reflexivity.
Qed.

End LanguageFacts.


Lemma C7_language_requires_pipelines_witness :
  Language.__init__ "en" (Language.Dict (demo_pipelines ["train"; "test"]))
                    demo_vocabulary = Py.Raise Py.SystemExit
  /\ Language.__init__ "en" (Language.Dict (demo_pipelines ["train"; "dev"; "test"]))
                       demo_vocabulary
     = Py.Ok {| Language._identifier := "en";
                Language._input_pipelines := demo_pipelines ["train"; "dev"; "test"];
                Language._vocabulary := demo_vocabulary |}.
Proof.
  destruct (C7_language_requires_pipelines (InputPipeline := nat) "en" demo_vocabulary)
    as (_ & Hmissing & Hpresent).
  split.
  - apply Hmissing. right. left. reflexivity.
  - apply Hpresent; unfold has; vm_compute; discriminate.
Defined.

(** C7 as stated fails: a mapping with a fourth key does not contain
    exactly [train], [dev], [test], and the constructor returns a
    [Language] that keeps all four pipelines. *)
Lemma C7_extra_key_accepted :
  let d := demo_pipelines ["train"; "dev"; "test"; "extra"] in
  ~ (forall key, In key (Py.keys d) -> In key ["train"; "dev"; "test"])
  /\ Language.__init__ "en" (Language.Dict d) demo_vocabulary
     = Py.Ok {| Language._identifier := "en";
                Language._input_pipelines := d;
                Language._vocabulary := demo_vocabulary |}.
Proof.
  split; [| reflexivity].
  intros H. specialize (H "extra" ltac:(vm_compute; tauto)).
  cbn in H. intuition discriminate.
Qed.

(** ** Dictionaries *)

Section DictFacts.
Context {K V : Type} (eq_dec : forall x y : K, {x = y} + {x <> y}).
Implicit Types (d : @Py.dict K V) (k : K) (v : V).

Lemma get_not_in d k : ~ In k (Py.keys d) -> Py.get eq_dec d k = None.
Proof.
  induction d as [| [k' v'] d IH]; cbn; [reflexivity |].
  intros Hnot. destruct (eq_dec k k'); [subst; tauto | apply IH; tauto].
Qed.

Lemma get_in_keys d k v : Py.get eq_dec d k = Some v -> In k (Py.keys d).
Proof.
  induction d as [| [k' v'] d IH]; cbn; [discriminate |].
  destruct (eq_dec k k'); [subst; auto | auto].
Qed.

Lemma get_in_values d k v : Py.get eq_dec d k = Some v -> In v (Py.values d).
Proof.
  induction d as [| [k' v'] d IH]; cbn; [discriminate |].
  destruct (eq_dec k k'); [intros [= ->]; auto | auto].
Qed.

(** Assigning to a key that is not there appends the pair. *)
Lemma set_fresh d k v : ~ In k (Py.keys d) -> Py.set eq_dec d k v = d ++ [(k, v)].
Proof.
  induction d as [| [k' v'] d IH]; cbn; [reflexivity |].
  intros Hnot. destruct (eq_dec k k'); [subst; tauto |].
  rewrite IH by tauto. reflexivity.
Qed.

Lemma get_app_l d d' k v :
  Py.get eq_dec d k = Some v -> Py.get eq_dec (d ++ d') k = Some v.
Proof.
  induction d as [| [k' v'] d IH]; cbn; [discriminate |].
  destruct (eq_dec k k'); auto.
Qed.

Lemma get_app_r d d' k :
  ~ In k (Py.keys d) -> Py.get eq_dec (d ++ d') k = Py.get eq_dec d' k.
Proof.
  induction d as [| [k' v'] d IH]; cbn; [reflexivity |].
  intros Hnot. destruct (eq_dec k k'); [subst; tauto | apply IH; tauto].
Qed.

(** [dict(pairs)] of pairs with distinct keys is the pairs in order. *)
Lemma of_pairs_from (pairs acc : list (K * V)) :
  NoDup (map fst (acc ++ pairs)) ->
  fold_left (fun d kv => Py.set eq_dec d (fst kv) (snd kv)) pairs acc = acc ++ pairs.
Proof.
  revert acc. induction pairs as [| [k v] pairs IH]; intros acc Hnd; cbn.
  - now rewrite app_nil_r.
  - rewrite set_fresh.
    + rewrite IH; rewrite <- app_assoc; [reflexivity | exact Hnd].
    + rewrite map_app in Hnd. cbn in Hnd.
      apply NoDup_remove_2 in Hnd. unfold Py.keys.
      intros Hin. apply Hnd. apply in_or_app. now left.
Qed.

Lemma of_pairs_nodup (pairs : list (K * V)) :
  NoDup (map fst pairs) -> Py.of_pairs eq_dec pairs = pairs.
Proof. intros Hnd. unfold Py.of_pairs. now rewrite of_pairs_from. Qed.
End DictFacts.

(** [zip(d.values(), d.keys())] *)
Lemma combine_values_keys {K V : Type} (d : @Py.dict K V) :
  combine (Py.values d) (Py.keys d) = map (fun kv => (snd kv, fst kv)) d.
Proof.
  unfold Py.values, Py.keys.
  induction d as [| [k v] d IH]; cbn; [reflexivity | now rewrite IH].
Qed.

(** A table with distinct values can be read backwards. *)
Lemma get_inverse {K V : Type}
      (eqK : forall x y : K, {x = y} + {x <> y})
      (eqV : forall x y : V, {x = y} + {x <> y})
      (d : @Py.dict K V) (k : K) (v : V) :
  NoDup (Py.values d) ->
  Py.get eqK d k = Some v ->
  Py.get eqV (map (fun kv => (snd kv, fst kv)) d) v = Some k.
Proof.
  induction d as [| [k' v'] d IH]; cbn; [discriminate |].
  intros Hnd Hget. apply NoDup_cons_iff in Hnd as [Hnot Hnd].
  destruct (eqK k k') as [-> | Hne].
  - injection Hget as ->. destruct (eqV v v); [reflexivity | congruence].
  - destruct (eqV v v') as [-> | _].
    + exfalso. apply Hnot. eapply get_in_values; eauto.
    + auto.
Qed.

(** ** [Vocabulary.__call__] *)

Section LookupFacts.
Import Vocabulary.


(** C6.  [__call__] returns the id of a present word and the word of a
    present id given as [int], [numpy.int32] or [numpy.int64]; an
    absent word or id raises [KeyError] and an expression of another
    type raises [ValueError]; the exception is the result of the call. *)
Theorem C6_lookup (self : t) :
  (forall word id,
      Py.get string_dec (_word_to_id self) word = Some id ->
      __call__ self (Str word) = Py.Ok (Id id))
  /\ (forall e id word,
      supported_id e = Some id ->
      Py.get Z.eq_dec (_id_to_word self) id = Some word ->
      __call__ self e = Py.Ok (Word word))
  /\ (forall word,
      Py.get string_dec (_word_to_id self) word = None ->
      __call__ self (Str word) = Py.Raise Py.KeyError)
  /\ (forall e id,
      supported_id e = Some id ->
      Py.get Z.eq_dec (_id_to_word self) id = None ->
      __call__ self e = Py.Raise Py.KeyError)
  /\ (forall e, unsupported e -> __call__ self e = Py.Raise Py.ValueError)
  /\ (forall e,
      (forall r, __call__ self e <> Py.Ok r) ->
      exists err, __call__ self e = Py.Raise err /\ InvalidKey err).
Proof.
  repeat split.
  - intros word id H. cbn. unfold Py.getitem. now rewrite H.
  - intros e id word He H.
    destruct e; cbn in He; try discriminate; injection He as ->;
      cbn; unfold Py.getitem; now rewrite H.
  - intros word H. cbn. unfold Py.getitem. now rewrite H.
  - intros e id He H.
    destruct e; cbn in He; try discriminate; injection He as ->;
      cbn; unfold Py.getitem; now rewrite H.
  - intros e He. destruct e; cbn in He; try contradiction; reflexivity.
  - intros e Hfail. unfold InvalidKey.
    destruct e; cbn in *; unfold Py.getitem in *;
      try (eexists; split; [reflexivity | tauto]).
    + destruct (Py.get string_dec (_word_to_id self) word);
        [exfalso; eapply Hfail; reflexivity | eexists; split; [reflexivity | tauto]].
    + destruct (Py.get Z.eq_dec (_id_to_word self) id);
        [exfalso; eapply Hfail; reflexivity | eexists; split; [reflexivity | tauto]].
    + destruct (Py.get Z.eq_dec (_id_to_word self) id);
        [exfalso; eapply Hfail; reflexivity | eexists; split; [reflexivity | tauto]].
    + destruct (Py.get Z.eq_dec (_id_to_word self) id);
        [exfalso; eapply Hfail; reflexivity | eexists; split; [reflexivity | tauto]].
Qed.

Lemma C6_lookup_witness :
  __call__ demo_vocabulary (Str "world") = Py.Ok (Id 1)
  /\ __call__ demo_vocabulary (NpInt64 4) = Py.Ok (Word "<EOS>")
  /\ __call__ demo_vocabulary (Str "moon") = Py.Raise Py.KeyError
  /\ __call__ demo_vocabulary (Int 7) = Py.Raise Py.KeyError
  /\ __call__ demo_vocabulary (Bool true) = Py.Raise Py.ValueError
  /\ exists err, __call__ demo_vocabulary Other = Py.Raise err /\ InvalidKey err.
Proof.
  destruct (C6_lookup demo_vocabulary) as (Hword & Hid & Hnoword & Hnoid & Htype & Hall).
  split; [apply Hword; reflexivity |].
  split; [apply (Hid _ 4); reflexivity |].
  split; [apply Hnoword; reflexivity |].
  split; [apply (Hnoid _ 7); reflexivity |].
  split; [apply Htype; exact I |].
  apply Hall. intros r. discriminate.
Defined.

End LookupFacts.

(** ** [Vocabulary._load_data] *)

Section LoadFacts.
Import Vocabulary.
Variable float_accepts : string -> bool.

Lemma split_from_cons sep skip cur s :
  exists piece pieces, Py.split_from sep skip cur s = piece :: pieces.
Proof.
  revert skip cur. induction s as [| c s IH]; intros skip cur; cbn [Py.split_from].
  - eauto.
  - destruct skip; [| apply IH].
    destruct (String.prefix sep (String c s)); [eauto | apply IH].
Qed.

Lemma split_space line :
  Py.split " " line = Py.Ok (word_of line :: weights_of line).
Proof.
  unfold Py.split, word_of, weights_of. cbn [String.eqb Ascii.eqb].
  destruct (split_from_cons " " 0 "" line) as (piece & pieces & ->).
  reflexivity.
Qed.

Lemma store_row_ok rows columns index count :
  - rows <= index < rows ->
  Z.of_nat count = columns ->
  store_row rows columns index count = Py.Ok tt.
Proof.
  intros Hindex Hcount. unfold store_row.
  replace (index <? rows) with true by (symmetry; apply Z.ltb_lt; lia).
  replace (- rows <=? index) with true by (symmetry; apply Z.leb_le; lia).
  replace (Z.of_nat count =? columns) with true by (symmetry; apply Z.eqb_eq; lia).
  reflexivity.
Qed.

(** On valid lines whose rows exist the loop runs through. *)
Lemma load_words_valid provided rows D lines :
  Forall (valid_line float_accepts D) lines ->
  forall index d,
    0 <= index ->
    index + Z.of_nat (length lines) <= rows ->
    load_words float_accepts provided rows D index lines d
    = Py.Ok (assign_words index (map word_of lines) d).
Proof.
  induction 1 as [| line lines [Hfloats Hcount] _ IH]; intros index d Hindex Hrows.
  - reflexivity.
  - cbn [load_words map assign_words length] in *.
    rewrite split_space. cbn [Py.bind Py.item nth_error tl].
    assert (Hrow : (if provided
                    then count <- weights float_accepts (weights_of line) ;;
                         store_row rows D index count
                    else Py.Ok tt) = Py.Ok tt).
    { destruct provided; [| reflexivity].
      unfold weights. rewrite Hfloats. cbn [Py.bind].
      apply store_row_ok; lia. }
    rewrite Hrow. cbn [Py.bind]. apply IH; lia.
Qed.

Lemma special_rows_ok rows D k :
  0 <= D ->
  4 + Z.of_nat k <= rows ->
  Py.foldM (fun _ index => store_row rows D index (Z.to_nat D)) (special_rows k) tt
  = Py.Ok tt.
Proof.
  intros HD Hrows.
  assert (Hall : Forall (fun index => - rows <= index < rows) (special_rows k)).
  { unfold special_rows. apply Forall_app. split.
    - repeat constructor; lia.
    - apply Forall_forall. intros index Hin.
      apply in_map_iff in Hin as (i & <- & Hi). apply in_seq in Hi. lia. }
  induction Hall as [| index l Hindex _ IH]; [reflexivity |].
  cbn [Py.foldM]. rewrite store_row_ok by lia. exact IH.
Qed.

(** A valid file loads, with or without embeddings. *)
Lemma load_data_valid file identifiers provided fixed cuda N D :
  valid_vocabulary_file float_accepts file N D ->
  _load_data float_accepts identifiers provided fixed cuda file
  = Py.Ok {| _word_to_id := table file identifiers;
             _id_to_word :=
               Py.of_pairs Z.eq_dec
                 (combine (Py.values (table file identifiers))
                          (Py.keys (table file identifiers)));
             _language_identifiers := identifiers;
             _cuda := cuda;
             _provided := provided;
             requires_grad := negb fixed;
             _vocab_size := N + 4 + Z.of_nat (length identifiers);
             _embedding_size := D |}.
Proof.
  intros [(a & b & rest & Hsplit & Ha & Hb) HD Hcount Hlines].
  unfold _load_data. rewrite Hsplit. cbn [Py.bind Py.item nth_error].
  rewrite Ha, Hb. cbn [Py.bind].
  assert (HN : 0 <= N) by lia.
  replace (provided && ((N + 4 + Z.of_nat (length identifiers) <? 0) || (D <? 0)))
    with false.
  2:{ replace (N + 4 + Z.of_nat (length identifiers) <? 0) with false
        by (symmetry; apply Z.ltb_ge; lia).
      replace (D <? 0) with false by (symmetry; apply Z.ltb_ge; lia).
      now destruct provided. }
  cbn [Py.bind].
  rewrite (load_words_valid _ _ _ _ Hlines) by lia.
  cbn [Py.bind].
  assert (Hspecial :
            (if provided
             then Py.foldM (fun _ index =>
                              store_row (N + 4 + Z.of_nat (length identifiers)) D index
                                        (Z.to_nat D))
                           (special_rows (length identifiers)) tt
             else Py.Ok tt) = Py.Ok tt).
  { destruct provided; [| reflexivity]. apply special_rows_ok; lia. }
  rewrite Hspecial. reflexivity.
Qed.

(** C3.  A valid vocabulary file that declares [N] base words, loaded
    with [k] language identifiers, gives a vocabulary whose raw size is
    [N + k + 4]; the [vocab_size] property reports one less. *)
Theorem C3_vocab_size file identifiers provided fixed cuda N D :
  valid_vocabulary_file float_accepts file N D ->
  exists v,
    Vocabulary.__init__ float_accepts file identifiers provided fixed cuda = Py.Ok v
    /\ _vocab_size v = N + Z.of_nat (length identifiers) + 4
    /\ vocab_size v = N + Z.of_nat (length identifiers) + 4 - 1.
Proof.
  intros Hvalid. eexists. split.
  - unfold Vocabulary.__init__. apply (load_data_valid _ _ _ _ _ _ _ Hvalid).
  - unfold vocab_size. cbn. split; lia.
Qed.

End LoadFacts.

Lemma demo_vocabulary_file_valid :
  valid_vocabulary_file (fun _ => true) demo_vocabulary_file 2 3.
Proof.
  split.
  - exists "2", (ln "3"), []. repeat split; reflexivity.
  - lia.
  - reflexivity.
  - repeat constructor.
Qed.

Lemma C3_vocab_size_witness :
  exists v,
    Vocabulary.__init__ (fun _ => true) demo_vocabulary_file ["<2>"] true true false
    = Py.Ok v
    /\ Vocabulary._vocab_size v = 7
    /\ Vocabulary.vocab_size v = 6.
Proof.
  exact (C3_vocab_size (fun _ => true) demo_vocabulary_file ["<2>"] true true false
                       2 3 demo_vocabulary_file_valid).
Defined.

(** ** The ids of a vocabulary with distinct tokens *)

Section TableFacts.
Import Vocabulary.

Lemma number_app start a b :
  number start (a ++ b) = number start a ++ number (start + Z.of_nat (length a)) b.
Proof.
  revert start. induction a as [| x a IH]; intros start; cbn [number app length].
  - now rewrite Z.add_0_r.
  - rewrite IH. do 3 f_equal. lia.
Qed.

Lemma keys_number start tokens : Py.keys (number start tokens) = tokens.
Proof.
  revert start. induction tokens as [| x l IH]; intros start; cbn; [reflexivity |].
  f_equal. apply IH.
Qed.

Lemma length_number start tokens : length (number start tokens) = length tokens.
Proof. rewrite <- (keys_number start tokens) at 2. unfold Py.keys. now rewrite length_map. Qed.

Lemma values_number_bounds start tokens id :
  In id (Py.values (number start tokens)) ->
  start <= id < start + Z.of_nat (length tokens).
Proof.
  revert start. induction tokens as [| x l IH]; intros start; cbn; [tauto |].
  intros [<- | Hin]; [lia |]. apply IH in Hin. lia.
Qed.

Lemma values_number_nodup start tokens : NoDup (Py.values (number start tokens)).
Proof.
  revert start. induction tokens as [| x l IH]; intros start; cbn; constructor.
  - intros Hin. apply values_number_bounds in Hin. lia.
  - apply IH.
Qed.

(** The id of the token at position [i]. *)
Lemma get_number start tokens i token :
  NoDup tokens ->
  nth_error tokens i = Some token ->
  Py.get string_dec (number start tokens) token = Some (start + Z.of_nat i).
Proof.
  revert start i. induction tokens as [| x l IH]; intros start i Hnd Hnth.
  - destruct i; discriminate.
  - apply NoDup_cons_iff in Hnd as [Hnot Hnd]. cbn [number Py.get].
    destruct i as [| i]; cbn in Hnth.
    + injection Hnth as ->. destruct (string_dec token token); [| congruence].
      f_equal. lia.
    + destruct (string_dec token x) as [-> | _].
      * exfalso. apply Hnot. eapply nth_error_In; eauto.
      * rewrite (IH (start + 1) i Hnd Hnth). f_equal. lia.
Qed.

(** Every id of the table is the position of its token. *)
Lemma get_number_position start tokens token id :
  Py.get string_dec (number start tokens) token = Some id ->
  exists i, nth_error tokens i = Some token /\ id = start + Z.of_nat i.
Proof.
  revert start. induction tokens as [| x l IH]; intros start; cbn [number Py.get].
  - discriminate.
  - destruct (string_dec token x) as [-> | _].
    + intros [= <-]. exists 0%nat. split; [reflexivity | lia].
    + intros Hget. apply IH in Hget as (i & Hnth & ->).
      exists (S i). split; [exact Hnth | lia].
Qed.

Lemma assign_words_fresh ws :
  forall index d,
    NoDup (Py.keys d ++ ws) ->
    assign_words index ws d = d ++ number index ws.
Proof.
  induction ws as [| w ws IH]; intros index d Hnd; cbn [assign_words number].
  - now rewrite app_nil_r.
  - rewrite set_fresh.
    + rewrite IH.
      * now rewrite <- app_assoc.
      * unfold Py.keys in *. rewrite map_app, <- app_assoc. exact Hnd.
    + apply NoDup_remove_2 in Hnd. intros Hin. apply Hnd.
      apply in_or_app. now left.
Qed.

Lemma add_tokens_fresh tokens :
  forall d,
    NoDup (Py.keys d ++ tokens) ->
    fold_left add_token tokens d = d ++ number (Py.len d) tokens.
Proof.
  induction tokens as [| x l IH]; intros d Hnd; cbn [fold_left number].
  - now rewrite app_nil_r.
  - unfold add_token at 2. rewrite set_fresh.
    + rewrite IH.
      * rewrite <- app_assoc. cbn [app]. do 3 f_equal.
        unfold Py.len. rewrite length_app. cbn [length]. lia.
      * unfold Py.keys in *. rewrite map_app, <- app_assoc. exact Hnd.
    + apply NoDup_remove_2 in Hnd. intros Hin. apply Hnd.
      apply in_or_app. now left.
Qed.

(** With distinct tokens the table numbers them in insertion order. *)
Lemma table_distinct file identifiers :
  NoDup (inserted_tokens file identifiers) ->
  table file identifiers = number 0 (inserted_tokens file identifiers).
Proof.
  unfold inserted_tokens, table, reserved_tokens. intros Hnd.
  rewrite assign_words_fresh by (cbn; exact (NoDup_app_remove_r _ _ Hnd)).
  cbn [app].
  assert (Hfold : forall d,
             add_token (add_token (add_token (add_token
               (fold_left add_token identifiers d) "<SOS>") "<EOS>") "<UNK>") "<PAD>"
             = fold_left add_token
                         (identifiers ++ ["<SOS>"; "<EOS>"; "<UNK>"; "<PAD>"]) d)
    by (intros d; rewrite fold_left_app; reflexivity).
  rewrite Hfold.
  rewrite add_tokens_fresh by (rewrite keys_number; exact Hnd).
  rewrite (number_app 0 (words file)). unfold Py.len. rewrite length_number.
  reflexivity.
Qed.
End TableFacts.

Section VocabularyClaims.
Import Vocabulary.
Variable float_accepts : string -> bool.

Lemma nth_error_reserved (a b : list string) (i : nat) (token : string) :
  nth_error (a ++ b ++ reserved_tokens) (length a + length b + i) = Some token ->
  nth_error reserved_tokens i = Some token.
Proof.
  intros H. rewrite nth_error_app2 in H by lia.
  rewrite nth_error_app2 in H by lia.
  replace (length a + length b + i - length a - length b)%nat with i in H by lia.
  exact H.
Qed.

(** C4, for distinct tokens.  For a valid vocabulary file whose words,
    the language identifiers and the four reserved tokens are pairwise
    distinct:
    [<SOS>], [<EOS>], [<UNK>], [<PAD>] get the four highest ids, in this
    order; the language identifiers get the ids just below, in their
    order; every other id belongs to a word of the file. *)
Theorem C4_reserved_tokens_last file identifiers provided fixed cuda N D :
  valid_vocabulary_file float_accepts file N D ->
  NoDup (inserted_tokens file identifiers) ->
  exists v,
    Vocabulary.__init__ float_accepts file identifiers provided fixed cuda = Py.Ok v
    /\ let top := N + Z.of_nat (length identifiers) in
       Py.get string_dec (_word_to_id v) "<SOS>" = Some top
       /\ Py.get string_dec (_word_to_id v) "<EOS>" = Some (top + 1)
       /\ Py.get string_dec (_word_to_id v) "<UNK>" = Some (top + 2)
       /\ Py.get string_dec (_word_to_id v) "<PAD>" = Some (top + 3)
       /\ (forall j token,
              nth_error identifiers j = Some token ->
              Py.get string_dec (_word_to_id v) token = Some (N + Z.of_nat j))
       /\ (forall word id,
              Py.get string_dec (_word_to_id v) word = Some id ->
              0 <= id <= top + 3
              /\ (top <= id -> In word reserved_tokens)
              /\ (N <= id < top -> In word identifiers)
              /\ (id < N -> In word (words file))).
Proof.
  intros Hvalid Hnd. eexists. split.
  - unfold Vocabulary.__init__. apply (load_data_valid _ _ _ _ _ _ _ _ Hvalid).
  - cbn [_word_to_id]. rewrite (table_distinct _ _ Hnd).
    assert (Hwords : Z.of_nat (length (words file)) = N).
    { unfold words. rewrite length_map. apply (valid_count _ _ _ _ Hvalid). }
    assert (Hreserved : forall i token,
               nth_error reserved_tokens i = Some token ->
               Py.get string_dec (number 0 (inserted_tokens file identifiers)) token
               = Some (N + Z.of_nat (length identifiers) + Z.of_nat i)).
    { intros i token Hnth.
      rewrite (get_number 0 _ (length (words file) + length identifiers + i) token Hnd).
      - f_equal. lia.
      - unfold inserted_tokens.
        rewrite nth_error_app2 by lia. rewrite nth_error_app2 by lia.
        replace (length (words file) + length identifiers + i
                 - length (words file) - length identifiers)%nat with i by lia.
        exact Hnth. }
    cbn zeta.
    split; [rewrite (Hreserved 0%nat "<SOS>" eq_refl); f_equal; lia |].
    split; [rewrite (Hreserved 1%nat "<EOS>" eq_refl); f_equal; lia |].
    split; [rewrite (Hreserved 2%nat "<UNK>" eq_refl); f_equal; lia |].
    split; [rewrite (Hreserved 3%nat "<PAD>" eq_refl); f_equal; lia |].
    split.
    + intros j token Hnth.
      rewrite (get_number 0 _ (length (words file) + j) token Hnd).
      * f_equal. lia.
      * unfold inserted_tokens. rewrite nth_error_app2 by lia.
        replace (length (words file) + j - length (words file))%nat with j by lia.
        rewrite nth_error_app1; [exact Hnth |].
        apply nth_error_Some. congruence.
    + intros word id Hget.
      apply get_number_position in Hget as (i & Hnth & ->).
      assert (Hi : (i < length (inserted_tokens file identifiers))%nat)
        by (apply nth_error_Some; congruence).
      unfold inserted_tokens in Hi, Hnth. rewrite !length_app in Hi.
      cbn [reserved_tokens length] in Hi.
      split; [lia |]. split; [| split].
      * intros Htop.
        replace i with (length (words file) + length identifiers
                        + (i - length (words file) - length identifiers))%nat
          in Hnth by lia.
        apply nth_error_reserved in Hnth. eapply nth_error_In; eauto.
      * intros Hmid.
        rewrite nth_error_app2 in Hnth by lia.
        rewrite nth_error_app1 in Hnth by lia.
        eapply nth_error_In; eauto.
      * intros Hlow. rewrite nth_error_app1 in Hnth by lia.
        eapply nth_error_In; eauto.
Qed.

(** C8, for distinct tokens.  In a vocabulary built from a valid file
    whose words, the language identifiers and the reserved tokens are
    pairwise distinct, decoding the id of a present word gives the word
    back. *)
Theorem C8_round_trip_distinct file identifiers provided fixed cuda N D :
  valid_vocabulary_file float_accepts file N D ->
  NoDup (inserted_tokens file identifiers) ->
  exists v,
    Vocabulary.__init__ float_accepts file identifiers provided fixed cuda = Py.Ok v
    /\ forall word id,
        __call__ v (Str word) = Py.Ok (Id id) ->
        __call__ v (Int id) = Py.Ok (Word word).
Proof.
  intros Hvalid Hnd. eexists. split.
  - unfold Vocabulary.__init__. apply (load_data_valid _ _ _ _ _ _ _ _ Hvalid).
  - intros word id. cbn [__call__ _word_to_id _id_to_word].
    rewrite (table_distinct _ _ Hnd).
    rewrite combine_values_keys.
    rewrite of_pairs_nodup.
    2:{ rewrite map_map. cbn [fst].
        apply (values_number_nodup 0 (inserted_tokens file identifiers)). }
    unfold Py.getitem.
    destruct (Py.get string_dec (number 0 (inserted_tokens file identifiers)) word)
      as [id' |] eqn:Hget; cbn [Py.bind]; [| discriminate].
    intros [= ->].
    rewrite (get_inverse string_dec Z.eq_dec _ word id
                         (values_number_nodup 0 _) Hget).
    reflexivity.
Qed.

End VocabularyClaims.

Lemma demo_tokens_distinct : NoDup (inserted_tokens demo_vocabulary_file ["<2>"]).
Proof.
  vm_compute.
  repeat (constructor; [cbn; intuition discriminate |]). constructor.
Qed.

Lemma C4_reserved_tokens_last_witness :
  exists v,
    Vocabulary.__init__ (fun _ => true) demo_vocabulary_file ["<2>"] true true false
    = Py.Ok v
    /\ Py.get string_dec (Vocabulary._word_to_id v) "<SOS>" = Some 3
    /\ Py.get string_dec (Vocabulary._word_to_id v) "<PAD>" = Some 6
    /\ Py.get string_dec (Vocabulary._word_to_id v) "<2>" = Some 2.
Proof.
  destruct (C4_reserved_tokens_last (fun _ => true) demo_vocabulary_file ["<2>"]
              true true false 2 3 demo_vocabulary_file_valid demo_tokens_distinct)
    as (v & Hv & Hsos & _ & _ & Hpad & Hids & _).
  exists v. split; [exact Hv |]. split; [exact Hsos |]. split; [exact Hpad |].
  exact (Hids 0%nat "<2>" eq_refl).
Defined.

Lemma C8_round_trip_distinct_witness :
  exists v,
    Vocabulary.__init__ (fun _ => true) demo_vocabulary_file ["<2>"] true true false
    = Py.Ok v
    /\ (Vocabulary.__call__ v (Vocabulary.Str "world") = Py.Ok (Vocabulary.Id 1) ->
        Vocabulary.__call__ v (Vocabulary.Int 1) = Py.Ok (Vocabulary.Word "world")).
Proof.
  destruct (C8_round_trip_distinct (fun _ => true) demo_vocabulary_file ["<2>"]
              true true false 2 3 demo_vocabulary_file_valid demo_tokens_distinct)
    as (v & Hv & Hround).
  exists v. split; [exact Hv | apply Hround].
Defined.

Lemma unk_vocabulary_file_valid :
  valid_vocabulary_file (fun _ => true) unk_vocabulary_file 2 1.
Proof.
  split.
  - exists "2", (ln "1"), []. repeat split; reflexivity.
  - lia.
  - reflexivity.
  - repeat constructor.
Qed.

(** C8 as stated fails.  A valid vocabulary file may list [<UNK>] among
    its words.  The reserved token then overwrites the id of that entry
    without growing the table, [<PAD>] receives the same id, and the
    inverse table keeps [<PAD>] for it: the present word [<UNK>] encodes
    to 4 and 4 decodes to [<PAD>]. *)
Lemma C8_round_trip_fails :
  exists v,
    Vocabulary.__init__ (fun _ => true) unk_vocabulary_file [] true true false
    = Py.Ok v
    /\ Vocabulary.__call__ v (Vocabulary.Str "<UNK>") = Py.Ok (Vocabulary.Id 4)
    /\ Vocabulary.__call__ v (Vocabulary.Int 4) = Py.Ok (Vocabulary.Word "<PAD>").
Proof. eexists. vm_compute. repeat split; reflexivity. Qed.

(** C4 as stated fails on the same file: the entry [<UNK>] of the file
    is overwritten when the reserved token is added, the table does not
    grow, and [<PAD>] is given the same id.  Two reserved tokens share
    the highest id, so the four do not occupy four ids in order. *)
Lemma C4_reserved_ids_collide :
  valid_vocabulary_file (fun _ => true) unk_vocabulary_file 2 1
  /\ exists v,
      Vocabulary.__init__ (fun _ => true) unk_vocabulary_file [] true true false
      = Py.Ok v
      /\ Vocabulary._word_to_id v
         = [("<UNK>", 4); ("a", 1); ("<SOS>", 2); ("<EOS>", 3); ("<PAD>", 4)]
      /\ Py.get string_dec (Vocabulary._word_to_id v) "<UNK>" = Some 4
      /\ Py.get string_dec (Vocabulary._word_to_id v) "<PAD>" = Some 4.
Proof.
  split; [exact unk_vocabulary_file_valid |].
  eexists. vm_compute. repeat split; reflexivity.
Qed.

(** ** Sorting by key, descending *)

Section SortFacts.
Context {A : Type}.
Implicit Types (x : Z * A) (l : list (Z * A)).
Import Padding.

Lemma insert_desc_perm x l : Permutation (insert_desc x l) (x :: l).
Proof.
  induction l as [| y l IH]; cbn; [reflexivity |].
  destruct (fst x <? fst y); [| reflexivity].
  rewrite IH. apply perm_swap.
Qed.

Lemma sorted_desc_perm l : Permutation (sorted_desc l) l.
Proof.
  induction l as [| x l IH]; cbn; [reflexivity |].
  rewrite insert_desc_perm. now constructor.
Qed.

Lemma insert_desc_sorted x l :
  StronglySorted key_desc l -> StronglySorted key_desc (insert_desc x l).
Proof.
  induction 1 as [| y l Hsorted IH Hall]; cbn.
  - repeat constructor.
  - destruct (Z.ltb_spec (fst x) (fst y)) as [Hlt | Hge].
    + constructor; [exact IH |].
      eapply Permutation_Forall.
      * symmetry. apply insert_desc_perm.
      * constructor; [unfold key_desc; lia | exact Hall].
    + constructor; [constructor; assumption |].
      constructor; [exact Hge |].
      eapply Forall_impl; [| exact Hall].
      unfold key_desc. intros z Hz. lia.
Qed.

Lemma sorted_desc_sorted l : StronglySorted key_desc (sorted_desc l).
Proof.
  induction l as [| x l IH]; cbn; [constructor | now apply insert_desc_sorted].
Qed.

Lemma sorted_desc_length l : length (sorted_desc l) = length l.
Proof. apply Permutation_length, sorted_desc_perm. Qed.
End SortFacts.

(** Sorting looks at the keys only: it commutes with a change of the
    items that keeps the keys. *)
Lemma insert_desc_map {A B : Type} (f : A -> B) (x : Z * A) (l : list (Z * A)) :
  Padding.insert_desc (fst x, f (snd x)) (map (fun p => (fst p, f (snd p))) l)
  = map (fun p => (fst p, f (snd p))) (Padding.insert_desc x l).
Proof.
  induction l as [| y l IH]; cbn; [reflexivity |].
  destruct (fst x <? fst y); cbn; [now rewrite IH | reflexivity].
Qed.

Lemma sorted_desc_map {A B : Type} (f : A -> B) (l : list (Z * A)) :
  Padding.sorted_desc (map (fun p => (fst p, f (snd p))) l)
  = map (fun p => (fst p, f (snd p))) (Padding.sorted_desc l).
Proof.
  induction l as [| x l IH]; cbn; [reflexivity |].
  rewrite IH. apply insert_desc_map.
Qed.

(** ** Rows in the heap *)

Section HeapFacts.
Import Heap.

Lemma length_write h r row : length (write h r row) = length h.
Proof.
  revert r. induction h as [| x h IH]; intros r; cbn; [reflexivity |].
  destruct r; cbn; [reflexivity | now rewrite IH].
Qed.

Lemma read_write_same h r row : (r < length h)%nat -> read (write h r row) r = row.
Proof.
  unfold read. revert r. induction h as [| x h IH]; intros r Hr; cbn in *; [lia |].
  destruct r; cbn; [reflexivity | apply IH; lia].
Qed.

Lemma read_write_other h r r' row : r <> r' -> read (write h r row) r' = read h r'.
Proof.
  unfold read. revert r r'. induction h as [| x h IH]; intros r r' Hne; cbn.
  - reflexivity.
  - destruct r, r'; cbn; try reflexivity; [congruence | apply IH; congruence].
Qed.

Lemma read_app_l h t r : (r < length h)%nat -> read (h ++ t) r = read h r.
Proof. intros Hr. unfold read. now rewrite app_nth1. Qed.

Lemma read_app_r h t r : read (h ++ t) (length h + r)%nat = read t r.
Proof.
  unfold read. rewrite app_nth2 by lia. f_equal. lia.
Qed.

Lemma write_app_r h t r row :
  write (h ++ t) (length h + r)%nat row = h ++ write t r row.
Proof.
  induction h as [| x h IH]; cbn; [reflexivity |].
  destruct t eqn:Ht, h eqn:Hh; cbn in *; now rewrite ?IH.
Qed.

Lemma map_read_seq h : map (read h) (seq 0 (length h)) = h.
Proof.
  unfold read. apply nth_ext with (d := []) (d' := []).
  - now rewrite length_map, length_seq.
  - intros n Hn. rewrite length_map, length_seq in Hn.
    rewrite (nth_indep _ [] (nth 0 h [])) by (now rewrite length_map, length_seq).
    rewrite (map_nth (fun r => nth r h [])). now rewrite seq_nth.
Qed.
End HeapFacts.

(** ** [PostPadding.create_batch] *)

Section PostPaddingFacts.
Import Heap PostPadding.

Lemma last_item_snoc {A : Type} (l : list A) (x : A) : Py.last_item (l ++ [x]) = Py.Ok x.
Proof. unfold Py.last_item. now rewrite rev_app_distr. Qed.

Lemma insert_before_last_snoc {A : Type} (x t : A) (l : list A) :
  Py.insert_before_last x (l ++ [t]) = l ++ [x; t].
Proof.
  induction l as [| a l IH]; [reflexivity |].
  cbn [app Py.insert_before_last]. rewrite IH.
  destruct (l ++ [t]) eqn:Hl; [destruct l; discriminate | reflexivity].
Qed.

Lemma iter_insert_snoc (p t : Z) (n : nat) (ids : list Z) :
  Nat.iter n (Py.insert_before_last p) (ids ++ [t]) = ids ++ repeat p n ++ [t].
Proof.
  induction n as [| n IH]; [reflexivity |].
  rewrite Nat.iter_succ, IH.
  replace (ids ++ repeat p n ++ [t]) with ((ids ++ repeat p n) ++ [t])
    by now rewrite <- app_assoc.
  rewrite insert_before_last_snoc, <- app_assoc. f_equal.
  cbn [repeat]. rewrite repeat_cons, <- app_assoc. reflexivity.
Qed.

(** The [while] loop, one pass at a time: it inserts [<PAD>] before the
    last cell as long as the row is too short. *)
Lemma pad_row_loop (p : Z) (batch_length : Z) (row : list Z) :
  pad_row (Py.Ok p) batch_length row
  = if Z.of_nat (length row) - 1 <? batch_length
    then pad_row (Py.Ok p) batch_length (Py.insert_before_last p row)
    else Py.Ok row.
Proof.
  assert (Hlen : length (Py.insert_before_last p row) = S (length row)).
  { induction row as [| a row IH]; [reflexivity |].
    destruct row; [reflexivity |].
    cbn [Py.insert_before_last length] in *. now rewrite IH. }
  unfold pad_row, deficit.
  destruct (Z.ltb_spec (Z.of_nat (length row) - 1) batch_length) as [Hlt | Hge].
  - rewrite Hlen.
    replace (Z.to_nat (batch_length - (Z.of_nat (length row) - 1)))
      with (S (Z.to_nat (batch_length - (Z.of_nat (S (length row)) - 1)))) by lia.
    cbn [Py.bind].
    destruct (Z.to_nat (batch_length - (Z.of_nat (S (length row)) - 1))) eqn:Hn;
      cbn [Py.bind]; f_equal; now rewrite <- Nat.iter_succ_r.
  - replace (Z.to_nat (batch_length - (Z.of_nat (length row) - 1))) with 0%nat by lia.
    reflexivity.
Qed.

Lemma pad_row_value (p batch_length : Z) (row : list Z) :
  pad_row (Py.Ok p) batch_length row
  = Py.Ok (Nat.iter (deficit batch_length row) (Py.insert_before_last p) row).
Proof. unfold pad_row. now destruct (deficit batch_length row). Qed.

Lemma pad_row_sample (p : Z) (n : nat) (ids : list Z) :
  pad_row (Py.Ok p) (Z.of_nat n) (sample ids) = Py.Ok (padded p n ids).
Proof.
  rewrite pad_row_value. unfold sample, padded, deficit.
  rewrite iter_insert_snoc, length_app. cbn [length].
  replace (Z.to_nat (Z.of_nat n - (Z.of_nat (length ids + 1) - 1)))
    with (n - length ids)%nat by lia.
  reflexivity.
Qed.

(** The keys of rows that all have a last cell. *)
Lemma mapM_keyed (h : heap) (key : ref -> Z) (refs : list ref) :
  (forall r, In r refs -> Py.last_item (read h r) = Py.Ok (key r)) ->
  Py.mapM (keyed h) refs = Py.Ok (map (fun r => (key r, r)) refs).
Proof.
  induction refs as [| r refs IH]; intros Hkeys; [reflexivity |].
  cbn [Py.mapM map]. unfold keyed at 1.
  rewrite (Hkeys r) by now left. cbn [Py.bind].
  rewrite IH by (intros r' Hr'; apply Hkeys; now right).
  reflexivity.
Qed.

(** Padding distinct rows in place: each row of the list is replaced by
    its padded form, every other row is left alone. *)
Lemma pad_rows_distinct (p batch_length : Z) (refs : list ref) :
  forall h,
    NoDup refs ->
    (forall r, In r refs -> (r < length h)%nat) ->
    exists h',
      pad_rows (Py.Ok p) batch_length refs h = (Py.Ok tt, h')
      /\ length h' = length h
      /\ (forall r, In r refs ->
                    Py.Ok (read h' r) = pad_row (Py.Ok p) batch_length (read h r))
      /\ (forall r, ~ In r refs -> read h' r = read h r).
Proof.
  induction refs as [| r refs IH]; intros h Hnd Hbound.
  - exists h. cbn. repeat split; tauto.
  - apply NoDup_cons_iff in Hnd as [Hnot Hnd].
    cbn [pad_rows]. rewrite pad_row_value.
    set (row := Nat.iter _ _ _).
    destruct (IH (write h r row) Hnd) as (h' & Hrun & Hlen & Hin & Hout).
    { intros r' Hr'. rewrite length_write. apply Hbound. now right. }
    exists h'. split; [exact Hrun |]. split; [now rewrite Hlen, length_write |].
    split.
    + intros r' [<- | Hr'].
      * rewrite (Hout r Hnot), read_write_same by (apply Hbound; now left).
        now rewrite pad_row_value.
      * rewrite (Hin r' Hr'), read_write_other; [reflexivity |].
        intros ->. contradiction.
    + intros r' Hr'. rewrite Hout by (intros H; apply Hr'; now right).
      apply read_write_other. intros ->. apply Hr'. now left.
Qed.

Lemma rectangular_same_length (k : nat) (rows : list (list Z)) :
  Forall (fun row => length row = k) rows -> Numpy.rectangular rows = true.
Proof.
  intros Hall. destruct rows as [| r rs]; [reflexivity |].
  apply Forall_cons_iff in Hall as [Hr Hrs]. cbn.
  apply forallb_forall. intros r' Hr'.
  rewrite Forall_forall in Hrs. rewrite (Hrs r' Hr'), Hr. apply Nat.eqb_refl.
Qed.

Lemma length_padded (p : Z) (n : nat) (ids : list Z) :
  (length ids <= n)%nat -> length (padded p n ids) = S n.
Proof.
  intros Hle. unfold padded. rewrite !length_app, repeat_length. cbn [length]. lia.
Qed.

Lemma length_le_max_length (samples : list (list Z)) (ids : list Z) :
  In ids samples -> (length ids <= max_length samples)%nat.
Proof.
  intros Hin. unfold max_length.
  assert (H : Forall (fun k => (k <= list_max (map (@length Z) samples))%nat)
                     (map (@length Z) samples))
    by (apply list_max_le; lia).
  rewrite Forall_forall in H. apply H. now apply in_map.
Qed.

(** The samples sorted by length: the same samples, longest first. *)
Lemma by_length_perm (samples : list (list Z)) : Permutation (by_length samples) samples.
Proof.
  unfold by_length. rewrite sorted_desc_perm, map_map. cbn [snd].
  now rewrite map_id.
Qed.

Lemma by_length_sorted (samples : list (list Z)) :
  StronglySorted longer_first (by_length samples).
Proof.
  unfold by_length.
  set (keyed_samples := map (fun ids => (Z.of_nat (length ids), ids)) samples).
  assert (Hkeys : Forall (fun p => fst p = Z.of_nat (length (snd p)))
                         (Padding.sorted_desc keyed_samples)).
  { eapply Permutation_Forall; [symmetry; apply sorted_desc_perm |].
    apply Forall_forall. intros p Hp. apply in_map_iff in Hp as (ids & <- & _).
    reflexivity. }
  pose proof (sorted_desc_sorted keyed_samples) as Hsorted.
  induction Hsorted as [| p l Hsorted IH Hall]; cbn [map]; [constructor |].
  apply Forall_cons_iff in Hkeys as [Hp Hkeys].
  constructor; [apply IH, Hkeys |].
  apply Forall_forall. intros ids Hin. apply in_map_iff in Hin as (q & <- & Hq).
  rewrite Forall_forall in Hall, Hkeys.
  specialize (Hall q Hq). specialize (Hkeys q Hq).
  unfold key_desc in Hall. unfold longer_first. lia.
Qed.

(** The first of the sorted samples is a longest one. *)
Lemma by_length_head (samples : list (list Z)) (ids : list Z) (rest : list (list Z)) :
  by_length samples = ids :: rest -> length ids = max_length samples.
Proof.
  intros Hhead.
  pose proof (by_length_sorted samples) as Hsorted.
  pose proof (by_length_perm samples) as Hperm.
  rewrite Hhead in Hsorted, Hperm.
  apply StronglySorted_inv in Hsorted as [_ Hall].
  apply Nat.le_antisymm.
  - apply length_le_max_length. eapply Permutation_in; [exact Hperm | now left].
  - unfold max_length. apply list_max_le. apply Forall_forall.
    intros k Hk. apply in_map_iff in Hk as (ids' & <- & Hin).
    apply (Permutation_in _ (Permutation_sym Hperm)) in Hin as [<- | Hin]; [lia |].
    rewrite Forall_forall in Hall. apply (Hall ids' Hin).
Qed.
End PostPaddingFacts.

Section PostPaddingBatch.
Import Heap PostPadding.

Lemma read_samples (samples : list (list Z)) (r : ref) :
  (r < length samples)%nat ->
  read (map sample samples) r = sample (nth r samples []).
Proof.
  intros Hr. unfold read.
  rewrite (nth_indep _ [] (sample [])) by now rewrite length_map.
  apply map_nth.
Qed.

Lemma map_nth_seq (samples : list (list Z)) :
  map (fun r => nth r samples []) (seq 0 (length samples)) = samples.
Proof. apply (map_read_seq samples). Qed.

(** A batch of samples given by value: the array holds the samples
    longest first, each padded to the greatest length of the batch. *)
Lemma create_batch_samples (self : Padding.t) (pad : Z) (samples : list (list Z)) :
  Vocabulary.pad_token (Padding._vocabulary self) = Py.Ok pad ->
  samples <> [] ->
  create_batch self (seq 0 (length samples)) (map sample samples)
  = (Py.Ok (map (padded pad (max_length samples)) (by_length samples)),
     snd (create_batch self (seq 0 (length samples)) (map sample samples))).
Proof.
  intros Hpad Hne.
  set (h := map sample samples).
  set (refs := seq 0 (length samples)).
  set (f := fun r : ref => nth r samples []).
  set (key := fun r : ref => Z.of_nat (length (f r))).
  assert (Hread : forall r, In r refs -> read h r = sample (f r)).
  { intros r Hr. apply in_seq in Hr. apply read_samples. lia. }
  assert (Hkeys : Py.mapM (keyed h) refs = Py.Ok (map (fun r => (key r, r)) refs)).
  { apply mapM_keyed. intros r Hr. rewrite (Hread r Hr). apply last_item_snoc. }
  set (sorted_refs := map snd (Padding.sorted_desc (map (fun r => (key r, r)) refs))).
  assert (Hperm : Permutation sorted_refs refs).
  { unfold sorted_refs. rewrite sorted_desc_perm, map_map. cbn [snd].
    now rewrite map_id. }
  assert (Hsorted : map f sorted_refs = by_length samples).
  { unfold sorted_refs, by_length.
    transitivity (map snd (Padding.sorted_desc
                             (map (fun ids => (Z.of_nat (length ids), ids))
                                  (map f refs)))).
    - rewrite (map_map f), <- (map_map (fun r => (key r, r))
                                        (fun p => (fst p, f (snd p)))).
      rewrite sorted_desc_map, !map_map. reflexivity.
    - unfold f, refs. now rewrite map_nth_seq. }
  assert (Hin : forall r, In r sorted_refs -> In r refs)
    by (intros r; apply Permutation_in; exact Hperm).
  destruct sorted_refs as [| r0 rest] eqn:Hrefs.
  { apply Permutation_nil in Hperm. unfold refs in Hperm.
    destruct samples; [congruence | discriminate]. }
  assert (Hhead : key r0 = Z.of_nat (max_length samples)).
  { unfold key. f_equal. eapply by_length_head. rewrite <- Hsorted. reflexivity. }
  destruct (pad_rows_distinct pad (Z.of_nat (max_length samples)) (r0 :: rest) h)
    as (h' & Hrun & _ & Hpadded & _).
  { apply (Permutation_NoDup (Permutation_sym Hperm)), seq_NoDup. }
  { intros r Hr. apply Hin, in_seq in Hr. unfold h. rewrite length_map. lia. }
  assert (Hrows : map (read h') (r0 :: rest)
                  = map (padded pad (max_length samples)) (by_length samples)).
  { rewrite <- Hsorted, map_map. apply map_ext_in. intros r Hr.
    specialize (Hpadded r Hr). rewrite (Hread r (Hin r Hr)), pad_row_sample in Hpadded.
    now injection Hpadded. }
  unfold create_batch, sorted_by_length.
  fold h refs. rewrite Hkeys. cbn [Py.bind]. fold sorted_refs. rewrite Hrefs.
  cbn [Py.first_item Py.bind].
  assert (Hlast : Py.last_item (read h r0) = Py.Ok (Z.of_nat (max_length samples))).
  { rewrite (Hread r0 (Hin r0 (or_introl eq_refl))). unfold sample.
    rewrite last_item_snoc. f_equal. exact Hhead. }
  rewrite Hlast, Hpad, Hrun, Hrows.
  unfold Numpy.array.
  rewrite (rectangular_same_length (S (max_length samples))); [reflexivity |].
  apply Forall_forall. intros row Hrow. apply in_map_iff in Hrow as (ids & <- & Hids).
  apply length_padded, length_le_max_length.
  eapply Permutation_in; [apply by_length_perm | exact Hids].
Qed.

(** C5, with the trailing field counted.  For a non-empty batch of
    converted samples and a vocabulary that has [<PAD>],
    [PostPadding.create_batch] returns an array whose rows are the
    samples sorted by true length, longest first; each row holds the ids
    of its sample, then [<PAD>] cells up to the greatest true length of
    the batch, then the true length: all rows have that length plus one. *)
Theorem C5_post_padding_batch (self : Padding.t) (pad : Z) (samples : list (list Z)) :
  Vocabulary.pad_token (Padding._vocabulary self) = Py.Ok pad ->
  samples <> [] ->
  exists array,
    create_batch_of self (map sample samples) = Py.Ok array
    /\ array = map (padded pad (max_length samples)) (by_length samples)
    /\ Permutation (by_length samples) samples
    /\ StronglySorted longer_first (by_length samples)
    /\ Forall (fun row => length row = S (max_length samples)) array.
Proof.
  intros Hpad Hne. eexists. split; [| split; [reflexivity |]].
  - unfold create_batch_of. rewrite length_map.
    rewrite (create_batch_samples self pad samples Hpad Hne). reflexivity.
  - split; [apply by_length_perm |]. split; [apply by_length_sorted |].
    apply Forall_forall. intros row Hrow. apply in_map_iff in Hrow as (ids & <- & Hids).
    apply length_padded, length_le_max_length.
    eapply Permutation_in; [apply by_length_perm | exact Hids].
Qed.

End PostPaddingBatch.

Lemma C5_post_padding_batch_witness :
  exists array,
    PostPadding.create_batch_of (demo_padder Padding.PostPadding)
                                (map sample [[1]; [0; 1; 0]; [1; 1]])
    = Py.Ok array
    /\ array = [[0; 1; 0; 3]; [1; 1; 6; 2]; [1; 6; 6; 1]].
Proof.
  destruct (C5_post_padding_batch (demo_padder Padding.PostPadding) 6
                                  [[1]; [0; 1; 0]; [1; 1]] eq_refl
                                  ltac:(discriminate))
    as (array & Hrun & Harray & _).
  exists array. split; [exact Hrun |]. rewrite Harray. reflexivity.
Defined.

(** C5 as stated fails: the rows of the array keep the trailing field,
    so a batch whose greatest true length is 2 gives rows of length 3. *)
Lemma C5_row_length_counts_trailing_field :
  let batch := [sample [0; 1]; sample [1]] in
  batch = [[0; 1; 2]; [1; 1]]
  /\ PostPadding.create_batch_of (demo_padder Padding.PostPadding) batch
     = Py.Ok [[0; 1; 2]; [1; 6; 1]]
  /\ max_length [[0; 1]; [1]] = 2%nat
  /\ ~ Forall (fun row => length row = 2%nat) [[0; 1; 2]; [1; 6; 1]].
Proof.
  repeat split; try reflexivity.
  intros H. inversion H. discriminate.
Qed.

(** ** [range] and slices *)

Section RangeFacts.

Lemma range_positive (stop step : Z) :
  0 < step ->
  Py.range 0 stop step
  = Py.Ok (map (fun i => Z.of_nat i * step)
               (seq 0 (Z.to_nat ((stop + step - 1) / step)))).
Proof.
  intros Hstep. unfold Py.range, Py.range_len.
  replace (step =? 0) with false by (symmetry; apply Z.eqb_neq; lia).
  replace (0 <? step) with true by (symmetry; apply Z.ltb_lt; lia).
  rewrite Z.sub_0_r. reflexivity.
Qed.

(** The indices of [range(0, stop, step)] lie below [stop]. *)
Lemma range_bounds (stop step : Z) (indices : list Z) (index : Z) :
  0 < step ->
  Py.range 0 stop step = Py.Ok indices ->
  In index indices ->
  0 <= index < stop.
Proof.
  intros Hstep Hrange Hin. rewrite range_positive in Hrange by exact Hstep.
  injection Hrange as <-. apply in_map_iff in Hin as (i & <- & Hi).
  apply in_seq in Hi.
  assert (Hq : Z.of_nat i < (stop + step - 1) / step) by lia.
  pose proof (Z.mul_div_le (stop + step - 1) step Hstep) as Hle.
  split; [lia |]. nia.
Qed.

Lemma slice_from {A : Type} (l : list A) (index size : Z) :
  0 <= index -> 0 < size ->
  Py.slice l index (index + size)
  = firstn (Z.to_nat size) (skipn (Z.to_nat index) l).
Proof.
  intros Hindex Hsize. unfold Py.slice, Py.slice_bound.
  replace (index <? 0) with false by (symmetry; apply Z.ltb_ge; lia).
  replace (index + size <? 0) with false by (symmetry; apply Z.ltb_ge; lia).
  set (i := Z.to_nat index). set (n := Z.to_nat size).
  replace (Z.to_nat (Z.min index (Z.of_nat (length l))))
    with (Nat.min i (length l)) by lia.
  replace (Z.to_nat (Z.min (index + size) (Z.of_nat (length l))))
    with (Nat.min (i + n) (length l)) by lia.
  destruct (Nat.le_gt_cases (length l) i) as [Hout | Hin].
  - rewrite Nat.min_r by lia. rewrite !skipn_all2 by lia. now rewrite !firstn_nil.
  - rewrite (Nat.min_l i) by lia.
    destruct (Nat.le_gt_cases (i + n) (length l)) as [Hfit | Hcut].
    + rewrite Nat.min_l by lia. f_equal. lia.
    + rewrite Nat.min_r by lia.
      rewrite !firstn_all2; [reflexivity | rewrite length_skipn; lia
                             | rewrite length_skipn; lia].
Qed.

Lemma slice_nonempty {A : Type} (l : list A) (index size : Z) :
  0 <= index < Z.of_nat (length l) -> 0 < size ->
  Py.slice l index (index + size) <> [].
Proof.
  intros Hindex Hsize. rewrite slice_from by lia.
  intros Hnil. apply (f_equal (@length A)) in Hnil.
  rewrite length_firstn, length_skipn in Hnil. cbn in Hnil. lia.
Qed.

Lemma Forall2_firstn {A B : Type} (R : A -> B -> Prop) (n : nat) l l' :
  Forall2 R l l' -> Forall2 R (firstn n l) (firstn n l').
Proof.
  intros H. revert n. induction H; intros [| n]; cbn; constructor; auto.
Qed.

Lemma Forall2_skipn {A B : Type} (R : A -> B -> Prop) (n : nat) l l' :
  Forall2 R l l' -> Forall2 R (skipn n l) (skipn n l').
Proof.
  intros H. revert n. induction H; intros [| n]; cbn; auto.
Qed.

Lemma Forall2_slice {A B : Type} (R : A -> B -> Prop) l l' (i j : Z) :
  Forall2 R l l' -> Forall2 R (Py.slice l i j) (Py.slice l' i j).
Proof.
  intros H. unfold Py.slice, Py.slice_bound.
  rewrite <- (Forall2_length H).
  now apply Forall2_firstn, Forall2_skipn.
Qed.

End RangeFacts.

(** ** [PrePadding] *)

Section PrePaddingFacts.
Import Heap PrePadding.
Variable ids_from_sentence : Vocabulary.t -> string -> Py.result (list Z).

Lemma convert_line_fits (self : Padding.t) (pad : Z) (segment_length : nat)
      (data_to_ids : list (list Z)) (line : string) (ids : list Z) :
  Vocabulary.pad_token (Padding._vocabulary self) = Py.Ok pad ->
  tokenized ids_from_sentence self line ids ->
  (length ids <= segment_length)%nat ->
  convert_line ids_from_sentence self segment_length data_to_ids line
  = Py.Ok (data_to_ids ++ [padded pad segment_length ids]).
Proof.
  intros Hpad Hids Hfits. unfold convert_line, tokenized in *.
  rewrite Hids, Hpad. cbn [Py.bind].
  assert (Hpadded : pad_ids (Py.Ok pad) segment_length ids
                    = Py.Ok (ids ++ repeat pad (segment_length - length ids))).
  { unfold pad_ids. destruct (segment_length - length ids)%nat; [| reflexivity].
    cbn [repeat]. now rewrite app_nil_r. }
  rewrite Hpadded. cbn [Py.bind]. unfold Numpy.assign.
  replace (length (ids ++ repeat pad (segment_length - length ids)) =? segment_length)%nat
    with true
    by (symmetry; apply Nat.eqb_eq; rewrite length_app, repeat_length; lia).
  cbn [Py.bind]. unfold padded. now rewrite <- app_assoc.
Qed.

Lemma convert_lines_fit (self : Padding.t) (pad : Z) (segment_length : nat)
      (lines : list string) (tokens : list (list Z)) :
  Vocabulary.pad_token (Padding._vocabulary self) = Py.Ok pad ->
  Forall2 (tokenized ids_from_sentence self) lines tokens ->
  Forall (fun ids => (length ids <= segment_length)%nat) tokens ->
  forall data_to_ids,
    Py.foldM (convert_line ids_from_sentence self segment_length) lines data_to_ids
    = Py.Ok (data_to_ids ++ map (padded pad segment_length) tokens).
Proof.
  intros Hpad Hall. induction Hall as [| line ids lines tokens Hids _ IH];
    intros Hfit data_to_ids; cbn [Py.foldM map].
  - now rewrite app_nil_r.
  - apply Forall_cons_iff in Hfit as [Hfit Hfits].
    rewrite (convert_line_fits self pad _ _ _ ids Hpad Hids Hfit). cbn [Py.bind].
    rewrite IH by exact Hfits. now rewrite <- app_assoc.
Qed.

(** One chunk whose first sentence is its longest. *)
Lemma convert_segment_fits (self : Padding.t) (pad : Z)
      (data : list string) (tokens : list (list Z))
      (data_to_ids : list (list Z)) (index : Z) :
  Vocabulary.pad_token (Padding._vocabulary self) = Py.Ok pad ->
  Forall2 (tokenized ids_from_sentence self) data tokens ->
  0 < Padding._max_segment_size self ->
  0 <= index < Z.of_nat (length data) ->
  first_is_longest (chunk (Padding._max_segment_size self) tokens index) ->
  convert_segment ids_from_sentence self data data_to_ids index
  = Py.Ok (data_to_ids
           ++ pre_padded_chunk pad (chunk (Padding._max_segment_size self) tokens index)).
Proof.
  intros Hpad Hall Hsize Hindex Hfirst. unfold convert_segment, chunk in *.
  pose proof (Forall2_slice _ _ _ index (index + Padding._max_segment_size self) Hall)
    as Hslice.
  pose proof (slice_nonempty data index _ Hindex Hsize) as Hne.
  destruct Hslice as [| first first_ids lines rest Hids Hrest]; [congruence |].
  cbn [Py.first_item Py.bind]. rewrite Hids. cbn [Py.bind].
  apply (convert_lines_fit self pad (length first_ids) (first :: lines)
                           (first_ids :: rest) Hpad).
  - now constructor.
  - exact Hfirst.
Qed.

Lemma convert_segments_fit (self : Padding.t) (pad : Z)
      (data : list string) (tokens : list (list Z)) (indices : list Z) :
  Vocabulary.pad_token (Padding._vocabulary self) = Py.Ok pad ->
  Forall2 (tokenized ids_from_sentence self) data tokens ->
  0 < Padding._max_segment_size self ->
  Forall (fun index =>
            0 <= index < Z.of_nat (length data)
            /\ first_is_longest (chunk (Padding._max_segment_size self) tokens index))
         indices ->
  forall data_to_ids,
    Py.foldM (convert_segment ids_from_sentence self data) indices data_to_ids
    = Py.Ok (data_to_ids
             ++ flat_map (fun index =>
                            pre_padded_chunk pad
                              (chunk (Padding._max_segment_size self) tokens index))
                         indices).
Proof.
  intros Hpad Hall Hsize Hindices.
  induction Hindices as [| index indices [Hindex Hfirst] _ IH]; intros data_to_ids;
    cbn [Py.foldM flat_map].
  - now rewrite app_nil_r.
  - rewrite (convert_segment_fits self pad data tokens _ index Hpad Hall Hsize
                                  Hindex Hfirst).
    cbn [Py.bind]. rewrite IH. now rewrite <- app_assoc.
Qed.

(** Sorting rows that all have a last cell. *)
Lemma sorted_by_length_rows (rows : list (list Z)) :
  Forall (fun row => row <> []) rows ->
  PostPadding.sorted_by_length rows (seq 0 (length rows)) = Py.Ok
    (map snd (Padding.sorted_desc
                (map (fun r => (last (read rows r) 0, r)) (seq 0 (length rows)))))
  /\ map (read rows)
         (map snd (Padding.sorted_desc
                     (map (fun r => (last (read rows r) 0, r)) (seq 0 (length rows)))))
     = by_true_length rows.
Proof.
  intros Hne. split.
  - unfold PostPadding.sorted_by_length.
    rewrite (mapM_keyed rows (fun r => last (read rows r) 0)); [reflexivity |].
    intros r Hr. apply in_seq in Hr.
    assert (Hrow : read rows r <> []).
    { rewrite Forall_forall in Hne. apply Hne. unfold read. apply nth_In. lia. }
    destruct (exists_last Hrow) as (front & x & ->).
    now rewrite last_item_snoc, last_last.
  - unfold by_true_length.
    transitivity (map snd (Padding.sorted_desc
                             (map (fun row => (last row 0, row))
                                  (map (read rows) (seq 0 (length rows)))))).
    + rewrite (map_map (read rows)),
        <- (map_map (fun r => (last (read rows r) 0, r))
                    (fun p => (fst p, read rows (snd p)))).
      rewrite sorted_desc_map, !map_map. reflexivity.
    + now rewrite map_read_seq.
Qed.

Lemma by_true_length_perm (rows : list (list Z)) :
  Permutation (by_true_length rows) rows.
Proof.
  unfold by_true_length. rewrite sorted_desc_perm, map_map. cbn [snd].
  now rewrite map_id.
Qed.

Lemma by_true_length_sorted (rows : list (list Z)) :
  StronglySorted true_length_desc (by_true_length rows).
Proof.
  unfold by_true_length.
  set (keyed_rows := map (fun row => (last row 0, row)) rows).
  assert (Hkeys : Forall (fun p => fst p = last (snd p) 0)
                         (Padding.sorted_desc keyed_rows)).
  { eapply Permutation_Forall; [symmetry; apply sorted_desc_perm |].
    apply Forall_forall. intros p Hp. apply in_map_iff in Hp as (row & <- & _).
    reflexivity. }
  pose proof (sorted_desc_sorted keyed_rows) as Hsorted.
  induction Hsorted as [| p l Hsorted IH Hall]; cbn [map]; [constructor |].
  apply Forall_cons_iff in Hkeys as [Hp Hkeys].
  constructor; [apply IH, Hkeys |].
  apply Forall_forall. intros row Hin. apply in_map_iff in Hin as (q & <- & Hq).
  rewrite Forall_forall in Hall, Hkeys.
  specialize (Hall q Hq). specialize (Hkeys q Hq).
  unfold key_desc in Hall. unfold true_length_desc. lia.
Qed.

(** [PrePadding.create_batch] on rows of one length: the same rows,
    sorted. *)
Lemma pre_create_batch_rows (self : Padding.t) (k : nat) (rows : list (list Z)) :
  Forall (fun row => length row = S k) rows ->
  create_batch_of self rows = Py.Ok (by_true_length rows).
Proof.
  intros Hlen. unfold create_batch_of, create_batch.
  destruct (sorted_by_length_rows rows) as [Hsort Hrows].
  { eapply Forall_impl; [| exact Hlen]. intros row Hrow ->. discriminate. }
  rewrite Hsort. cbn [Py.bind]. rewrite Hrows. unfold Numpy.array.
  rewrite (rectangular_same_length (S k)); [reflexivity |].
  eapply Permutation_Forall; [symmetry; apply by_true_length_perm | exact Hlen].
Qed.

(** Where [PrePadding.__call__] does return.  With a positive segment
    size, sentences that tokenize, and no sentence longer than the first
    of its chunk, the conversion returns, chunk by chunk, every sample
    padded with [<PAD>] to the length of the first sample of its chunk
    and followed by its true length, so the rows of a chunk have one
    length.  On rows of one length [create_batch] returns the same rows,
    sorted descending by the trailing field. *)
Lemma pre_padding_first_longest (self : Padding.t) (pad : Z)
        (data : list string) (tokens : list (list Z)) (indices : list Z) :
  Vocabulary.pad_token (Padding._vocabulary self) = Py.Ok pad ->
  Forall2 (tokenized ids_from_sentence self) data tokens ->
  0 < Padding._max_segment_size self ->
  Py.range 0 (Z.of_nat (length data)) (Padding._max_segment_size self) = Py.Ok indices ->
  (forall index,
      In index indices ->
      first_is_longest (chunk (Padding._max_segment_size self) tokens index)) ->
  __call__ ids_from_sentence self data
  = Py.Ok (flat_map (fun index =>
                       pre_padded_chunk pad
                         (chunk (Padding._max_segment_size self) tokens index))
                    indices)
  /\ (forall index,
         In index indices ->
         let tokens_of_chunk := chunk (Padding._max_segment_size self) tokens index in
         Forall (fun row => length row = S (length (hd [] tokens_of_chunk)))
                (pre_padded_chunk pad tokens_of_chunk))
  /\ (forall (n : nat) (rows : list (list Z)),
         Forall (fun row => length row = S n) rows ->
         create_batch_of self rows = Py.Ok (by_true_length rows)
         /\ Permutation (by_true_length rows) rows
         /\ StronglySorted true_length_desc (by_true_length rows)).
Proof.
  intros Hpad Hall Hsize Hrange Hfirst. split.
  - unfold __call__. rewrite Hrange. cbn [Py.bind].
    rewrite (convert_segments_fit self pad data tokens indices Hpad Hall Hsize);
      [reflexivity |].
    apply Forall_forall. intros index Hin. split.
    + eapply range_bounds; eauto.
    + now apply Hfirst.
  - split.
    + intros index Hin tokens_of_chunk.
      apply Forall_forall. intros row Hrow.
      apply in_map_iff in Hrow as (ids & <- & Hids).
      apply length_padded.
      specialize (Hfirst index Hin). unfold first_is_longest in Hfirst.
      rewrite Forall_forall in Hfirst. now apply Hfirst.
    + intros n rows Hlen.
      split; [apply (pre_create_batch_rows self n), Hlen |].
      split; [apply by_true_length_perm | apply by_true_length_sorted].
Qed.

End PrePaddingFacts.

Lemma pre_padding_first_longest_example :
  PrePadding.__call__ Utils.ids_from_sentence (demo_padder Padding.PrePadding) demo_corpus
  = Py.Ok [[0; 1; 2]; [0; 6; 1]; [1; 1]]
  /\ PrePadding.create_batch_of (demo_padder Padding.PrePadding) [[0; 6; 1]; [0; 1; 2]]
     = Py.Ok [[0; 1; 2]; [0; 6; 1]].
Proof.
  destruct (pre_padding_first_longest Utils.ids_from_sentence (demo_padder Padding.PrePadding) 6
                           demo_corpus [[0; 1]; [0]; [1]] [0; 2])
    as (Hcall & _ & Hbatch).
  - reflexivity.
  - repeat constructor.
  - reflexivity.
  - reflexivity.
  - intros index [<- | [<- | []]]; vm_compute; repeat constructor.
  - split; [exact Hcall |].
    apply (Hbatch 2%nat [[0; 6; 1]; [0; 1; 2]]). repeat constructor.
Defined.

(** C2 (the code departs from the claim).  A list of two sentences
    whose second has more ids than its first, in one chunk: the row of
    the chunk is sized by the first sentence, the ids of the second do
    not fit it ([data_line[:-1] = ids]) and [PrePadding.__call__] raises
    [ValueError] instead of producing samples of one length.  Its
    docstring promises padding to the longest sentence of the segment,
    and [PostPadding.__call__] converts the same list. *)
Theorem C2_longer_sentence_raises :
  PrePadding.__call__ Utils.ids_from_sentence (demo_padder Padding.PrePadding)
                      [ln "hello"; ln "hello world"]
  = Py.Raise Py.ValueError
  /\ PostPadding.__call__ Utils.ids_from_sentence (demo_padder Padding.PostPadding)
                          [ln "hello"; ln "hello world"]
     = Py.Ok [[0; 1]; [0; 1; 2]].
Proof. split; vm_compute; reflexivity. Qed.

(** ** Relocation: a batch at the end of a larger heap *)

Section ShiftFacts.
Import Heap.

Lemma seq_shift_add (k n : nat) : seq k n = map (Nat.add k) (seq 0 n).
Proof.
  revert k. induction n as [| n IH]; intros k; cbn; [reflexivity |].
  rewrite Nat.add_0_r. f_equal.
  rewrite (IH (S k)), (IH 1%nat), map_map. apply map_ext. intros r. lia.
Qed.

Lemma slice_map {A B : Type} (f : A -> B) (l : list A) (i j : Z) :
  Py.slice (map f l) i j = map f (Py.slice l i j).
Proof.
  unfold Py.slice, Py.slice_bound. rewrite length_map.
  now rewrite skipn_map, firstn_map.
Qed.

Lemma slice_incl {A : Type} (l : list A) (i j : Z) (x : A) :
  In x (Py.slice l i j) -> In x l.
Proof.
  unfold Py.slice. intros Hin.
  set (lo := Py.slice_bound l i) in *. set (hi := Py.slice_bound l j) in *.
  rewrite <- (firstn_skipn lo l). apply in_or_app. right.
  rewrite <- (firstn_skipn (hi - lo) (skipn lo l)). apply in_or_app. now left.
Qed.

Variables (old : heap).
Let k := length old.

Lemma mapM_keyed_shift (block : heap) (data : list ref) :
  Py.mapM (PostPadding.keyed (old ++ block)) (map (Nat.add k) data)
  = (ks <- Py.mapM (PostPadding.keyed block) data ;;
     Py.Ok (map (fun p => (fst p, (k + snd p)%nat)) ks)).
Proof.
  induction data as [| r data IH]; [reflexivity |].
  cbn [map Py.mapM]. unfold PostPadding.keyed at 1 3. unfold k at 1.
  rewrite read_app_r.
  destruct (Py.last_item (read block r)) as [key |]; cbn [Py.bind]; [| reflexivity].
  rewrite IH.
  destruct (Py.mapM (PostPadding.keyed block) data); reflexivity.
Qed.

Lemma sorted_by_length_shift (block : heap) (data : list ref) :
  PostPadding.sorted_by_length (old ++ block) (map (Nat.add k) data)
  = (sorted_data <- PostPadding.sorted_by_length block data ;;
     Py.Ok (map (Nat.add k) sorted_data)).
Proof.
  unfold PostPadding.sorted_by_length. rewrite mapM_keyed_shift.
  destruct (Py.mapM (PostPadding.keyed block) data) as [ks |]; cbn [Py.bind];
    [| reflexivity].
  rewrite (sorted_desc_map (Nat.add k)), !map_map. reflexivity.
Qed.

Lemma pad_rows_shift (pad : Py.result Z) (batch_length : Z) (refs : list ref) :
  forall block,
    PostPadding.pad_rows pad batch_length (map (Nat.add k) refs) (old ++ block)
    = (fst (PostPadding.pad_rows pad batch_length refs block),
       old ++ snd (PostPadding.pad_rows pad batch_length refs block)).
Proof.
  induction refs as [| r refs IH]; intros block; [reflexivity |].
  cbn [map PostPadding.pad_rows]. unfold k at 1 3. rewrite read_app_r.
  destruct (PostPadding.pad_row pad batch_length (read block r)) as [row |];
    [| reflexivity].
  rewrite write_app_r. apply IH.
Qed.

Lemma map_read_shift (block : heap) (refs : list ref) :
  map (read (old ++ block)) (map (Nat.add k) refs) = map (read block) refs.
Proof.
  rewrite map_map. apply map_ext. intros r. unfold k. apply read_app_r.
Qed.

(** A batch whose rows lie behind [old] is handled as if [old] was not
    there, and [old] is left as it is. *)
Lemma post_create_batch_shift (self : Padding.t) (block : heap) (data : list ref) :
  PostPadding.create_batch self (map (Nat.add k) data) (old ++ block)
  = (fst (PostPadding.create_batch self data block),
     old ++ snd (PostPadding.create_batch self data block)).
Proof.
  unfold PostPadding.create_batch. rewrite sorted_by_length_shift.
  destruct (PostPadding.sorted_by_length block data) as [sorted_data |];
    cbn [Py.bind]; [| reflexivity].
  destruct sorted_data as [| first rest]; [reflexivity |].
  cbn [map Py.first_item Py.bind]. unfold k at 1. rewrite read_app_r.
  destruct (Py.last_item (read block first)) as [batch_length |]; [| reflexivity].
  change (Nat.add k first :: map (Nat.add k) rest)
    with (map (Nat.add k) (first :: rest)).
  rewrite pad_rows_shift.
  destruct (PostPadding.pad_rows _ batch_length (first :: rest) block) as [[u |] h'];
    cbn [fst snd]; [| reflexivity].
  rewrite map_read_shift. unfold k. now rewrite read_app_r.
Qed.

Lemma pre_create_batch_shift (self : Padding.t) (block : heap) (data : list ref) :
  PrePadding.create_batch self (map (Nat.add k) data) (old ++ block)
  = PrePadding.create_batch self data block.
Proof.
  unfold PrePadding.create_batch. rewrite sorted_by_length_shift.
  destruct (PostPadding.sorted_by_length block data) as [sorted_data |];
    cbn [Py.bind]; [| reflexivity].
  now rewrite map_read_shift.
Qed.

Lemma create_batch_shift (padder : Padding.t) (block : heap) (data : list ref) :
  MemoryInput.create_batch padder (map (Nat.add k) data) (old ++ block)
  = (fst (MemoryInput.create_batch padder data block),
     old ++ snd (MemoryInput.create_batch padder data block)).
Proof.
  unfold MemoryInput.create_batch. destruct (Padding.strategy padder).
  - apply post_create_batch_shift.
  - now rewrite pre_create_batch_shift.
Qed.

End ShiftFacts.

(** ** [MemoryInput.batch_generator] without shuffling *)

Section GeneratorFacts.
Import Heap MemoryInput.
Variable shuffle : list ref -> list ref.

Lemma extends_refl (h : heap) : extends h h.
Proof. exists []. now rewrite app_nil_r. Qed.

Lemma extends_app (old t h : heap) : extends (old ++ t) h -> extends old h.
Proof. intros [t' ->]. exists (t ++ t'). now rewrite app_assoc. Qed.

(** One pass of the outer loop: the segment is a copy behind the heap. *)
Lemma segments_step (self : t) (index : Z) (indices : list Z) (h : heap) :
  _shuffle self = false ->
  segments shuffle self (index :: indices) h
  = let rows := map (read h)
                    (Py.slice (_data self) index (index + _max_segment_size self)) in
    match Py.range 0 (Z.of_nat (length rows) - _batch_size self + 1)
                   (_batch_size self) with
    | Py.Raise e => (Py.Abort e, h ++ rows)
    | Py.Ok batch_indices =>
        batches self (map (Nat.add (length h)) (seq 0 (length rows)))
                batch_indices (h ++ rows) (segments shuffle self indices)
    end.
Proof.
  intros Hshuffle. cbn [segments]. unfold _segment, deepcopy, alloc.
  rewrite Hshuffle, length_seq, seq_shift_add. reflexivity.
Qed.

(** One pass of the inner loop on a segment that lies behind [old]. *)
Lemma batches_step (self : t) (old block : heap) (segment : list ref)
      (index : Z) (indices : list Z) (rest : heap -> Py.gen Numpy.ndarray * heap) :
  batches self (map (Nat.add (length old)) segment) (index :: indices)
          (old ++ block) rest
  = let data := Py.slice segment index (index + _batch_size self) in
    match fst (create_batch (_padder self) data block) with
    | Py.Ok batch =>
        let (g, h'') :=
          batches self (map (Nat.add (length old)) segment) indices
                  (old ++ snd (create_batch (_padder self) data block)) rest in
        (Py.Yield batch g, h'')
    | Py.Raise e => (Py.Abort e, old ++ snd (create_batch (_padder self) data block))
    end.
Proof.
  cbn [batches]. rewrite slice_map, create_batch_shift.
  destruct (fst (create_batch (_padder self) _ block)); reflexivity.
Qed.

(** The inner loop writes behind [old] only. *)
Lemma batches_frame (self : t) (old : heap) (segment : list ref)
      (rest : heap -> Py.gen Numpy.ndarray * heap) (indices : list Z) :
  (forall block, extends old (snd (rest (old ++ block)))) ->
  forall block,
    extends old (snd (batches self (map (Nat.add (length old)) segment) indices
                              (old ++ block) rest)).
Proof.
  intros Hrest. induction indices as [| index indices IH]; intros block.
  - apply Hrest.
  - rewrite batches_step. cbn zeta.
    destruct (fst (create_batch (_padder self) _ block)) as [batch | e].
    + specialize (IH (snd (create_batch (_padder self)
                                        (Py.slice segment index
                                                  (index + _batch_size self)) block))).
      destruct (batches self _ indices _ rest) as [g h'']. exact IH.
    + cbn [snd]. eexists. reflexivity.
Qed.

(** What the inner loop yields does not depend on what lies before the
    segment. *)
Lemma batches_relocate (self : t) (old old' : heap) (segment : list ref)
      (rest rest' : heap -> Py.gen Numpy.ndarray * heap) (indices : list Z) :
  (forall block, fst (rest (old ++ block)) = fst (rest' (old' ++ block))) ->
  forall block,
    fst (batches self (map (Nat.add (length old)) segment) indices (old ++ block) rest)
    = fst (batches self (map (Nat.add (length old')) segment) indices
                   (old' ++ block) rest').
Proof.
  intros Hrest. induction indices as [| index indices IH]; intros block.
  - apply Hrest.
  - rewrite !batches_step. cbn zeta.
    destruct (fst (create_batch (_padder self) _ block)) as [batch | e];
      [| reflexivity].
    specialize (IH (snd (create_batch (_padder self)
                                      (Py.slice segment index
                                                (index + _batch_size self)) block))).
    destruct (batches self (map (Nat.add (length old)) segment) indices _ rest)
      as [g h''].
    destruct (batches self (map (Nat.add (length old')) segment) indices _ rest')
      as [g' h'''].
    cbn [fst] in *. now rewrite IH.
Qed.

(** A pass leaves every row that existed before it as it was. *)
Lemma segments_frame (self : t) (indices : list Z) :
  _shuffle self = false ->
  forall h, extends h (snd (segments shuffle self indices h)).
Proof.
  intros Hshuffle. induction indices as [| index indices IH]; intros h.
  - apply extends_refl.
  - rewrite segments_step by exact Hshuffle. cbn zeta.
    destruct (Py.range 0 _ (_batch_size self)) as [batch_indices | e].
    + apply batches_frame. intros block. eapply extends_app. apply IH.
    + cbn [snd]. eexists. reflexivity.
Qed.

(** What a pass yields is determined by the rows of [_data]. *)
Lemma segments_agree (self : t) (indices : list Z) :
  _shuffle self = false ->
  forall h h',
    agree (_data self) h h' ->
    fst (segments shuffle self indices h) = fst (segments shuffle self indices h').
Proof.
  intros Hshuffle. induction indices as [| index indices IH]; intros h h' Hagree.
  - reflexivity.
  - rewrite !segments_step by exact Hshuffle. cbn zeta.
    assert (Hrows : map (read h) (Py.slice (_data self) index
                                           (index + _max_segment_size self))
                    = map (read h') (Py.slice (_data self) index
                                              (index + _max_segment_size self))).
    { apply map_ext_in. intros r Hr. apply slice_incl in Hr. now apply Hagree. }
    rewrite Hrows.
    destruct (Py.range 0 _ (_batch_size self)) as [batch_indices | e];
      [| reflexivity].
    apply batches_relocate. intros block. apply IH.
    intros r Hr. destruct (Hagree r Hr) as (Hlt & Hlt' & Hread).
    rewrite !length_app, !read_app_l by assumption.
    repeat split; [lia | lia | exact Hread].
Qed.

(** Restartability: a second call on the heap that the first call left
    yields the same batches and ends the same way, and the first call
    left the rows of [_data] as they were. *)
Lemma batch_generator_restartable (self : t) (h : heap) :
  _shuffle self = false ->
  well_formed self h ->
  let first_call := batch_generator shuffle self h in
  let second_call := batch_generator shuffle self (snd first_call) in
  fst second_call = fst first_call
  /\ map (read (snd first_call)) (_data self) = map (read h) (_data self)
  /\ extends h (snd first_call).
Proof.
  intros Hshuffle [_ Hbound]. cbn zeta.
  assert (Hframe : extends h (snd (batch_generator shuffle self h))).
  { unfold batch_generator.
    destruct (Py.range 0 _ (_max_segment_size self)); [| apply extends_refl].
    now apply segments_frame. }
  destruct Hframe as [t Hframe].
  assert (Hagree : agree (_data self) (h ++ t) h).
  { intros r Hr. specialize (Hbound r Hr).
    rewrite length_app, read_app_l by exact Hbound. repeat split; lia. }
  rewrite Hframe. split; [| split].
  - unfold batch_generator.
    destruct (Py.range 0 _ (_max_segment_size self)); [| reflexivity].
    now apply segments_agree.
  - apply map_ext_in. intros r Hr. now apply Hagree.
  - now exists t.
Qed.

End GeneratorFacts.

Section TruncationFacts.
Import Heap MemoryInput.
Variable shuffle : list ref -> list ref.

Lemma range_single (step : Z) : 0 < step -> Py.range 0 1 step = Py.Ok [0].
Proof.
  intros Hstep. rewrite range_positive by exact Hstep.
  replace ((1 + step - 1) / step) with 1 by (rewrite Z.add_simpl_l, Z.div_same; lia).
  reflexivity.
Qed.

Lemma range_none (stop step : Z) : 0 < step -> stop <= 0 -> Py.range 0 stop step = Py.Ok [].
Proof.
  intros Hstep Hstop. rewrite range_positive by exact Hstep.
  replace (Z.to_nat ((stop + step - 1) / step)) with 0%nat; [reflexivity |].
  assert ((stop + step - 1) / step <= 0); [| lia].
  apply Z.lt_succ_r, Z.div_lt_upper_bound; lia.
Qed.

Lemma agree_app (data : list ref) (h t : heap) :
  (forall r, In r data -> (r < length h)%nat) -> agree data (h ++ t) h.
Proof.
  intros Hbound r Hr. specialize (Hbound r Hr).
  rewrite length_app, read_app_l by exact Hbound. repeat split; lia.
Qed.

(** A segment of exactly [batch_size] rows gives one batch. *)
Lemma segments_full_segment (self : t) (index : Z) (indices : list Z) (h : heap)
      (rows : list (list Z)) (array : Numpy.ndarray) :
  _shuffle self = false ->
  well_formed self h ->
  map (read h) (Py.slice (_data self) index (index + _max_segment_size self)) = rows ->
  Z.of_nat (length rows) = _batch_size self ->
  rows <> [] ->
  batch_of (_padder self) rows = Py.Ok array ->
  fst (segments shuffle self (index :: indices) h)
  = Py.Yield array (fst (segments shuffle self indices h)).
Proof.
  intros Hshuffle [_ Hbound] Hrows Hsize Hne Hbatch.
  assert (Hpos : 0 < _batch_size self) by (destruct rows; [congruence | cbn in Hsize; lia]).
  rewrite segments_step by exact Hshuffle. cbn zeta. rewrite Hrows.
  replace (Z.of_nat (length rows) - _batch_size self + 1) with 1 by lia.
  rewrite range_single by exact Hpos. rewrite batches_step. cbn zeta.
  rewrite slice_from by lia. cbn [skipn Z.to_nat].
  rewrite firstn_all2 by (rewrite length_seq; lia).
  unfold batch_of in Hbatch. rewrite Hbatch. cbn [batches].
  destruct (segments shuffle self indices (h ++ _)) as [g h''] eqn:Hrest.
  cbn [fst]. f_equal.
  change g with (fst (g, h'')). rewrite <- Hrest.
  apply segments_agree; [exact Hshuffle | now apply agree_app].
Qed.

(** A segment of fewer than [batch_size] rows gives none: what is left
    after the last full batch is dropped. *)
Lemma segments_short_segment (self : t) (index : Z) (indices : list Z) (h : heap) :
  _shuffle self = false ->
  well_formed self h ->
  0 < _batch_size self ->
  Z.of_nat (length (Py.slice (_data self) index (index + _max_segment_size self)))
  < _batch_size self ->
  fst (segments shuffle self (index :: indices) h)
  = fst (segments shuffle self indices h).
Proof.
  intros Hshuffle [_ Hbound] Hpos Hshort.
  rewrite segments_step by exact Hshuffle. cbn zeta. rewrite length_map.
  rewrite range_none by lia. cbn [batches].
  apply segments_agree; [exact Hshuffle | now apply agree_app].
Qed.

End TruncationFacts.

(** ** The rows that the conversions produce *)

Section ConversionFacts.
Variable ids_from_sentence : Vocabulary.t -> string -> Py.result (list Z).

Lemma post_convert_lines (self : Padding.t) (lines : list string) :
  forall acc acc',
    Py.foldM (PostPadding.convert_line ids_from_sentence self) lines acc = Py.Ok acc' ->
    exists tokens, acc' = acc ++ map sample tokens /\ length tokens = length lines.
Proof.
  induction lines as [| line lines IH]; intros acc acc' H; cbn [Py.foldM] in H.
  - injection H as <-. exists []. now rewrite app_nil_r.
  - unfold PostPadding.convert_line at 1 in H.
    destruct (ids_from_sentence _ line) as [ids |]; cbn [Py.bind] in H; [| discriminate].
    apply IH in H as (tokens & -> & Hlen).
    exists (ids :: tokens). rewrite <- app_assoc. split; [reflexivity | cbn; lia].
Qed.

Lemma assign_length (n : nat) (source cells : list Z) :
  Numpy.assign n source = Py.Ok cells -> length cells = n.
Proof.
  unfold Numpy.assign. destruct (Nat.eqb_spec (length source) n) as [Heq | _].
  - now intros [= <-].
  - destruct source as [| x [| ? ?]]; try discriminate.
    intros [= <-]. apply repeat_length.
Qed.

(** Every row of a chunk has one cell more than the first sentence of
    the chunk has ids, whenever the conversion of the chunk returns. *)
Lemma pre_convert_lines (self : Padding.t) (n : nat) (lines : list string) :
  forall acc acc',
    Py.foldM (PrePadding.convert_line ids_from_sentence self n) lines acc = Py.Ok acc' ->
    exists rows,
      acc' = acc ++ rows /\ length rows = length lines
      /\ Forall (fun row => length row = S n) rows.
Proof.
  induction lines as [| line lines IH]; intros acc acc' H; cbn [Py.foldM] in H.
  - injection H as <-. exists []. rewrite app_nil_r. repeat split. constructor.
  - unfold PrePadding.convert_line at 1 in H.
    destruct (ids_from_sentence _ line) as [ids |]; cbn [Py.bind] in H; [| discriminate].
    destruct (PrePadding.pad_ids _ n ids) as [padded_ids |]; cbn [Py.bind] in H;
      [| discriminate].
    destruct (Numpy.assign n padded_ids) as [cells |] eqn:Hcells; cbn [Py.bind] in H;
      [| discriminate].
    apply assign_length in Hcells.
    apply IH in H as (rows & -> & Hlen & Hall).
    exists ((cells ++ [Z.of_nat (length ids)]) :: rows). rewrite <- app_assoc.
    split; [reflexivity |]. split; [cbn; lia |].
    constructor; [| exact Hall]. rewrite length_app. cbn. lia.
Qed.

Lemma pre_convert_segment (self : Padding.t) (data : list string) (index : Z)
      (acc acc' : list (list Z)) :
  PrePadding.convert_segment ids_from_sentence self data acc index = Py.Ok acc' ->
  exists rows n,
    acc' = acc ++ rows
    /\ length rows
       = length (Py.slice data index (index + Padding._max_segment_size self))
    /\ Forall (fun row => length row = S n) rows.
Proof.
  unfold PrePadding.convert_segment. intros H.
  destruct (Py.first_item _) as [first |]; cbn [Py.bind] in H; [| discriminate].
  destruct (ids_from_sentence _ first) as [first_ids |]; cbn [Py.bind] in H;
    [| discriminate].
  apply pre_convert_lines in H as (rows & -> & Hlen & Hall).
  now exists rows, (length first_ids).
Qed.

Lemma post_batchable (padder : Padding.t) (pad : Z) (tokens : list (list Z)) :
  Padding.strategy padder = Padding.PostPadding ->
  Vocabulary.pad_token (Padding._vocabulary padder) = Py.Ok pad ->
  tokens <> [] ->
  batchable padder (map sample tokens).
Proof.
  intros Hstrategy Hpad Hne. unfold batchable, batch_of, MemoryInput.create_batch.
  rewrite Hstrategy, length_map.
  rewrite (create_batch_samples padder pad tokens Hpad Hne). cbn [fst].
  eexists. split; [reflexivity |].
  rewrite !length_map. apply Permutation_length, by_length_perm.
Qed.

Lemma pre_batchable (padder : Padding.t) (n : nat) (rows : list (list Z)) :
  Padding.strategy padder = Padding.PrePadding ->
  Forall (fun row => length row = S n) rows ->
  batchable padder rows.
Proof.
  intros Hstrategy Hall. unfold batchable, batch_of, MemoryInput.create_batch.
  rewrite Hstrategy. cbn [fst].
  pose proof (pre_create_batch_rows padder n rows Hall) as Hbatch.
  unfold PrePadding.create_batch_of in Hbatch. rewrite Hbatch.
  eexists. split; [reflexivity |]. apply Permutation_length, by_true_length_perm.
Qed.

(** Five lines converted with a segment size of two: five rows, of
    which the first two and the next two each form a batch. *)
Lemma convert_five (padder : Padding.t) (pad : Z) (l0 l1 l2 l3 l4 : string)
      (rows : list (list Z)) :
  Padding._max_segment_size padder = 2 ->
  Vocabulary.pad_token (Padding._vocabulary padder) = Py.Ok pad ->
  MemoryInput.convert ids_from_sentence padder [l0; l1; l2; l3; l4] = Py.Ok rows ->
  exists r0 r1 r2 r3 r4,
    rows = [r0; r1; r2; r3; r4]
    /\ batchable padder [r0; r1] /\ batchable padder [r2; r3].
Proof.
  intros HS Hpad H. unfold MemoryInput.convert in H.
  destruct (Padding.strategy padder) eqn:Hstrategy.
  - unfold PostPadding.__call__ in H. rewrite HS in H.
    change (Py.range 0 (Z.of_nat (length [l0; l1; l2; l3; l4])) 2)
      with (Py.Ok [0; 2; 4]) in H.
    cbn [Py.bind Py.foldM] in H.
    change (Py.slice [l0; l1; l2; l3; l4] 0 (0 + 2)) with [l0; l1] in H.
    change (Py.slice [l0; l1; l2; l3; l4] 2 (2 + 2)) with [l2; l3] in H.
    change (Py.slice [l0; l1; l2; l3; l4] 4 (4 + 2)) with [l4] in H.
    destruct (Py.foldM _ [l0; l1] []) as [a |] eqn:Ha; cbn [Py.bind] in H;
      [| discriminate].
    destruct (Py.foldM _ [l2; l3] a) as [b |] eqn:Hb; cbn [Py.bind] in H;
      [| discriminate].
    destruct (Py.foldM _ [l4] b) as [c |] eqn:Hc; cbn [Py.bind] in H; [| discriminate].
    injection H as <-.
    apply post_convert_lines in Ha as (ta & -> & Hta).
    apply post_convert_lines in Hb as (tb & -> & Htb).
    apply post_convert_lines in Hc as (tc & -> & Htc).
    destruct ta as [| t0 [| t1 [| ? ?]]]; try discriminate.
    destruct tb as [| t2 [| t3 [| ? ?]]]; try discriminate.
    destruct tc as [| t4 [| ? ?]]; try discriminate.
    exists (sample t0), (sample t1), (sample t2), (sample t3), (sample t4).
    split; [reflexivity |].
    split; [apply (post_batchable padder pad [t0; t1]) |
            apply (post_batchable padder pad [t2; t3])];
      (assumption || discriminate).
  - unfold PrePadding.__call__ in H. rewrite HS in H.
    change (Py.range 0 (Z.of_nat (length [l0; l1; l2; l3; l4])) 2)
      with (Py.Ok [0; 2; 4]) in H.
    cbn [Py.bind Py.foldM] in H.
    destruct (PrePadding.convert_segment _ padder _ [] 0) as [a |] eqn:Ha;
      cbn [Py.bind] in H; [| discriminate].
    destruct (PrePadding.convert_segment _ padder _ a 2) as [b |] eqn:Hb;
      cbn [Py.bind] in H; [| discriminate].
    destruct (PrePadding.convert_segment _ padder _ b 4) as [c |] eqn:Hc;
      cbn [Py.bind] in H; [| discriminate].
    injection H as <-.
    apply pre_convert_segment in Ha as (ra & na & -> & Hra & Halla).
    apply pre_convert_segment in Hb as (rb & nb & -> & Hrb & Hallb).
    apply pre_convert_segment in Hc as (rc & nc & -> & Hrc & Hallc).
    rewrite HS in Hra, Hrb, Hrc.
    change (Py.slice [l0; l1; l2; l3; l4] 0 (0 + 2)) with [l0; l1] in Hra.
    change (Py.slice [l0; l1; l2; l3; l4] 2 (2 + 2)) with [l2; l3] in Hrb.
    change (Py.slice [l0; l1; l2; l3; l4] 4 (4 + 2)) with [l4] in Hrc.
    destruct ra as [| r0 [| r1 [| ? ?]]]; try discriminate.
    destruct rb as [| r2 [| r3 [| ? ?]]]; try discriminate.
    destruct rc as [| r4 [| ? ?]]; try discriminate.
    exists r0, r1, r2, r3, r4. split; [reflexivity |].
    split; [apply (pre_batchable padder na) | apply (pre_batchable padder nb)];
      assumption.
Qed.

End ConversionFacts.

(** ** The scenario: five lines, segments of two, batches of two *)

Section ScenarioFacts.
Import Heap MemoryInput.
Variable ids_from_sentence : Vocabulary.t -> string -> Py.result (list Z).
Variable shuffle : list ref -> list ref.

(** A monolingual corpus loads the lines of its file. *)
Lemma initialize_corpus_lines fs path vocabulary cuda corpora line lines :
  Monolingual.__init__ fs path vocabulary cuda = Py.Ok corpora ->
  fs path = Some (line :: lines) ->
  Corpora.vocabulary corpora = Py.Ok vocabulary
  /\ exists loaded,
      Monolingual.initialize_corpus fs corpora = Py.Ok loaded
      /\ Monolingual.data loaded = Py.Ok (line :: lines).
Proof.
  intros Hinit Hfile. apply Corpora_init_attributes in Hinit. subst corpora.
  split; [reflexivity |].
  assert (Hfold : forall (file acc : list string),
             Py.foldM (fun data l => Py.Ok (data ++ [l])) file acc = Py.Ok (acc ++ file)).
  { induction file as [| l file IH]; intros acc; cbn [Py.foldM Py.bind].
    - now rewrite app_nil_r.
    - rewrite IH, <- app_assoc. reflexivity. }
  unfold Monolingual.initialize_corpus, Monolingual._load_data, Corpora.open.
  change (Corpora.data_path _) with (Py.Ok path). cbn [Py.bind].
  rewrite Hfile. cbn [Py.bind]. rewrite Hfold. cbn [Py.bind app length Nat.eqb].
  eexists. split; reflexivity.
Qed.

(** The instance that the constructor builds over a corpus of five
    lines with [max_segment_size = 2] and [batch_size = 2]. *)
Lemma init_five fs path vocabulary pad cuda cuda' corpora padding_type
      (l0 l1 l2 l3 l4 : string) (self : t) (h : heap) :
  Monolingual.__init__ fs path vocabulary cuda = Py.Ok corpora ->
  fs path = Some [l0; l1; l2; l3; l4] ->
  Vocabulary.pad_token vocabulary = Py.Ok pad ->
  MemoryInput.__init__ ids_from_sentence fs 2 2 false cuda' corpora padding_type
  = Py.Ok (self, h) ->
  exists r0 r1 r2 r3 r4,
    h = [r0; r1; r2; r3; r4]
    /\ _data self = [0; 1; 2; 3; 4]%nat
    /\ _shuffle self = false
    /\ _batch_size self = 2
    /\ _max_segment_size self = 2
    /\ batchable (_padder self) [r0; r1]
    /\ batchable (_padder self) [r2; r3].
Proof.
  intros Hcorpora Hfile Hpad Hinit.
  destruct (initialize_corpus_lines _ _ _ _ _ _ _ Hcorpora Hfile)
    as (Hvocabulary & loaded & Hloaded & Hdata).
  unfold MemoryInput.__init__ in Hinit.
  destruct (Padding.subclasses padding_type) as [strategy |]; cbn [Py.bind] in Hinit;
    [| discriminate].
  rewrite Hvocabulary in Hinit. cbn [Py.bind] in Hinit.
  rewrite Hloaded in Hinit. cbn [Py.bind] in Hinit.
  rewrite Hdata in Hinit. cbn [Py.bind] in Hinit.
  destruct (convert ids_from_sentence _ _) as [rows |] eqn:Hrows; cbn [Py.bind] in Hinit;
    [| discriminate].
  apply (convert_five ids_from_sentence _ pad) in Hrows
    as (r0 & r1 & r2 & r3 & r4 & -> & Hfirst & Hsecond); [| reflexivity | exact Hpad].
  unfold alloc in Hinit. cbn [app length seq] in Hinit.
  injection Hinit as <- <-.
  exists r0, r1, r2, r3, r4. repeat split; assumption.
Qed.

(** Over that instance a pass yields two batches of two rows; the fifth
    row is alone in the last segment and is dropped. *)
Lemma batch_generator_five (self : t) (r0 r1 r2 r3 r4 : list Z) :
  _data self = [0; 1; 2; 3; 4]%nat ->
  _shuffle self = false ->
  _batch_size self = 2 ->
  _max_segment_size self = 2 ->
  batchable (_padder self) [r0; r1] ->
  batchable (_padder self) [r2; r3] ->
  exists b1 b2,
    fst (batch_generator shuffle self [r0; r1; r2; r3; r4])
    = Py.Yield b1 (Py.Yield b2 Py.StopIteration)
    /\ length b1 = 2%nat /\ length b2 = 2%nat.
Proof.
  intros Hdata Hshuffle Hbatch Hsize (b1 & Hb1 & Hlen1) (b2 & Hb2 & Hlen2).
  set (h := [r0; r1; r2; r3; r4]).
  assert (Hwf : well_formed self h).
  { split; rewrite Hdata; [apply (seq_NoDup 5 0) |].
    intros r Hr. cbn in *. lia. }
  exists b1, b2. split; [| split; assumption].
  unfold batch_generator. rewrite Hdata, Hsize.
  change (Py.range 0 (Z.of_nat (length [0; 1; 2; 3; 4]%nat)) 2) with (Py.Ok [0; 2; 4]).
  cbv beta iota. fold h.
  rewrite (segments_full_segment shuffle self 0 [2; 4] h [r0; r1] b1 Hshuffle Hwf);
    [| rewrite Hdata, Hsize; reflexivity | rewrite Hbatch; reflexivity
     | discriminate | exact Hb1].
  rewrite (segments_full_segment shuffle self 2 [4] h [r2; r3] b2 Hshuffle Hwf);
    [| rewrite Hdata, Hsize; reflexivity | rewrite Hbatch; reflexivity
     | discriminate | exact Hb2].
  rewrite (segments_short_segment shuffle self 4 [] h Hshuffle Hwf);
    [reflexivity | rewrite Hbatch; lia |].
  rewrite Hdata, Hsize, Hbatch.
  change (Py.slice [0; 1; 2; 3; 4]%nat 4 (4 + 2)) with [4%nat]. cbn [length]. lia.
Qed.

End ScenarioFacts.

Section MemoryInputClaims.
Import Heap MemoryInput.
Variable ids_from_sentence : Vocabulary.t -> string -> Py.result (list Z).
Variable shuffle : list ref -> list ref.

(** C9.  Without shuffling, a call of [batch_generator] leaves the rows
    of [_data] as they were and a second call on the same instance
    yields the same batches and ends the same way.  An instance built
    over a monolingual corpus of five lines with [max_segment_size = 2]
    and [batch_size = 2] yields, on every call, exactly two batches of
    two rows each; the row that is alone in the last segment is dropped. *)
Theorem C9_batch_generator_restartable :
  (forall (self : t) (h : heap),
      _shuffle self = false ->
      well_formed self h ->
      let first_call := batch_generator shuffle self h in
      let second_call := batch_generator shuffle self (snd first_call) in
      fst second_call = fst first_call
      /\ map (read (snd first_call)) (_data self) = map (read h) (_data self))
  /\ (forall fs path vocabulary pad cuda cuda' corpora padding_type
             (l0 l1 l2 l3 l4 : string) (self : t) (h : heap),
         Monolingual.__init__ fs path vocabulary cuda = Py.Ok corpora ->
         fs path = Some [l0; l1; l2; l3; l4] ->
         Vocabulary.pad_token vocabulary = Py.Ok pad ->
         MemoryInput.__init__ ids_from_sentence fs 2 2 false cuda' corpora padding_type
         = Py.Ok (self, h) ->
         exists b1 b2,
           let first_call := batch_generator shuffle self h in
           let second_call := batch_generator shuffle self (snd first_call) in
           fst first_call = Py.Yield b1 (Py.Yield b2 Py.StopIteration)
           /\ fst second_call = Py.Yield b1 (Py.Yield b2 Py.StopIteration)
           /\ length b1 = 2%nat /\ length b2 = 2%nat).
Proof.
  split.
  - intros self h Hshuffle Hwf.
    destruct (batch_generator_restartable shuffle self h Hshuffle Hwf) as (H1 & H2 & _).
    now split.
  - intros fs path vocabulary pad cuda cuda' corpora padding_type l0 l1 l2 l3 l4
           self h Hcorpora Hfile Hpad Hinit.
    destruct (init_five ids_from_sentence _ _ _ _ _ _ _ _ _ _ _ _ _ _ _
                        Hcorpora Hfile Hpad Hinit)
      as (r0 & r1 & r2 & r3 & r4 & -> & Hdata & Hshuffle & Hbatch & Hsize
          & Hfirst & Hsecond).
    destruct (batch_generator_five shuffle self r0 r1 r2 r3 r4 Hdata Hshuffle Hbatch
                                   Hsize Hfirst Hsecond)
      as (b1 & b2 & Hrun & Hlen1 & Hlen2).
    assert (Hwf : well_formed self [r0; r1; r2; r3; r4]).
    { split; rewrite Hdata; [apply (seq_NoDup 5 0) |].
      intros r Hr. cbn in *. lia. }
    destruct (batch_generator_restartable shuffle self _ Hshuffle Hwf) as (Hagain & _).
    exists b1, b2. cbn zeta in *. rewrite Hagain. repeat split; assumption.
Qed.

End MemoryInputClaims.

(** The scenario on a concrete corpus, with the default padding. *)
Example demo_batches :
  exists self h,
    MemoryInput.__init__ Utils.ids_from_sentence (demo_fs demo_five_lines) 2 2
                         false false demo_corpora "PostPadding"
    = Py.Ok (self, h)
    /\ h = [[0; 1]; [0; 1; 2]; [1; 5; 0; 3]; [1; 1]; [0; 0; 2]]
    /\ fst (MemoryInput.batch_generator (fun segment => segment) self h)
       = Py.Yield [[0; 1; 2]; [0; 6; 1]]
                  (Py.Yield [[1; 5; 0; 3]; [1; 6; 6; 1]] Py.StopIteration).
Proof. do 2 eexists. vm_compute. repeat split; reflexivity. Qed.

Lemma C9_batch_generator_restartable_witness :
  exists self h b1 b2,
    MemoryInput.__init__ Utils.ids_from_sentence (demo_fs demo_five_lines) 2 2
                         false false demo_corpora "PostPadding"
    = Py.Ok (self, h)
    /\ fst (MemoryInput.batch_generator (fun segment => segment) self h)
       = Py.Yield b1 (Py.Yield b2 Py.StopIteration)
    /\ fst (MemoryInput.batch_generator
              (fun segment => segment) self
              (snd (MemoryInput.batch_generator (fun segment => segment) self h)))
       = Py.Yield b1 (Py.Yield b2 Py.StopIteration)
    /\ length b1 = 2%nat /\ length b2 = 2%nat.
Proof.
  destruct (C9_batch_generator_restartable Utils.ids_from_sentence
                                           (fun segment => segment))
    as [_ Hscenario].
  eassert (Hinit : MemoryInput.__init__ Utils.ids_from_sentence
                     (demo_fs demo_five_lines) 2 2 false false demo_corpora
                     "PostPadding" = Py.Ok (_, _)) by (lazy; reflexivity).
  destruct (Hscenario (demo_fs demo_five_lines) "corpus.txt" demo_vocabulary 6
                      false false demo_corpora "PostPadding"
                      _ _ _ _ _ _ _ eq_refl eq_refl eq_refl Hinit)
    as (b1 & b2 & Hfirst & Hsecond & Hlen1 & Hlen2).
  do 2 eexists. exists b1, b2.
  split; [exact Hinit |]. repeat split; assumption.
Defined.

(** ** What the constructors establish *)

(** Follow the successful branch of every [bind] in [H : _ = Py.Ok _]. *)
Ltac follow_binds H :=
  repeat match type of H with
         | Py.bind ?r _ = _ =>
             let x := fresh in
             destruct r as [x |] eqn:?; cbn [Py.bind] in H; [| discriminate]
         end.

Section ConstructorFacts.

Lemma get_set_same {K V : Type} (eq_dec : forall x y : K, {x = y} + {x <> y})
      (d : @Py.dict K V) (k : K) (v : V) :
  Py.get eq_dec (Py.set eq_dec d k v) k = Some v.
Proof.
  induction d as [| [k' v'] d IH]; cbn.
  - destruct (eq_dec k k); congruence.
  - destruct (eq_dec k k') as [-> | Hne]; cbn.
    + destruct (eq_dec k' k'); congruence.
    + destruct (eq_dec k k'); [contradiction | exact IH].
Qed.

Lemma get_set_other {K V : Type} (eq_dec : forall x y : K, {x = y} + {x <> y})
      (d : @Py.dict K V) (k k' : K) (v : V) :
  k <> k' -> Py.get eq_dec (Py.set eq_dec d k v) k' = Py.get eq_dec d k'.
Proof.
  intros Hne. induction d as [| [k0 v0] d IH]; cbn.
  - destruct (eq_dec k' k); congruence.
  - destruct (eq_dec k k0) as [-> | Hne0]; cbn.
    + destruct (eq_dec k' k0); congruence.
    + now rewrite IH.
Qed.

(** Every vocabulary that [_load_data] returns has the four reserved
    tokens, so [tokens['<PAD>']] is defined. *)
Lemma loaded_vocabulary_has_pad float_accepts identifiers provided fixed cuda file v :
  Vocabulary._load_data float_accepts identifiers provided fixed cuda file = Py.Ok v ->
  exists pad, Vocabulary.pad_token v = Py.Ok pad.
Proof.
  unfold Vocabulary._load_data. intros H.
  follow_binds H.
  injection H as <-.
  unfold Vocabulary.pad_token, Vocabulary.tokens, Py.getitem, Vocabulary.add_token.
  cbn [Vocabulary._word_to_id].
  repeat (rewrite ?get_set_same;
          rewrite ?(get_set_other string_dec) by discriminate).
  cbn. eexists. reflexivity.
Qed.

(** The constructor of [MemoryInput] returns a well-formed instance
    with the flags it was given. *)
Lemma init_well_formed ids_from_sentence fs size batch shuffle_flag cuda corpora
      padding_type (self : MemoryInput.t) (h : Heap.heap) :
  MemoryInput.__init__ ids_from_sentence fs size batch shuffle_flag cuda corpora
                       padding_type = Py.Ok (self, h) ->
  well_formed self h
  /\ MemoryInput._shuffle self = shuffle_flag
  /\ MemoryInput._batch_size self = batch
  /\ MemoryInput._max_segment_size self = size.
Proof.
  unfold MemoryInput.__init__. intros H.
  follow_binds H.
  unfold Heap.alloc in H. cbn [app length] in H. injection H as <- <-.
  cbn. repeat split.
  - apply seq_NoDup.
  - intros r Hr. apply in_seq in Hr. lia.
Qed.

End ConstructorFacts.

(** ** The built-ins on known values *)

Section BuiltinExamples.

Example split_keeps_empty_pieces :
  Py.split "|" "a||b|" = Py.Ok ["a"; ""; "b"; ""].
Proof. reflexivity. Qed.

Example split_long_separator :
  Py.split " ||| " "guten tag ||| good day" = Py.Ok ["guten tag"; "good day"].
Proof. reflexivity. Qed.

Example split_empty_separator : Py.split "" "ab" = Py.Raise Py.ValueError.
Proof. reflexivity. Qed.

Example split_space_keeps_line_end :
  Py.split " " (ln "hello 0.1 0.2") = Py.Ok ["hello"; "0.1"; ln "0.2"].
Proof. reflexivity. Qed.

Example split_whitespace_drops_empty_pieces :
  Py.split_whitespace (ln "  3   14  2") = ["3"; "14"; "2"].
Proof. reflexivity. Qed.

Example int_examples :
  Py.int (ln " 42") = Py.Ok 42
  /\ Py.int "-7" = Py.Ok (-7)
  /\ Py.int "+1_000" = Py.Ok 1000
  /\ Py.int "" = Py.Raise Py.ValueError
  /\ Py.int "1__0" = Py.Raise Py.ValueError
  /\ Py.int "4 2" = Py.Raise Py.ValueError
  /\ Py.int "0.5" = Py.Raise Py.ValueError.
Proof. repeat split; reflexivity. Qed.

Example range_examples :
  Py.range 0 5 2 = Py.Ok [0; 2; 4]
  /\ Py.range 0 (2 - 2 + 1) 2 = Py.Ok [0]
  /\ Py.range 0 (1 - 2 + 1) 2 = Py.Ok []
  /\ Py.range (-5) (-5 - 2) (-1) = Py.Ok [-5; -6]
  /\ Py.range 0 5 0 = Py.Raise Py.ValueError
  /\ Py.range 0 5 (-2) = Py.Ok [].
Proof. repeat split; reflexivity. Qed.

Example slice_examples :
  Py.slice [1; 2; 3; 4; 5] 4 6 = [5]
  /\ Py.slice [1; 2; 3; 4; 5] 2 4 = [3; 4]
  /\ Py.slice [1; 2; 3; 4; 5] (-2) 9 = [4; 5]
  /\ Py.slice [1; 2; 3; 4; 5] 3 1 = [].
Proof. repeat split; reflexivity. Qed.

Example insert_before_last_examples :
  Py.insert_before_last 9 [1; 2; 3] = [1; 2; 9; 3]
  /\ Py.insert_before_last 9 [3] = [9; 3]
  /\ Py.insert_before_last 9 [] = [9].
Proof. repeat split; reflexivity. Qed.

(** [sorted(..., reverse=True)] keeps the order of equal keys. *)
Example sorted_desc_stable :
  Padding.sorted_desc [(1, "a"); (2, "b"); (1, "c"); (2, "d")]
  = [(2, "b"); (2, "d"); (1, "a"); (1, "c")].
Proof. reflexivity. Qed.

End BuiltinExamples.

(** ** Chunks *)

Section ChunkFacts.

Lemma flat_map_chunks_nat {A : Type} (s : nat) :
  (0 < s)%nat ->
  forall (k : nat) (l : list A),
    (length l <= k * s)%nat ->
    flat_map (fun i => firstn s (skipn (i * s) l)) (seq 0 k) = l.
Proof.
  intros Hs. induction k as [| k IH]; intros l Hlen.
  - destruct l; [reflexivity | cbn in Hlen; lia].
  - cbn [seq flat_map]. rewrite <- seq_shift, flat_map_concat_map, map_map.
    rewrite <- flat_map_concat_map. cbn [Nat.mul skipn].
    transitivity (firstn s l
                  ++ flat_map (fun i => firstn s (skipn (i * s) (skipn s l))) (seq 0 k)).
    + f_equal. apply flat_map_ext. intros i.
      rewrite skipn_skipn. do 2 f_equal. lia.
    + rewrite IH by (rewrite length_skipn; lia). apply firstn_skipn.
Qed.

(** The chunks of [range(0, len(l), size)] are the list, cut in order. *)
Lemma chunks_cover {A : Type} (size : Z) (l : list A) (indices : list Z) :
  0 < size ->
  Py.range 0 (Z.of_nat (length l)) size = Py.Ok indices ->
  flat_map (chunk size l) indices = l.
Proof.
  intros Hsize Hrange. rewrite range_positive in Hrange by exact Hsize.
  injection Hrange as <-.
  rewrite flat_map_concat_map, map_map, <- flat_map_concat_map.
  rewrite <- (flat_map_chunks_nat (Z.to_nat size) ltac:(lia)
                                  (Z.to_nat ((Z.of_nat (length l) + size - 1) / size)) l)
    at 2.
  - apply flat_map_ext. intros i. unfold chunk.
    rewrite slice_from by lia. do 2 f_equal. lia.
  - pose proof (Z.div_mod (Z.of_nat (length l) + size - 1) size ltac:(lia)) as Hdiv.
    pose proof (Z.mod_pos_bound (Z.of_nat (length l) + size - 1) size Hsize) as Hmod.
    assert (Z.of_nat (length l)
            <= (Z.of_nat (length l) + size - 1) / size * size) by nia.
    assert (0 <= (Z.of_nat (length l) + size - 1) / size)
      by (apply Z.div_pos; lia).
    nia.
Qed.

End ChunkFacts.

(** ** When [PrePadding] raises *)

Section PrePaddingRaises.
Variable ids_from_sentence : Vocabulary.t -> string -> Py.result (list Z).

(** Whatever the tokenizer: in a chunk of two sentences, a second
    sentence of at least two ids that is longer than the first makes the
    conversion raise [ValueError]. *)
Lemma pre_padding_longer_raises (self : Padding.t) (first second : string)
      (first_ids second_ids : list Z) :
  Padding._max_segment_size self = 2 ->
  tokenized ids_from_sentence self first first_ids ->
  tokenized ids_from_sentence self second second_ids ->
  (length first_ids < length second_ids)%nat ->
  (2 <= length second_ids)%nat ->
  PrePadding.__call__ ids_from_sentence self [first; second] = Py.Raise Py.ValueError.
Proof.
  intros Hsize Hfirst Hsecond Hlonger Htwo.
  unfold PrePadding.__call__. rewrite Hsize.
  change (Py.range 0 (Z.of_nat (length [first; second])) 2) with (Py.Ok [0]).
  cbn [Py.bind Py.foldM]. unfold PrePadding.convert_segment. rewrite Hsize.
  change (Py.slice [first; second] 0 (0 + 2)) with [first; second].
  cbn [Py.first_item Py.bind]. unfold tokenized in *. rewrite Hfirst.
  cbn [Py.bind Py.foldM]. unfold PrePadding.convert_line at 1.
  rewrite Hfirst. cbn [Py.bind]. unfold PrePadding.pad_ids at 1.
  rewrite Nat.sub_diag. cbn [Py.bind]. unfold Numpy.assign at 1.
  rewrite Nat.eqb_refl. cbn [Py.bind]. unfold PrePadding.convert_line.
  rewrite Hsecond. cbn [Py.bind]. unfold PrePadding.pad_ids.
  replace (length first_ids - length second_ids)%nat with 0%nat by lia.
  cbn [Py.bind]. unfold Numpy.assign.
  replace (length second_ids =? length first_ids)%nat with false
    by (symmetry; apply Nat.eqb_neq; lia).
  destruct second_ids as [| x [| y rest]]; cbn in Htwo; try lia. reflexivity.
Qed.

End PrePaddingRaises.

(* ================================================================== *)
(** * Part III. Further properties of the code                         *)
(* ================================================================== *)

(** ** [DataQueue.generator]: counts, bounds, small files *)

Section GeneratorMore.
Import DataQueue.

(** X1.  Over a well-formed id-cache file of [M] lines and a segment
    size [S >= 1], [generator] ends normally after [M / (S + 1) + 1]
    segments, which hold [M - M / (S + 1)] lines in all: one line in
    every [S + 1] is read and not kept. *)
Theorem X1_generator_counts (S : Z) (id_file : list string) :
  1 <= S ->
  Forall parses id_file ->
  let run := generator S id_file in
  let M := Z.of_nat (length id_file) in
  Py.outcome run = None
  /\ Z.of_nat (length (Py.yielded run)) = M / (S + 1) + 1
  /\ Z.of_nat (total_size (Py.yielded run)) = M - M / (S + 1).
Proof.
  intros HS Hfile.
  apply (generator_loop_counts S id_file HS Hfile []). cbn. lia.
Qed.

Lemma generator_loop_bounds (S : Z) (file : list string) :
  0 <= S ->
  forall acc : list (list Z),
    Z.of_nat (length acc) <= S ->
    let run := generator_loop S acc file in
    Forall (fun segment => Z.of_nat (length segment) <= S) (Py.yielded run)
    /\ (Py.outcome run = None ->
        Forall (fun segment => Z.of_nat (length segment) = S)
               (removelast (Py.yielded run)))
    /\ (Py.outcome run <> None ->
        Forall (fun segment => Z.of_nat (length segment) = S) (Py.yielded run)).
Proof.
  intros HS. induction file as [| line file IH]; intros acc Hacc.
  - cbn. repeat split; [repeat constructor; exact Hacc | constructor | congruence].
  - cbn [generator_loop].
    destruct (Z.ltb_spec (Z.of_nat (length acc)) S) as [Hlt | Hge].
    + destruct (parse_line line) as [ids | e].
      * apply IH. rewrite length_app. cbn [length]. lia.
      * cbn. repeat split; [constructor | constructor | constructor].
    + destruct (IH [] ltac:(cbn; lia)) as (Hall & Hdone & Hfail). cbn zeta in *.
      cbn [Py.yielded Py.outcome].
      assert (Hfull : Z.of_nat (length acc) = S) by lia.
      repeat split.
      * constructor; [lia | exact Hall].
      * intros Hout. specialize (Hdone Hout).
        destruct (Py.yielded (generator_loop S [] file)) as [| s l] eqn:Hy.
        -- constructor.
        -- change (removelast (acc :: s :: l)) with (acc :: removelast (s :: l)).
           constructor; assumption.
      * intros Hout. constructor; [exact Hfull | now apply Hfail].
Qed.

(** X2.  With a segment size [S >= 0], no segment that [generator]
    yields holds more than [S] lines, and every segment before the last
    of a complete pass, or before an exception, holds exactly [S]. *)
Theorem X2_generator_segment_sizes (S : Z) (id_file : list string) :
  0 <= S ->
  let run := generator S id_file in
  Forall (fun segment => Z.of_nat (length segment) <= S) (Py.yielded run)
  /\ (Py.outcome run = None ->
      Forall (fun segment => Z.of_nat (length segment) = S)
             (removelast (Py.yielded run)))
  /\ (Py.outcome run <> None ->
      Forall (fun segment => Z.of_nat (length segment) = S) (Py.yielded run)).
Proof.
  intros HS. apply (generator_loop_bounds S id_file HS []). cbn. lia.
Qed.

Lemma generator_loop_small (S : Z) (file : list string) :
  forall acc : list (list Z),
    Z.of_nat (length acc) + Z.of_nat (length file) <= S ->
    generator_loop S acc file
    = match Py.mapM parse_line file with
      | Py.Ok rows => Py.Yield (acc ++ rows) Py.StopIteration
      | Py.Raise e => Py.Abort e
      end.
Proof.
  induction file as [| line file IH]; intros acc Hlen.
  - cbn. now rewrite app_nil_r.
  - cbn [generator_loop Py.mapM]. cbn [length] in Hlen.
    replace (Z.of_nat (length acc) <? S) with true by (symmetry; apply Z.ltb_lt; lia).
    destruct (parse_line line) as [ids | e]; cbn [Py.bind]; [| reflexivity].
    rewrite IH by (rewrite length_app; cbn [length]; lia).
    destruct (Py.mapM parse_line file); cbn [Py.bind]; [| reflexivity].
    now rewrite <- app_assoc.
Qed.

(** X3.  An id-cache file of at most [S] lines comes out whole: when
    every line parses, [generator] yields one segment, the parsed lines
    in file order; otherwise the error of the first bad line reaches
    the caller before anything is yielded. *)
Theorem X3_generator_small_file (S : Z) (id_file : list string) :
  Z.of_nat (length id_file) <= S ->
  generator S id_file
  = match Py.mapM parse_line id_file with
    | Py.Ok rows => Py.Yield rows Py.StopIteration
    | Py.Raise e => Py.Abort e
    end.
Proof.
  intros Hlen. unfold generator. rewrite generator_loop_small by (cbn; lia).
  reflexivity.
Qed.

End GeneratorMore.

Lemma X1_generator_counts_witness :
  let run := DataQueue.generator 2 [ln "7 1"; ln "8 9 2"; ln "3 1"; ln "4 4 2"] in
  Py.outcome run = None
  /\ Z.of_nat (length (Py.yielded run)) = 2
  /\ Z.of_nat (DataQueue.total_size (Py.yielded run)) = 3.
Proof.
  apply (X1_generator_counts 2 [ln "7 1"; ln "8 9 2"; ln "3 1"; ln "4 4 2"]).
  - lia.
  - repeat constructor; eexists; reflexivity.
Defined.

Lemma X2_generator_segment_sizes_witness :
  let run := DataQueue.generator 1 [ln "7 1"; ln "8 9 2"; ln "3 1"] in
  Forall (fun segment => Z.of_nat (length segment) <= 1) (Py.yielded run)
  /\ (Py.outcome run = None ->
      Forall (fun segment => Z.of_nat (length segment) = 1)
             (removelast (Py.yielded run)))
  /\ (Py.outcome run <> None ->
      Forall (fun segment => Z.of_nat (length segment) = 1) (Py.yielded run)).
Proof.
  apply (X2_generator_segment_sizes 1 [ln "7 1"; ln "8 9 2"; ln "3 1"]). lia.
Defined.

Lemma X3_generator_small_file_witness :
  DataQueue.generator DataQueue.MAX_SEGMENT [ln "7 1"; ln "8 9 2"]
  = Py.Yield [[7; 1]; [8; 9; 2]] Py.StopIteration
  /\ DataQueue.generator 5 [ln "7 1"; ln "8 x 2"; ln "3 1"]
     = Py.Abort Py.ValueError.
Proof.
  split.
  - rewrite X3_generator_small_file by (vm_compute; discriminate). reflexivity.
  - rewrite X3_generator_small_file by (vm_compute; discriminate). reflexivity.
Defined.

(** ** [Vocabulary]: what holds for every file that loads *)

Section VocabularyMore.
Import Vocabulary.
Variable float_accepts : string -> bool.

Lemma set_keys_nodup {K V : Type} (eq_dec : forall x y : K, {x = y} + {x <> y})
      (d : @Py.dict K V) (k : K) (v : V) :
  NoDup (Py.keys d) -> NoDup (Py.keys (Py.set eq_dec d k v)).
Proof.
  unfold Py.keys. induction d as [| [k' v'] d IH]; cbn; intros Hnd.
  - repeat constructor. tauto.
  - apply NoDup_cons_iff in Hnd as [Hnot Hnd].
    destruct (eq_dec k k') as [-> | Hne]; cbn.
    + now constructor.
    + constructor; [| now apply IH].
      intros Hin. apply Hnot. clear IH Hnd Hnot.
      induction d as [| [k0 v0] d IH]; cbn in *.
      * destruct Hin as [-> | []]. congruence.
      * destruct (eq_dec k k0); cbn in Hin; [exact Hin |].
        destruct Hin as [<- | Hin]; [now left | right; now apply IH].
Qed.

Lemma set_len_bounds {K V : Type} (eq_dec : forall x y : K, {x = y} + {x <> y})
      (d : @Py.dict K V) (k : K) (v : V) :
  Py.len d <= Py.len (Py.set eq_dec d k v) <= Py.len d + 1.
Proof.
  unfold Py.len. induction d as [| [k' v'] d IH]; cbn [Py.set length].
  - cbn. lia.
  - destruct (eq_dec k k'); cbn [length]; lia.
Qed.

Lemma in_nodup_get {K V : Type} (eq_dec : forall x y : K, {x = y} + {x <> y})
      (d : @Py.dict K V) (k : K) (v : V) :
  NoDup (Py.keys d) -> In (k, v) d -> Py.get eq_dec d k = Some v.
Proof.
  unfold Py.keys. induction d as [| [k' v'] d IH]; cbn; intros Hnd Hin; [tauto |].
  apply NoDup_cons_iff in Hnd as [Hnot Hnd].
  destruct Hin as [[= -> ->] | Hin].
  - destruct (eq_dec k k); congruence.
  - destruct (eq_dec k k') as [-> | _]; [| now apply IH].
    exfalso. apply Hnot. apply in_map_iff. now exists (k', v).
Qed.

Lemma get_in {K V : Type} (eq_dec : forall x y : K, {x = y} + {x <> y})
      (d : @Py.dict K V) (k : K) (v : V) :
  Py.get eq_dec d k = Some v -> In (k, v) d.
Proof.
  induction d as [| [k' v'] d IH]; cbn; [discriminate |].
  destruct (eq_dec k k') as [-> | _]; [intros [= ->]; now left | auto].
Qed.

Lemma set_in {K V : Type} (eq_dec : forall x y : K, {x = y} + {x <> y})
      (d : @Py.dict K V) (k k0 : K) (v v0 : V) :
  In (k0, v0) (Py.set eq_dec d k v) -> (k0, v0) = (k, v) \/ In (k0, v0) d.
Proof.
  induction d as [| [k' v'] d IH]; cbn.
  - intros [<- | []]. now left.
  - destruct (eq_dec k k') as [-> | _]; cbn.
    + intros [<- | Hin]; [now left | right; now right].
    + intros [<- | Hin]; [right; now left |].
      destruct (IH Hin); [now left | right; now right].
Qed.

(** Every entry of [dict(pairs)] is one of the pairs. *)
Lemma of_pairs_in {K V : Type} (eq_dec : forall x y : K, {x = y} + {x <> y})
      (pairs : list (K * V)) (k : K) (v : V) :
  Py.get eq_dec (Py.of_pairs eq_dec pairs) k = Some v -> In (k, v) pairs.
Proof.
  unfold Py.of_pairs. intros Hget. apply get_in in Hget.
  assert (Hgen : forall acc,
             In (k, v) (fold_left (fun d kv => Py.set eq_dec d (fst kv) (snd kv))
                                  pairs acc) ->
             In (k, v) pairs \/ In (k, v) acc).
  { clear Hget.
    induction pairs as [| [k' v'] pairs IH]; intros acc Hin; cbn in *; [now right |].
    apply IH in Hin as [Hin | Hin]; [left; now right |].
    apply set_in in Hin as [Heq | Hin]; [left; left; now symmetry | now right]. }
  destruct (Hgen [] Hget) as [Hin | []]. exact Hin.
Qed.

Lemma load_words_nodup provided rows columns (lines : list string) :
  forall index d d',
    load_words float_accepts provided rows columns index lines d = Py.Ok d' ->
    NoDup (Py.keys d) -> NoDup (Py.keys d').
Proof.
  induction lines as [| line lines IH]; intros index d d' H Hnd; cbn [load_words] in H.
  - now injection H as <-.
  - follow_binds H. eapply IH; [exact H |]. now apply set_keys_nodup.
Qed.

Lemma add_tokens_nodup (tokens : list string) :
  forall d, NoDup (Py.keys d) -> NoDup (Py.keys (fold_left add_token tokens d)).
Proof.
  induction tokens as [| token tokens IH]; intros d Hnd; cbn; [exact Hnd |].
  apply IH. now apply set_keys_nodup.
Qed.

(** The table of a loaded vocabulary, and that its keys are distinct. *)
Lemma loaded_table identifiers provided fixed cuda file v :
  _load_data float_accepts identifiers provided fixed cuda file = Py.Ok v ->
  NoDup (Py.keys (_word_to_id v))
  /\ _id_to_word v
     = Py.of_pairs Z.eq_dec (combine (Py.values (_word_to_id v)) (Py.keys (_word_to_id v)))
  /\ _language_identifiers v = identifiers.
Proof.
  unfold _load_data. intros H. follow_binds H. injection H as <-.
  cbn [_word_to_id _id_to_word _language_identifiers]. split; [| split; reflexivity].
  unfold add_token at 1 2 3 4. repeat apply set_keys_nodup.
  apply add_tokens_nodup. eapply load_words_nodup; [eassumption | constructor].
Qed.

(** X4.  In every vocabulary that [_load_data] returns, whatever the
    file, an id that decodes to a word encodes back from that word:
    [vocabulary(vocabulary(id)) = id].  (The other direction needs
    distinct tokens.) *)
Theorem X4_decode_then_encode identifiers provided fixed cuda file v id word :
  Vocabulary.__init__ float_accepts file identifiers provided fixed cuda = Py.Ok v ->
  __call__ v (Int id) = Py.Ok (Word word) ->
  __call__ v (Str word) = Py.Ok (Id id).
Proof.
  unfold Vocabulary.__init__. intros Hload Hdecode.
  destruct (loaded_table _ _ _ _ _ _ Hload) as (Hnd & Htable & _).
  cbn [__call__] in *. unfold Py.getitem in *. rewrite Htable in Hdecode.
  destruct (Py.get Z.eq_dec _ id) as [w |] eqn:Hget; cbn [Py.bind] in Hdecode;
    [| discriminate].
  injection Hdecode as ->.
  apply of_pairs_in in Hget. rewrite combine_values_keys in Hget.
  apply in_map_iff in Hget as ([w' id'] & [= -> ->] & Hin).
  now rewrite (in_nodup_get string_dec _ word id Hnd Hin).
Qed.

Lemma reserved_lookup (d0 : @Py.dict string Z) :
  let d1 := add_token d0 "<SOS>" in
  let d2 := add_token d1 "<EOS>" in
  let d3 := add_token d2 "<UNK>" in
  let d4 := add_token d3 "<PAD>" in
  Py.get string_dec d4 "<SOS>" = Some (Py.len d0)
  /\ Py.get string_dec d4 "<EOS>" = Some (Py.len d1)
  /\ Py.get string_dec d4 "<UNK>" = Some (Py.len d2)
  /\ Py.get string_dec d4 "<PAD>" = Some (Py.len d3)
  /\ Py.len d0 <= Py.len d1 <= Py.len d2
  /\ Py.len d2 <= Py.len d3 <= Py.len d0 + 3.
Proof.
  intros d1 d2 d3 d4.
  assert (L1 : Py.len d0 <= Py.len d1 <= Py.len d0 + 1)
    by apply (set_len_bounds string_dec d0 "<SOS>" (Py.len d0)).
  assert (L2 : Py.len d1 <= Py.len d2 <= Py.len d1 + 1)
    by apply (set_len_bounds string_dec d1 "<EOS>" (Py.len d1)).
  assert (L3 : Py.len d2 <= Py.len d3 <= Py.len d2 + 1)
    by apply (set_len_bounds string_dec d2 "<UNK>" (Py.len d2)).
  repeat split; try lia.
  - unfold d4, d3, d2, add_token.
    rewrite !(get_set_other string_dec) by discriminate. apply get_set_same.
  - unfold d4, d3, add_token.
    rewrite !(get_set_other string_dec) by discriminate. apply get_set_same.
  - unfold d4, add_token.
    rewrite !(get_set_other string_dec) by discriminate. apply get_set_same.
  - apply get_set_same.
Qed.

(** X5.  Every vocabulary that [_load_data] returns has the four
    reserved tokens, so [tokens] never raises on it; their ids are in
    the order [<SOS> <= <EOS> <= <UNK> <= <PAD> <= <SOS> + 3], also when
    tokens of the file collide with them. *)
Theorem X5_tokens_defined identifiers provided fixed cuda file v :
  Vocabulary.__init__ float_accepts file identifiers provided fixed cuda = Py.Ok v ->
  exists sos eos unk pad,
    tokens v = Py.Ok [("<SOS>", sos); ("<EOS>", eos); ("<UNK>", unk); ("<PAD>", pad)]
    /\ pad_token v = Py.Ok pad
    /\ sos <= eos <= unk /\ unk <= pad <= sos + 3.
Proof.
  unfold Vocabulary.__init__, _load_data. intros H. follow_binds H. injection H as <-.
  unfold pad_token, tokens, Py.getitem. cbn [_word_to_id].
  destruct (reserved_lookup (fold_left add_token identifiers H6))
    as (Hsos & Heos & Hunk & Hpad & Hle1 & Hle2).
  cbn zeta in *. rewrite Hsos, Heos, Hunk, Hpad. cbn [Py.bind].
  do 4 eexists. split; [reflexivity |]. split; [| split; assumption].
  cbn. destruct (string_dec "<PAD>" "<SOS>"); [discriminate |].
  destruct (string_dec "<PAD>" "<EOS>"); [discriminate |].
  destruct (string_dec "<PAD>" "<UNK>"); [discriminate |].
  destruct (string_dec "<PAD>" "<PAD>"); [reflexivity | congruence].
Qed.

End VocabularyMore.

Lemma X4_decode_then_encode_witness :
  exists v,
    Vocabulary.__init__ (fun _ => true) unk_vocabulary_file [] true true false = Py.Ok v
    /\ Vocabulary.__call__ v (Vocabulary.Int 4) = Py.Ok (Vocabulary.Word "<PAD>")
    /\ Vocabulary.__call__ v (Vocabulary.Str "<PAD>") = Py.Ok (Vocabulary.Id 4).
Proof.
  eexists. split; [vm_compute; reflexivity |].
  split; [vm_compute; reflexivity |].
  apply (X4_decode_then_encode (fun _ => true) [] true true false unk_vocabulary_file).
  - vm_compute. reflexivity.
  - vm_compute. reflexivity.
Defined.

Lemma X5_tokens_defined_witness :
  exists v sos eos unk pad,
    Vocabulary.__init__ (fun _ => true) unk_vocabulary_file [] true true false = Py.Ok v
    /\ Vocabulary.tokens v
       = Py.Ok [("<SOS>", sos); ("<EOS>", eos); ("<UNK>", unk); ("<PAD>", pad)]
    /\ Vocabulary.pad_token v = Py.Ok pad
    /\ sos <= eos <= unk /\ unk <= pad <= sos + 3.
Proof.
  eexists.
  eassert (Hload : Vocabulary.__init__ (fun _ => true) unk_vocabulary_file []
                                       true true false = Py.Ok _)
    by (vm_compute; reflexivity).
  destruct (X5_tokens_defined (fun _ => true) [] true true false unk_vocabulary_file _ Hload)
    as (sos & eos & unk & pad & H).
  exists sos, eos, unk, pad. split; [exact Hload | exact H].
Defined.

(** ** [DataQueue.generator]: the line that is read and not kept *)

Section GeneratorSkips.
Import DataQueue.

Lemma generator_loop_fill (S : Z) (front : list string) (skipped : string)
      (rest : list string) :
  forall acc : list (list Z),
    Z.of_nat (length acc) + Z.of_nat (length front) = S ->
    generator_loop S acc (front ++ skipped :: rest)
    = match Py.mapM parse_line front with
      | Py.Ok rows => Py.Yield (acc ++ rows) (generator_loop S [] rest)
      | Py.Raise e => Py.Abort e
      end.
Proof.
  induction front as [| line front IH]; intros acc Hlen.
  - cbn [app generator_loop Py.mapM]. cbn [length] in Hlen.
    replace (Z.of_nat (length acc) <? S) with false by (symmetry; apply Z.ltb_ge; lia).
    now rewrite app_nil_r.
  - cbn [app generator_loop Py.mapM]. cbn [length] in Hlen.
    replace (Z.of_nat (length acc) <? S) with true by (symmetry; apply Z.ltb_lt; lia).
    destruct (parse_line line) as [ids | e]; cbn [Py.bind]; [| reflexivity].
    rewrite IH by (rewrite length_app; cbn [length]; lia).
    destruct (Py.mapM parse_line front); cbn [Py.bind]; [| reflexivity].
    now rewrite <- app_assoc.
Qed.

(** X6.  When the file has more than [S] lines, the first segment is
    its first [S] lines; line [S + 1] is consumed without being parsed
    or kept, whatever it holds, and the generator goes on from line
    [S + 2] as it would on a file that starts there. *)
Theorem X6_generator_skips_line (S : Z) (front : list string) (skipped : string)
        (rest : list string) :
  Z.of_nat (length front) = S ->
  generator S (front ++ skipped :: rest)
  = match Py.mapM parse_line front with
    | Py.Ok rows => Py.Yield rows (generator S rest)
    | Py.Raise e => Py.Abort e
    end.
Proof.
  intros Hlen. unfold generator. rewrite generator_loop_fill by (cbn; lia).
  reflexivity.
Qed.

Lemma generator_loop_nonpositive (S : Z) (file : list string) :
  S <= 0 ->
  forall acc : list (list Z),
    generator_loop S acc file
    = Py.Yield acc (fold_right (fun _ g => Py.Yield [] g) Py.StopIteration file).
Proof.
  intros HS. induction file as [| line file IH]; intros acc; [reflexivity |].
  cbn [generator_loop fold_right].
  replace (Z.of_nat (length acc) <? S) with false by (symmetry; apply Z.ltb_ge; lia).
  now rewrite IH.
Qed.

(** X7.  With a segment size [S <= 0] nothing is ever kept: [generator]
    parses no line, cannot raise, and yields one empty segment for every
    line of the file and one more at the end. *)
Theorem X7_generator_nonpositive_size (S : Z) (id_file : list string) :
  S <= 0 ->
  Py.yielded (generator S id_file) = repeat [] (length id_file + 1)
  /\ Py.outcome (generator S id_file) = None.
Proof.
  intros HS. unfold generator. rewrite generator_loop_nonpositive by exact HS.
  induction id_file as [| line file [IHy IHo]]; [split; reflexivity |].
  cbn [fold_right Py.yielded Py.outcome length Nat.add repeat] in *.
  split; [now rewrite IHy | exact IHo].
Qed.

End GeneratorSkips.

Lemma X6_generator_skips_line_witness :
  DataQueue.generator 2 ([ln "11 1"; ln "12 1"] ++ "not a row" :: [ln "14 1"])
  = Py.Yield [[11; 1]; [12; 1]] (DataQueue.generator 2 [ln "14 1"]).
Proof.
  rewrite X6_generator_skips_line by reflexivity. reflexivity.
Defined.

Lemma X7_generator_nonpositive_size_witness :
  Py.yielded (DataQueue.generator 0 [ln "11 1"; "not a row"]) = [[]; []; []]
  /\ Py.outcome (DataQueue.generator 0 [ln "11 1"; "not a row"]) = None.
Proof.
  apply (X7_generator_nonpositive_size 0 [ln "11 1"; "not a row"]). lia.
Defined.

(** ** [Vocabulary._load_data]: what the header decides, and the range of the ids *)

Section VocabularyHeader.
Import Vocabulary.
Variable float_accepts : string -> bool.



Lemma ids_below_set bound (d : @Py.dict string Z) word id :
  ids_below bound d -> 0 <= id < bound ->
  ids_below bound (Py.set string_dec d word id).
Proof.
  unfold ids_below. intros Hd Hid. induction d as [| [w i] d IH]; cbn [Py.set].
  - repeat constructor; cbn; lia.
  - apply Forall_cons_iff in Hd as [Hi Hd].
    destruct (string_dec word w); constructor; cbn; auto.
Qed.

Lemma assign_words_below bound (ws : list string) :
  forall index d,
    0 <= index -> index + Z.of_nat (length ws) <= bound ->
    ids_below bound d ->
    ids_below bound (assign_words index ws d)
    /\ Py.len (assign_words index ws d) <= Py.len d + Z.of_nat (length ws).
Proof.
  induction ws as [| w ws IH]; intros index d Hindex Hbound Hd;
    cbn [assign_words length] in *.
  - split; [exact Hd | lia].
  - destruct (IH (index + 1) (Py.set string_dec d w index)) as [Hbelow Hlen];
      [lia | lia | apply ids_below_set; [exact Hd | lia] |].
    split; [exact Hbelow |].
    pose proof (set_len_bounds string_dec d w index). lia.
Qed.

Lemma add_token_below bound (d : @Py.dict string Z) token :
  ids_below bound d -> Py.len d < bound -> ids_below bound (add_token d token).
Proof.
  intros Hd Hlen. apply ids_below_set; [exact Hd |]. unfold Py.len in *. lia.
Qed.

Lemma add_tokens_below bound (tokens : list string) :
  forall d,
    Py.len d + Z.of_nat (length tokens) <= bound ->
    ids_below bound d ->
    ids_below bound (fold_left add_token tokens d)
    /\ Py.len (fold_left add_token tokens d) <= Py.len d + Z.of_nat (length tokens).
Proof.
  induction tokens as [| token tokens IH]; intros d Hbound Hd;
    cbn [fold_left length] in *.
  - split; [exact Hd | lia].
  - pose proof (set_len_bounds string_dec d token (Py.len d)) as Hset.
    fold (add_token d token) in Hset.
    destruct (IH (add_token d token)) as [Hbelow Hlen];
      [lia | apply add_token_below; [exact Hd | lia] |].
    split; [exact Hbelow | lia].
Qed.

Lemma table_below file identifiers :
  ids_below (Z.of_nat (length (tl file)) + Z.of_nat (length identifiers) + 4)
            (table file identifiers).
Proof.
  set (bound := Z.of_nat (length (tl file)) + Z.of_nat (length identifiers) + 4).
  unfold table.
  destruct (assign_words_below bound (words file) 0 []) as [H0 L0];
    [lia | unfold words, bound; rewrite length_map; lia | constructor |].
  unfold words in L0 at 2. rewrite length_map in L0. change (Py.len []) with 0 in L0.
  destruct (add_tokens_below bound identifiers (assign_words 0 (words file) []))
    as [H1 L1]; [unfold bound; lia | exact H0 |].
  set (d1 := fold_left add_token identifiers _) in *.
  pose proof (set_len_bounds string_dec d1 "<SOS>" (Py.len d1)) as L2.
  fold (add_token d1 "<SOS>") in L2. set (d2 := add_token d1 "<SOS>") in *.
  pose proof (set_len_bounds string_dec d2 "<EOS>" (Py.len d2)) as L3.
  fold (add_token d2 "<EOS>") in L3. set (d3 := add_token d2 "<EOS>") in *.
  pose proof (set_len_bounds string_dec d3 "<UNK>" (Py.len d3)) as L4.
  fold (add_token d3 "<UNK>") in L4. set (d4 := add_token d3 "<UNK>") in *.
  assert (H2 : ids_below bound d2) by (apply add_token_below; [exact H1 | unfold bound; lia]).
  assert (H3 : ids_below bound d3) by (apply add_token_below; [exact H2 | unfold bound; lia]).
  assert (H4 : ids_below bound d4) by (apply add_token_below; [exact H3 | unfold bound; lia]).
  apply add_token_below; [exact H4 | unfold bound; lia].
Qed.

(** X9.  In the vocabulary of a valid file every id is a row of the
    embedding matrix: whatever is looked up, by word or by id, the id
    lies between 0 and [vocab_size], also when tokens repeat. *)
Theorem X9_ids_within_size file identifiers provided fixed cuda N D :
  valid_vocabulary_file float_accepts file N D ->
  exists v,
    Vocabulary.__init__ float_accepts file identifiers provided fixed cuda = Py.Ok v
    /\ (forall word id, __call__ v (Str word) = Py.Ok (Id id) -> 0 <= id <= vocab_size v)
    /\ (forall id word, __call__ v (Int id) = Py.Ok (Word word) -> 0 <= id <= vocab_size v).
Proof.
  intros Hvalid. eexists. split.
  - unfold Vocabulary.__init__. apply (load_data_valid _ _ _ _ _ _ _ _ Hvalid).
  - unfold vocab_size. cbn [_vocab_size _word_to_id _id_to_word __call__].
    pose proof (table_below file identifiers) as Hbelow.
    rewrite (valid_count _ _ _ _ Hvalid) in Hbelow.
    unfold ids_below in Hbelow. rewrite Forall_forall in Hbelow.
    split.
    + intros word id H. unfold Py.getitem in H.
      destruct (Py.get string_dec _ word) as [i |] eqn:Hget; cbn [Py.bind] in H;
        [| discriminate].
      injection H as ->. apply get_in in Hget. apply Hbelow in Hget. cbn in Hget. lia.
    + intros id word H. unfold Py.getitem in H.
      destruct (Py.get Z.eq_dec _ id) as [w |] eqn:Hget; cbn [Py.bind] in H;
        [| discriminate].
      apply of_pairs_in in Hget. rewrite combine_values_keys in Hget.
      apply in_map_iff in Hget as ([w' id'] & [= -> ->] & Hin).
      apply Hbelow in Hin. cbn in Hin. lia.
Qed.

Lemma load_words_app provided rows columns (front back : list string) :
  forall index d,
    load_words float_accepts provided rows columns index (front ++ back) d
    = (d' <- load_words float_accepts provided rows columns index front d ;;
       load_words float_accepts provided rows columns
                  (index + Z.of_nat (length front)) back d').
Proof.
  induction front as [| line front IH]; intros index d.
  - cbn [app load_words Py.bind length]. now rewrite Z.add_0_r.
  - cbn [app load_words length].
    destruct (Py.split " " line) as [fields |]; cbn [Py.bind]; [| reflexivity].
    destruct (Py.item fields 0) as [word |]; cbn [Py.bind]; [| reflexivity].
    destruct (if provided then _ else _); cbn [Py.bind]; [| reflexivity].
    rewrite IH.
    replace (index + 1 + Z.of_nat (length front))
      with (index + Z.of_nat (S (length front))) by lia.
    reflexivity.
Qed.

(** X10.  With provided embeddings the matrix has [N + 4 + k] rows, and
    the word lines are stored from row 0 on: a file with more word lines
    than that, however well formed, makes the constructor raise
    [IndexError]. *)
Theorem X10_too_many_words file identifiers fixed cuda N D :
  declares (hd "" file) N D ->
  0 <= D ->
  0 <= N + 4 + Z.of_nat (length identifiers) ->
  Forall (valid_line float_accepts D) (tl file) ->
  N + 4 + Z.of_nat (length identifiers) < Z.of_nat (length (tl file)) ->
  Vocabulary.__init__ float_accepts file identifiers true fixed cuda
  = Py.Raise Py.IndexError.
Proof.
  intros (a & b & rest & Hsplit & Ha & Hb) HD Hrows Hlines Hmany.
  set (rows := N + 4 + Z.of_nat (length identifiers)) in *.
  unfold Vocabulary.__init__, _load_data.
  rewrite Hsplit. cbn [Py.bind Py.item nth_error]. rewrite Ha, Hb. cbn [Py.bind].
  fold rows.
  replace (rows <? 0) with false by (symmetry; apply Z.ltb_ge; lia).
  replace (D <? 0) with false by (symmetry; apply Z.ltb_ge; lia).
  cbn [andb orb Py.bind].
  rewrite <- (firstn_skipn (Z.to_nat rows) (tl file)) in Hlines |- *.
  apply Forall_app in Hlines as [Hfront Hback].
  assert (Hlen : length (firstn (Z.to_nat rows) (tl file)) = Z.to_nat rows)
    by (rewrite length_firstn; lia).
  destruct (skipn (Z.to_nat rows) (tl file)) as [| line back] eqn:Hskip.
  { pose proof (length_skipn (Z.to_nat rows) (tl file)) as Hs.
    rewrite Hskip in Hs. cbn in Hs. lia. }
  rewrite load_words_app, (load_words_valid _ _ _ _ _ Hfront) by lia.
  cbn [Py.bind load_words]. rewrite split_space. cbn [Py.bind Py.item nth_error tl].
  apply Forall_cons_iff in Hback as [[Hfloats _] _].
  unfold weights. rewrite Hfloats. cbn [Py.bind]. unfold store_row.
  replace (0 + Z.of_nat (length (firstn (Z.to_nat rows) (tl file))) <? rows)
    with false by (symmetry; apply Z.ltb_ge; lia).
  reflexivity.
Qed.

End VocabularyHeader.


Lemma X9_ids_within_size_witness :
  exists v,
    Vocabulary.__init__ (fun _ => true) unk_vocabulary_file [] true true false = Py.Ok v
    /\ (forall word id,
           Vocabulary.__call__ v (Vocabulary.Str word) = Py.Ok (Vocabulary.Id id) ->
           0 <= id <= Vocabulary.vocab_size v)
    /\ (forall id word,
           Vocabulary.__call__ v (Vocabulary.Int id) = Py.Ok (Vocabulary.Word word) ->
           0 <= id <= Vocabulary.vocab_size v).
Proof.
  exact (X9_ids_within_size (fun _ => true) unk_vocabulary_file [] true true false
                            2 1 unk_vocabulary_file_valid).
Defined.

Lemma X10_too_many_words_witness :
  Vocabulary.__init__ (fun _ => true) overfull_vocabulary_file [] true true false
  = Py.Raise Py.IndexError.
Proof.
  apply (X10_too_many_words (fun _ => true) overfull_vocabulary_file [] true false 1 1).
  - exists "1", (ln "1"), []. repeat split; reflexivity.
  - lia.
  - cbn. lia.
  - repeat constructor.
  - cbn. lia.
Defined.

(** ** [Monolingual.initialize_corpus] *)

Section CorpusFacts.
Import Corpora.

Lemma foldM_append {A : Type} (file : list A) :
  forall acc, Py.foldM (fun data line => Py.Ok (data ++ [line])) file acc
              = Py.Ok (acc ++ file).
Proof.
  induction file as [| line file IH]; intros acc; cbn [Py.foldM Py.bind].
  - now rewrite app_nil_r.
  - rewrite IH, <- app_assoc. reflexivity.
Qed.

(** X11.  [initialize_corpus] on a corpus as its constructor left it,
    with the file system as it is at that moment: a missing file is an
    [OSError] and an empty one a [ValueError]; otherwise [data] becomes
    the lines of the file, in order and with their line ends, the
    vocabulary and the path stay as they were, and loading again changes
    nothing. *)
Theorem X11_initialize_corpus (fs fs' : filesystem) (path : string)
        (vocabulary : Vocabulary.t) (cuda : bool) (self : instance) :
  Monolingual.__init__ fs path vocabulary cuda = Py.Ok self ->
  match fs' path with
  | None => Monolingual.initialize_corpus fs' self = Py.Raise Py.OSError
  | Some [] => Monolingual.initialize_corpus fs' self = Py.Raise Py.ValueError
  | Some (line :: lines) =>
      exists loaded,
        Monolingual.initialize_corpus fs' self = Py.Ok loaded
        /\ Monolingual.data loaded = Py.Ok (line :: lines)
        /\ Corpora.vocabulary loaded = Py.Ok vocabulary
        /\ Corpora.data_path loaded = Py.Ok path
        /\ Monolingual.initialize_corpus fs' loaded = Py.Ok loaded
  end.
Proof.
  intros Hinit. apply Corpora_init_attributes in Hinit. subst self.
  unfold Monolingual.initialize_corpus, Monolingual._load_data, open.
  cbn [data_path getattr Py.get Py.bind]. cbn.
  destruct (fs' path) as [[| line lines] |] eqn:Hfile; cbn [Py.bind].
  - reflexivity.
  - rewrite foldM_append. cbn. eexists. split; [reflexivity |].
    repeat split. cbn. rewrite Hfile. cbn [Py.bind]. rewrite foldM_append. reflexivity.
  - reflexivity.
Qed.

End CorpusFacts.

Lemma X11_initialize_corpus_witness :
  exists self loaded,
    Monolingual.__init__ (demo_fs demo_corpus) "corpus.txt" demo_vocabulary false
    = Py.Ok self
    /\ Monolingual.initialize_corpus (demo_fs demo_corpus) self = Py.Ok loaded
    /\ Monolingual.data loaded = Py.Ok demo_corpus
    /\ Monolingual.initialize_corpus (demo_fs []) self = Py.Raise Py.ValueError
    /\ Monolingual.initialize_corpus (fun _ => None) self = Py.Raise Py.OSError.
Proof.
  eexists.
  eassert (Hinit : Monolingual.__init__ (demo_fs demo_corpus) "corpus.txt"
                                        demo_vocabulary false = Py.Ok _)
    by reflexivity.
  destruct (X11_initialize_corpus _ (demo_fs demo_corpus) _ _ _ _ Hinit)
    as (loaded & Hload & Hdata & _).
  exists loaded. split; [exact Hinit |]. split; [exact Hload |]. split; [exact Hdata |].
  split.
  - exact (X11_initialize_corpus _ (demo_fs []) _ _ _ _ Hinit).
  - exact (X11_initialize_corpus _ (fun _ => None) _ _ _ _ Hinit).
Defined.

(** ** The conversions [PostPadding.__call__] and [PrePadding.__call__] *)

Section ConversionMore.
Variable ids_from_sentence : Vocabulary.t -> string -> Py.result (list Z).

Lemma range_negative_step (stop step : Z) :
  0 <= stop -> step < 0 -> Py.range 0 stop step = Py.Ok [].
Proof.
  intros Hstop Hstep. unfold Py.range, Py.range_len.
  replace (step =? 0) with false by (symmetry; apply Z.eqb_neq; lia).
  replace (0 <? step) with false by (symmetry; apply Z.ltb_ge; lia).
  replace (Z.to_nat ((0 - stop - step - 1) / - step)) with 0%nat; [reflexivity |].
  assert ((0 - stop - step - 1) / - step <= 0); [| lia].
  apply Z.lt_succ_r, Z.div_lt_upper_bound; lia.
Qed.

(** X12.  The conversion of either padder with a segment size that is
    not positive: size 0 raises [ValueError] (the step of [range]), and
    a negative size returns the empty list without looking at a single
    sentence, so that the corpus is silently lost. *)
Theorem X12_convert_nonpositive_size (padder : Padding.t) (data : list string) :
  (Padding._max_segment_size padder = 0 ->
   MemoryInput.convert ids_from_sentence padder data = Py.Raise Py.ValueError)
  /\ (Padding._max_segment_size padder < 0 ->
      MemoryInput.convert ids_from_sentence padder data = Py.Ok []).
Proof.
  unfold MemoryInput.convert, PostPadding.__call__, PrePadding.__call__.
  split; intros Hsize.
  - rewrite Hsize. destruct (Padding.strategy padder); reflexivity.
  - rewrite range_negative_step by lia.
    destruct (Padding.strategy padder); reflexivity.
Qed.

Lemma foldM_app {A S : Type} (body : S -> A -> Py.result S) (xs ys : list A) :
  forall acc, Py.foldM body (xs ++ ys) acc
              = (acc' <- Py.foldM body xs acc ;; Py.foldM body ys acc').
Proof.
  induction xs as [| x xs IH]; intros acc; cbn [app Py.foldM Py.bind]; [reflexivity |].
  destruct (body acc x); cbn [Py.bind]; [apply IH | reflexivity].
Qed.

Lemma foldM_flat_map {A B S : Type} (body : S -> A -> Py.result S)
      (pieces : B -> list A) (indices : list B) :
  forall acc,
    Py.foldM (fun acc index => Py.foldM body (pieces index) acc) indices acc
    = Py.foldM body (flat_map pieces indices) acc.
Proof.
  induction indices as [| index indices IH]; intros acc; cbn [flat_map Py.foldM];
    [reflexivity |].
  rewrite foldM_app.
  destruct (Py.foldM body (pieces index) acc); cbn [Py.bind]; [apply IH | reflexivity].
Qed.

Lemma post_convert_all (self : Padding.t) (lines : list string) :
  forall acc,
    Py.foldM (PostPadding.convert_line ids_from_sentence self) lines acc
    = (tokens <- Py.mapM (ids_from_sentence (Padding._vocabulary self)) lines ;;
       Py.Ok (acc ++ map sample tokens)).
Proof.
  induction lines as [| line lines IH]; intros acc; cbn [Py.foldM Py.mapM Py.bind map].
  - now rewrite app_nil_r.
  - unfold PostPadding.convert_line at 1.
    destruct (ids_from_sentence (Padding._vocabulary self) line) as [ids |];
      cbn [Py.bind]; [| reflexivity].
    rewrite IH.
    destruct (Py.mapM (ids_from_sentence (Padding._vocabulary self)) lines);
      cbn [Py.bind map]; [| reflexivity].
    now rewrite <- app_assoc.
Qed.

Lemma mapM_Forall2 {A B : Type} (f : A -> Py.result B) (xs : list A) (ys : list B) :
  Forall2 (fun x y => f x = Py.Ok y) xs ys -> Py.mapM f xs = Py.Ok ys.
Proof.
  induction 1 as [| x y xs ys Hx _ IH]; [reflexivity |].
  cbn [Py.mapM]. now rewrite Hx, IH.
Qed.

(** Sentences that tokenize are converted to their samples. *)
Lemma post_conversion_tokens (self : Padding.t) (data : list string)
      (tokens : list (list Z)) :
  0 < Padding._max_segment_size self ->
  Forall2 (fun sentence ids =>
             ids_from_sentence (Padding._vocabulary self) sentence = Py.Ok ids)
          data tokens ->
  PostPadding.__call__ ids_from_sentence self data = Py.Ok (map sample tokens).
Proof.
  intros Hsize Htokens. unfold PostPadding.__call__.
  rewrite range_positive by exact Hsize. cbn [Py.bind].
  rewrite (foldM_flat_map (PostPadding.convert_line ids_from_sentence self)
                          (chunk (Padding._max_segment_size self) data)).
  rewrite (chunks_cover _ data _ Hsize (range_positive _ _ Hsize)).
  now rewrite post_convert_all, (mapM_Forall2 _ _ _ Htokens).
Qed.

(** X13.  For every positive segment size, [PostPadding.__call__] is
    the tokenization of the sentences one by one, each followed by its
    number of ids: the result does not depend on the segment size, and
    the first sentence that fails to tokenize decides the exception. *)
Theorem X13_post_conversion (self : Padding.t) (data : list string) :
  0 < Padding._max_segment_size self ->
  PostPadding.__call__ ids_from_sentence self data
  = (tokens <- Py.mapM (ids_from_sentence (Padding._vocabulary self)) data ;;
     Py.Ok (map sample tokens)).
Proof.
  intros Hsize. unfold PostPadding.__call__.
  destruct (Py.range 0 (Z.of_nat (length data)) (Padding._max_segment_size self))
    as [indices |] eqn:Hrange.
  2:{ rewrite range_positive in Hrange by exact Hsize. discriminate. }
  cbn [Py.bind].
  rewrite (foldM_flat_map (PostPadding.convert_line ids_from_sentence self)
                          (fun index => Py.slice data index
                                          (index + Padding._max_segment_size self))).
  change (fun index => Py.slice data index (index + Padding._max_segment_size self))
    with (chunk (Padding._max_segment_size self) data).
  rewrite (chunks_cover _ _ _ Hsize Hrange).
  apply post_convert_all.
Qed.

End ConversionMore.

Lemma X12_convert_nonpositive_size_witness :
  MemoryInput.convert Utils.ids_from_sentence
    {| Padding.strategy := Padding.PrePadding;
       Padding._vocabulary := demo_vocabulary;
       Padding._max_segment_size := -1 |} demo_corpus = Py.Ok []
  /\ MemoryInput.convert Utils.ids_from_sentence
       {| Padding.strategy := Padding.PostPadding;
          Padding._vocabulary := demo_vocabulary;
          Padding._max_segment_size := 0 |} demo_corpus = Py.Raise Py.ValueError.
Proof.
  split.
  - apply (X12_convert_nonpositive_size Utils.ids_from_sentence). cbn. lia.
  - apply (X12_convert_nonpositive_size Utils.ids_from_sentence). reflexivity.
Defined.

Lemma X13_post_conversion_witness :
  PostPadding.__call__ Utils.ids_from_sentence (demo_padder Padding.PostPadding)
                       demo_corpus
  = Py.Ok [[0; 1; 2]; [0; 1]; [1; 1]].
Proof.
  rewrite X13_post_conversion by (cbn; lia). reflexivity.
Defined.

(** ** [create_batch]: what it returns and what it does to the rows *)

Section BatchLocality.
Import Heap.

Lemma read_overflow (h : heap) (r : ref) : (length h <= r)%nat -> read h r = [].
Proof. intros Hr. unfold read. now apply nth_overflow. Qed.

Lemma heap_ext (h1 h2 : heap) :
  length h1 = length h2 ->
  (forall r, (r < length h1)%nat -> read h1 r = read h2 r) ->
  h1 = h2.
Proof. intros Hlen Hread. apply (nth_ext h1 h2 [] []); assumption. Qed.

Lemma map_nth_positions {A : Type} (d : A) (l : list A) :
  map (fun i => nth i l d) (seq 0 (length l)) = l.
Proof.
  induction l as [| a l IH]; [reflexivity |].
  cbn [length seq map nth]. f_equal.
  rewrite <- seq_shift, map_map. exact IH.
Qed.

Lemma nodup_nth_injective (data : list ref) (i j : nat) :
  NoDup data -> (i < length data)%nat -> (j < length data)%nat ->
  nth i data 0%nat = nth j data 0%nat -> i = j.
Proof. intros Hnd Hi Hj. now apply (proj1 (NoDup_nth data 0%nat) Hnd). Qed.

Lemma mapM_keyed_snd (h : heap) (refs : list ref) :
  forall ks, Py.mapM (PostPadding.keyed h) refs = Py.Ok ks -> map snd ks = refs.
Proof.
  induction refs as [| r refs IH]; intros ks H; cbn [Py.mapM] in H.
  - now injection H as <-.
  - unfold PostPadding.keyed at 1 in H.
    destruct (Py.last_item (read h r)) as [key |]; cbn [Py.bind] in H; [| discriminate].
    destruct (Py.mapM (PostPadding.keyed h) refs) as [ks' |]; cbn [Py.bind] in H;
      [| discriminate].
    injection H as <-. cbn [map snd]. now rewrite (IH ks').
Qed.

Lemma sorted_by_length_perm (h : heap) (refs sorted_data : list ref) :
  PostPadding.sorted_by_length h refs = Py.Ok sorted_data ->
  Permutation sorted_data refs.
Proof.
  unfold PostPadding.sorted_by_length. intros H.
  destruct (Py.mapM (PostPadding.keyed h) refs) as [ks |] eqn:Hks; cbn [Py.bind] in H;
    [| discriminate].
  injection H as <-. rewrite sorted_desc_perm. now rewrite (mapM_keyed_snd _ _ _ Hks).
Qed.

(** The rows [rows] are those that [h] holds at the references
    [g 0 .. g (m - 1)], which are distinct. *)
Variable g : ref -> ref.
Variable m : nat.
Hypothesis g_injective :
  forall i j, (i < m)%nat -> (j < m)%nat -> g i = g j -> i = j.

Lemma mapM_keyed_rename (h rows : heap) (refs : list ref) :
  (forall i, In i refs -> read h (g i) = read rows i) ->
  Py.mapM (PostPadding.keyed h) (map g refs)
  = (ks <- Py.mapM (PostPadding.keyed rows) refs ;;
     Py.Ok (map (fun p => (fst p, g (snd p))) ks)).
Proof.
  induction refs as [| i refs IH]; intros Hread; [reflexivity |].
  cbn [map Py.mapM]. unfold PostPadding.keyed at 1 3.
  rewrite (Hread i) by now left.
  destruct (Py.last_item (read rows i)) as [key |]; cbn [Py.bind]; [| reflexivity].
  rewrite IH by (intros j Hj; apply Hread; now right).
  destruct (Py.mapM (PostPadding.keyed rows) refs); reflexivity.
Qed.

Lemma sorted_by_length_rename (h rows : heap) (refs : list ref) :
  (forall i, In i refs -> read h (g i) = read rows i) ->
  PostPadding.sorted_by_length h (map g refs)
  = (sorted_data <- PostPadding.sorted_by_length rows refs ;;
     Py.Ok (map g sorted_data)).
Proof.
  intros Hread. unfold PostPadding.sorted_by_length.
  rewrite (mapM_keyed_rename _ _ _ Hread).
  destruct (Py.mapM (PostPadding.keyed rows) refs) as [ks |]; cbn [Py.bind];
    [| reflexivity].
  rewrite (sorted_desc_map g), !map_map. reflexivity.
Qed.

Lemma pad_rows_rename (pad : Py.result Z) (batch_length : Z) (refs : list ref) :
  forall h rows,
    (forall i, In i refs -> (i < m)%nat) ->
    length rows = m ->
    (forall i, (i < m)%nat -> (g i < length h)%nat /\ read h (g i) = read rows i) ->
    let after := PostPadding.pad_rows pad batch_length (map g refs) h in
    let after' := PostPadding.pad_rows pad batch_length refs rows in
    fst after = fst after'
    /\ length (snd after') = m
    /\ length (snd after) = length h
    /\ (forall i, (i < m)%nat -> read (snd after) (g i) = read (snd after') i)
    /\ (forall r, (forall i, (i < m)%nat -> g i <> r) -> read (snd after) r = read h r).
Proof.
  induction refs as [| i refs IH]; intros h rows Hrefs Hlen Hsim; cbn zeta.
  - cbn. repeat split; try assumption; try reflexivity. intros j Hj. now apply Hsim.
  - cbn [map PostPadding.pad_rows].
    assert (Hi : (i < m)%nat) by (apply Hrefs; now left).
    destruct (Hsim i Hi) as [Hbound Hrow]. rewrite Hrow.
    destruct (PostPadding.pad_row pad batch_length (read rows i)) as [row | e].
    + destruct (IH (write h (g i) row) (write rows i row)) as (H1 & H2 & H3 & H4 & H5).
      * intros j Hj. apply Hrefs. now right.
      * now rewrite length_write.
      * intros j Hj. rewrite length_write. split; [now apply Hsim |].
        destruct (Nat.eq_dec i j) as [<- | Hne].
        -- rewrite !read_write_same by lia. reflexivity.
        -- rewrite !read_write_other; [now apply Hsim | exact Hne |].
           intros Heq. apply Hne. now apply g_injective.
      * cbn zeta in *. rewrite length_write in H3.
        repeat split; try assumption.
        intros r Hr. rewrite H5 by exact Hr. apply read_write_other. now apply Hr.
    + cbn [fst snd]. repeat split; try assumption; try reflexivity.
      intros j Hj. now apply Hsim.
Qed.

Lemma post_create_batch_rename (self : Padding.t) (h rows : heap) :
  length rows = m ->
  (forall i, (i < m)%nat -> (g i < length h)%nat /\ read h (g i) = read rows i) ->
  let after := PostPadding.create_batch self (map g (seq 0 m)) h in
  let after' := PostPadding.create_batch self (seq 0 m) rows in
  fst after = fst after'
  /\ length (snd after') = m
  /\ length (snd after) = length h
  /\ (forall i, (i < m)%nat -> read (snd after) (g i) = read (snd after') i)
  /\ (forall r, (forall i, (i < m)%nat -> g i <> r) -> read (snd after) r = read h r).
Proof.
  intros Hlen Hsim. cbn zeta. unfold PostPadding.create_batch.
  assert (Hseq : forall i, In i (seq 0 m) -> read h (g i) = read rows i).
  { intros i Hi. apply in_seq in Hi. apply Hsim. lia. }
  rewrite (sorted_by_length_rename _ _ _ Hseq).
  destruct (PostPadding.sorted_by_length rows (seq 0 m)) as [sorted_data | e] eqn:Hsort;
    cbn [Py.bind fst snd].
  2:{ repeat split; try assumption; try reflexivity. intros i Hi. now apply Hsim. }
  assert (Hin : forall i, In i sorted_data -> (i < m)%nat).
  { intros i Hi. apply (Permutation_in _ (sorted_by_length_perm _ _ _ Hsort)) in Hi.
    apply in_seq in Hi. lia. }
  destruct sorted_data as [| first rest]; cbn [map Py.first_item Py.bind fst snd].
  { repeat split; try assumption; try reflexivity. intros i Hi. now apply Hsim. }
  rewrite (proj2 (Hsim first (Hin first (or_introl eq_refl)))).
  destruct (Py.last_item (read rows first)) as [batch_length | e]; cbn [fst snd].
  2:{ repeat split; try assumption; try reflexivity. intros i Hi. now apply Hsim. }
  change (g first :: map g rest) with (map g (first :: rest)).
  destruct (pad_rows_rename (Vocabulary.pad_token (Padding._vocabulary self))
                            batch_length (first :: rest) h rows Hin Hlen Hsim)
    as (H1 & H2 & H3 & H4 & H5).
  cbn zeta in *.
  destruct (PostPadding.pad_rows _ batch_length (map g (first :: rest)) h) as [u h1].
  destruct (PostPadding.pad_rows _ batch_length (first :: rest) rows) as [u' rows1].
  cbn [fst snd] in *. subst u'.
  destruct u as [[] | e]; cbn [fst snd]; repeat split; try assumption.
  f_equal. cbn [map]. f_equal; [apply H4, Hin; now left |].
  rewrite map_map. apply map_ext_in. intros i Hi. apply H4, Hin. now right.
Qed.

End BatchLocality.

Section BatchByValue.
Import Heap.

(** [PostPadding.create_batch] works on the rows it is given and on
    nothing else: the array is that of the same rows as a fresh batch,
    the rows of the batch are changed as those of the fresh batch are,
    and every other row is left alone. *)
Lemma post_create_batch_local (self : Padding.t) (data : list ref) (h : heap) :
  NoDup data ->
  (forall r, In r data -> (r < length h)%nat) ->
  let rows := map (read h) data in
  let after := PostPadding.create_batch self data h in
  let after' := PostPadding.create_batch self (seq 0 (length data)) rows in
  fst after = fst after'
  /\ length (snd after) = length h
  /\ map (read (snd after)) data = snd after'
  /\ (forall r, ~ In r data -> read (snd after) r = read h r).
Proof.
  intros Hnd Hbound. cbn zeta.
  set (m := length data). set (g := fun i : nat => nth i data 0%nat).
  set (rows := map (read h) data).
  assert (Hdata : data = map g (seq 0 m)) by (symmetry; apply map_nth_positions).
  assert (Hinj : forall i j, (i < m)%nat -> (j < m)%nat -> g i = g j -> i = j).
  { intros i j Hi Hj. now apply nodup_nth_injective. }
  assert (Hlen : length rows = m) by (unfold rows; now rewrite length_map).
  assert (Hsim : forall i, (i < m)%nat ->
                           (g i < length h)%nat /\ read h (g i) = read rows i).
  { intros i Hi. split; [apply Hbound, nth_In, Hi |].
    unfold rows, read at 2.
    rewrite (nth_indep _ [] (read h 0%nat)) by (rewrite length_map; exact Hi).
    now rewrite map_nth. }
  assert (Hout : forall r, ~ In r data -> forall i, (i < m)%nat -> g i <> r).
  { intros r Hr i Hi <-. apply Hr, nth_In, Hi. }
  destruct (post_create_batch_rename g m Hinj self h rows Hlen Hsim)
    as (H1 & H2 & H3 & H4 & H5).
  cbn zeta in H1, H2, H3, H4, H5.
  assert (Hrows : map (read (snd (PostPadding.create_batch self (map g (seq 0 m)) h)))
                      (map g (seq 0 m))
                  = snd (PostPadding.create_batch self (seq 0 m) rows)).
  { rewrite map_map.
    transitivity (map (read (snd (PostPadding.create_batch self (seq 0 m) rows)))
                      (seq 0 m)).
    - apply map_ext_in. intros i Hi. apply in_seq in Hi. apply H4. lia.
    - rewrite <- H2 at 2. apply map_read_seq. }
  assert (Hframe : forall r, ~ In r data ->
              read (snd (PostPadding.create_batch self (map g (seq 0 m)) h)) r
              = read h r).
  { intros r Hr. apply H5. now apply Hout. }
  clearbody g m. subst data. auto.
Qed.

Lemma pre_create_batch_local (self : Padding.t) (data : list ref) (h : heap) :
  NoDup data ->
  (forall r, In r data -> (r < length h)%nat) ->
  PrePadding.create_batch self data h
  = PrePadding.create_batch self (seq 0 (length data)) (map (read h) data).
Proof.
  intros Hnd Hbound.
  set (m := length data). set (g := fun i : nat => nth i data 0%nat).
  set (rows := map (read h) data).
  assert (Hdata : data = map g (seq 0 m)) by (symmetry; apply map_nth_positions).
  assert (Hsim : forall i, (i < m)%nat -> read h (g i) = read rows i).
  { intros i Hi. unfold rows, read at 2.
    rewrite (nth_indep _ [] (read h 0%nat)) by (rewrite length_map; exact Hi).
    now rewrite map_nth. }
  unfold PrePadding.create_batch.
  assert (Hsorted : PostPadding.sorted_by_length h (map g (seq 0 m))
                    = (sorted_data <- PostPadding.sorted_by_length rows (seq 0 m) ;;
                       Py.Ok (map g sorted_data))).
  { apply sorted_by_length_rename. intros i Hi. apply in_seq in Hi. apply Hsim. lia. }
  assert (Hreads : forall sorted_data,
             PostPadding.sorted_by_length rows (seq 0 m) = Py.Ok sorted_data ->
             map (read h) (map g sorted_data) = map (read rows) sorted_data).
  { intros sorted_data Hsort. rewrite map_map. apply map_ext_in. intros i Hi.
    apply Hsim.
    apply (Permutation_in _ (sorted_by_length_perm _ _ _ Hsort)) in Hi.
    apply in_seq in Hi. lia. }
  clearbody g m rows. subst data. rewrite Hsorted.
  destruct (PostPadding.sorted_by_length rows (seq 0 m)) as [sorted_data |];
    cbn [Py.bind]; [| reflexivity].
  now rewrite Hreads.
Qed.

(** The same for the padder of a pipeline, whatever its class. *)
Lemma create_batch_local (padder : Padding.t) (data : list ref) (h : heap) :
  NoDup data ->
  (forall r, In r data -> (r < length h)%nat) ->
  let after := MemoryInput.create_batch padder data h in
  fst after = batch_of padder (map (read h) data)
  /\ length (snd after) = length h
  /\ (forall r, ~ In r data -> read (snd after) r = read h r).
Proof.
  intros Hnd Hbound. cbn zeta. unfold batch_of, MemoryInput.create_batch.
  rewrite length_map. destruct (Padding.strategy padder).
  - destruct (post_create_batch_local padder data h Hnd Hbound) as (H1 & H2 & _ & H4).
    auto.
  - cbn [fst snd]. rewrite (pre_create_batch_local padder data h Hnd Hbound). auto.
Qed.

Lemma last_item_last (row : list Z) : row <> [] -> Py.last_item row = Py.Ok (last row 0).
Proof.
  intros Hrow. destruct (exists_last Hrow) as (front & x & ->).
  now rewrite last_item_snoc, last_last.
Qed.

Lemma iter_insert_widened (pad batch_length : Z) (row : list Z) :
  row <> [] ->
  Nat.iter (PostPadding.deficit batch_length row) (Py.insert_before_last pad) row
  = widened pad (Z.to_nat batch_length) row.
Proof.
  intros Hrow. destruct (exists_last Hrow) as (front & x & ->).
  unfold widened, PostPadding.deficit.
  rewrite iter_insert_snoc, removelast_last, last_last, length_app. cbn [length].
  do 3 f_equal. lia.
Qed.

Lemma widened_last (pad : Z) (n : nat) (row : list Z) :
  last (widened pad n row) 0 = last row 0.
Proof. unfold widened. rewrite app_assoc. apply last_last. Qed.

Lemma widened_nonempty (pad : Z) (n : nat) (row : list Z) : widened pad n row <> [].
Proof. unfold widened. rewrite app_assoc. intros H. now apply app_eq_nil in H as [_ H]. Qed.

Lemma widened_idempotent (pad : Z) (n : nat) (row : list Z) :
  widened pad n (widened pad n row) = widened pad n row.
Proof.
  unfold widened at 1. rewrite widened_last. unfold widened.
  rewrite (app_assoc (removelast row)), removelast_last, length_app, repeat_length.
  replace (n - (length (removelast row) + (n - length (removelast row))))%nat
    with 0%nat by lia.
  cbn [repeat]. reflexivity.
Qed.

Lemma widened_sample (pad : Z) (n : nat) (ids : list Z) :
  widened pad n (sample ids) = padded pad n ids.
Proof. unfold widened, sample, padded. now rewrite removelast_last, last_last. Qed.

Lemma read_map (f : list Z -> list Z) (rows : heap) (r : ref) :
  (r < length rows)%nat -> read (map f rows) r = f (read rows r).
Proof.
  intros Hr. unfold read.
  rewrite (nth_indep _ [] (f [])) by now rewrite length_map.
  apply map_nth.
Qed.

(** The greatest trailing field is not less than any other. *)
Lemma greatest_key_bound (rows : list (list Z)) :
  Forall (fun row => last row 0 <= greatest_key rows) rows.
Proof.
  unfold greatest_key.
  eapply Permutation_Forall; [apply by_true_length_perm |].
  pose proof (by_true_length_sorted rows) as Hsorted.
  destruct (by_true_length rows) as [| first rest]; [constructor |].
  apply StronglySorted_inv in Hsorted as [_ Hall]. cbn [hd].
  constructor; [lia |]. exact Hall.
Qed.

(** [PostPadding.create_batch] on a fresh batch of rows that all have
    a last cell: the array, and the rows as they are left. *)
Lemma post_create_batch_rows (self : Padding.t) (pad : Z) (rows : list (list Z)) :
  Vocabulary.pad_token (Padding._vocabulary self) = Py.Ok pad ->
  rows <> [] ->
  Forall (fun row => row <> []) rows ->
  let n := Z.to_nat (greatest_key rows) in
  PostPadding.create_batch self (seq 0 (length rows)) rows
  = (Numpy.array (map (widened pad n) (by_true_length rows)),
     map (widened pad n) rows).
Proof.
  intros Hpad Hne Hrows. cbn zeta.
  destruct (sorted_by_length_rows rows Hrows) as [Hsort Hsorted].
  set (sorted_refs := map snd _) in *.
  assert (Hperm : Permutation sorted_refs (seq 0 (length rows)))
    by (eapply sorted_by_length_perm; exact Hsort).
  assert (Hin : forall r, In r sorted_refs -> (r < length rows)%nat).
  { intros r Hr. apply (Permutation_in _ Hperm), in_seq in Hr. lia. }
  assert (Hread : forall r, (r < length rows)%nat -> read rows r <> []).
  { intros r Hr. rewrite Forall_forall in Hrows. apply Hrows. unfold read.
    now apply nth_In. }
  unfold PostPadding.create_batch. rewrite Hsort.
  destruct sorted_refs as [| first rest] eqn:Hrefs.
  { apply Permutation_nil in Hperm. destruct rows; [congruence | discriminate]. }
  cbn [Py.first_item Py.bind].
  assert (Hfirst : (first < length rows)%nat) by (apply Hin; now left).
  rewrite (last_item_last _ (Hread first Hfirst)).
  assert (Hkey : last (read rows first) 0 = greatest_key rows).
  { unfold greatest_key. rewrite <- Hsorted. reflexivity. }
  rewrite Hkey, Hpad.
  destruct (pad_rows_distinct pad (greatest_key rows) (first :: rest) rows)
    as (h' & Hrun & Hlen & Hpadded & _).
  { apply (Permutation_NoDup (Permutation_sym Hperm)), seq_NoDup. }
  { exact Hin. }
  rewrite Hrun.
  assert (Hwidened : forall r, In r (first :: rest) ->
                               read h' r = widened pad (Z.to_nat (greatest_key rows))
                                                   (read rows r)).
  { intros r Hr. specialize (Hpadded r Hr).
    rewrite pad_row_value, iter_insert_widened in Hpadded by (apply Hread, Hin, Hr).
    now injection Hpadded. }
  f_equal.
  - f_equal. rewrite <- Hsorted, map_map. apply map_ext_in. exact Hwidened.
  - apply heap_ext; [now rewrite length_map |].
    intros r Hr. rewrite Hlen in Hr. rewrite read_map by exact Hr.
    apply Hwidened. apply (Permutation_in _ (Permutation_sym Hperm)), in_seq. lia.
Qed.

(** The same for a batch of rows that lie anywhere in a heap. *)
Lemma post_create_batch_at (self : Padding.t) (pad : Z) (h : heap) (data : list ref) :
  Vocabulary.pad_token (Padding._vocabulary self) = Py.Ok pad ->
  data <> [] ->
  NoDup data ->
  (forall r, In r data -> (r < length h)%nat /\ read h r <> []) ->
  let rows := map (read h) data in
  let n := Z.to_nat (greatest_key rows) in
  exists h',
    PostPadding.create_batch self data h
    = (Numpy.array (map (widened pad n) (by_true_length rows)), h')
    /\ length h' = length h
    /\ (forall r, In r data -> read h' r = widened pad n (read h r))
    /\ (forall r, ~ In r data -> read h' r = read h r).
Proof.
  intros Hpad Hne Hnd Hdata. cbn zeta.
  destruct (post_create_batch_local self data h Hnd) as (H1 & H2 & H3 & H4).
  { intros r Hr. now apply Hdata. }
  cbn zeta in *.
  pose proof (post_create_batch_rows self pad (map (read h) data) Hpad) as Hvalue.
  cbn zeta in Hvalue. rewrite length_map in Hvalue.
  rewrite Hvalue in H1, H3.
  2, 4: destruct data; [congruence | discriminate].
  2, 3: apply Forall_forall; intros row Hrow;
        apply in_map_iff in Hrow as (r & <- & Hr); now apply Hdata.
  clear Hvalue. cbn [fst snd] in *.
  destruct (PostPadding.create_batch self data h) as [array h'].
  cbn [fst snd] in *. exists h'. subst array. repeat split; try assumption.
  intros r Hr.
  destruct (In_nth data r 0%nat Hr) as (i & Hi & <-).
  assert (Hnth : forall (f : ref -> list Z),
             nth i (map f data) [] = f (nth i data 0%nat)).
  { intros f. rewrite (nth_indep _ [] (f 0%nat)) by now rewrite length_map.
    apply map_nth. }
  rewrite <- (Hnth (read h')), H3, <- (Hnth (read h)).
  apply (read_map (widened pad _) (map (read h) data) i). now rewrite length_map.
Qed.

End BatchByValue.


Section BatchEffects.
Import Heap.

(** X14.  What [PostPadding.create_batch] does to a batch of distinct
    rows that lie anywhere in the heap, whatever the rows hold before
    their last cell: the array lists them by descending last cell, each
    with [<PAD>] cells inserted before the last cell up to the greatest
    last cell of the batch; the rows of the caller are padded in place in
    the same way, and no other row is touched. *)
Theorem X14_create_batch_in_place (self : Padding.t) (pad : Z) (h : heap)
        (data : list ref) :
  Vocabulary.pad_token (Padding._vocabulary self) = Py.Ok pad ->
  data <> [] ->
  NoDup data ->
  (forall r, In r data -> (r < length h)%nat /\ read h r <> []) ->
  let rows := map (read h) data in
  let n := Z.to_nat (greatest_key rows) in
  Forall (fun row => last row 0 <= greatest_key rows) rows
  /\ exists h',
      PostPadding.create_batch self data h
      = (Numpy.array (map (widened pad n) (by_true_length rows)), h')
      /\ length h' = length h
      /\ (forall r, In r data -> read h' r = widened pad n (read h r))
      /\ (forall r, ~ In r data -> read h' r = read h r).
Proof.
  intros Hpad Hne Hnd Hdata. cbn zeta. split; [apply greatest_key_bound |].
  now apply post_create_batch_at.
Qed.

Lemma mapM_keyed_rows (h : heap) (refs : list ref) :
  forall ks, Py.mapM (PostPadding.keyed h) refs = Py.Ok ks ->
             forall r, In r refs -> read h r <> [].
Proof.
  induction refs as [| r0 refs IH]; intros ks H r Hr; [destruct Hr |].
  cbn [Py.mapM] in H. unfold PostPadding.keyed at 1 in H.
  destruct (Py.last_item (read h r0)) as [key |] eqn:Hkey; cbn [Py.bind] in H;
    [| discriminate].
  destruct (Py.mapM (PostPadding.keyed h) refs) as [ks' |] eqn:Hks; cbn [Py.bind] in H;
    [| discriminate].
  destruct Hr as [<- | Hr]; [| now apply (IH ks')].
  intros Hrow. rewrite Hrow in Hkey. discriminate.
Qed.

(** A batch that [PostPadding.create_batch] accepts is not empty, and
    its rows exist and have a last cell. *)
Lemma post_create_batch_accepts (self : Padding.t) (h h' : heap) (data : list ref)
      (array : Numpy.ndarray) :
  PostPadding.create_batch self data h = (Py.Ok array, h') ->
  data <> [] /\ forall r, In r data -> (r < length h)%nat /\ read h r <> [].
Proof.
  unfold PostPadding.create_batch, PostPadding.sorted_by_length. intros H.
  destruct (Py.mapM (PostPadding.keyed h) data) as [ks |] eqn:Hks; cbn [Py.bind] in H;
    [| discriminate].
  split.
  - intros ->. cbn in Hks. injection Hks as <-. discriminate.
  - intros r Hr. pose proof (mapM_keyed_rows _ _ _ Hks r Hr) as Hrow.
    split; [| exact Hrow].
    destruct (Nat.lt_ge_cases r (length h)) as [Hlt | Hge]; [exact Hlt |].
    now rewrite read_overflow in Hrow.
Qed.

Lemma by_true_length_map (f : list Z -> list Z) (rows : list (list Z)) :
  (forall row, last (f row) 0 = last row 0) ->
  by_true_length (map f rows) = map f (by_true_length rows).
Proof.
  intros Hlast. unfold by_true_length.
  transitivity (map snd (Padding.sorted_desc
                           (map (fun p => (fst p, f (snd p)))
                                (map (fun row => (last row 0, row)) rows)))).
  - do 2 f_equal. rewrite !map_map. apply map_ext. intros row. cbn [fst snd].
    now rewrite Hlast.
  - rewrite sorted_desc_map, !map_map. reflexivity.
Qed.

Lemma greatest_key_map (f : list Z -> list Z) (rows : list (list Z)) :
  (forall row, last (f row) 0 = last row 0) ->
  rows <> [] ->
  greatest_key (map f rows) = greatest_key rows.
Proof.
  intros Hlast Hne. unfold greatest_key. rewrite by_true_length_map by exact Hlast.
  pose proof (by_true_length_perm rows) as Hperm.
  destruct (by_true_length rows) as [| first rest].
  - apply Permutation_nil in Hperm. congruence.
  - cbn [map hd]. apply Hlast.
Qed.

(** X15.  [PostPadding.create_batch] is idempotent on the rows it has
    padded: called again on the same row objects, it returns the same
    array and changes nothing. *)
Theorem X15_create_batch_idempotent (self : Padding.t) (pad : Z) (h h' : heap)
        (data : list ref) (array : Numpy.ndarray) :
  Vocabulary.pad_token (Padding._vocabulary self) = Py.Ok pad ->
  NoDup data ->
  PostPadding.create_batch self data h = (Py.Ok array, h') ->
  PostPadding.create_batch self data h' = (Py.Ok array, h').
Proof.
  intros Hpad Hnd Hfirst.
  destruct (post_create_batch_accepts _ _ _ _ _ Hfirst) as [Hne Hdata].
  destruct (post_create_batch_at self pad h data Hpad Hne Hnd Hdata)
    as (h1 & Hrun & Hlen & Hin & Hout).
  cbn zeta in *. rewrite Hfirst in Hrun. injection Hrun as Harray <-.
  set (rows := map (read h) data) in *.
  set (n := Z.to_nat (greatest_key rows)) in *.
  assert (Hrows' : map (read h') data = map (widened pad n) rows).
  { unfold rows. rewrite map_map. apply map_ext_in. exact Hin. }
  assert (Hrows : rows <> []) by (unfold rows; destruct data; [congruence | discriminate]).
  destruct (post_create_batch_at self pad h' data Hpad Hne Hnd)
    as (h2 & Hrun2 & Hlen2 & Hin2 & Hout2).
  { intros r Hr. rewrite Hlen, (Hin r Hr). split; [now apply Hdata |].
    apply widened_nonempty. }
  cbn zeta in *. rewrite Hrun2, Hrows'.
  rewrite (greatest_key_map _ _ (widened_last pad n) Hrows).
  rewrite (by_true_length_map _ _ (widened_last pad n)).
  fold n. rewrite map_map.
  rewrite (map_ext _ _ (widened_idempotent pad n)), <- Harray.
  f_equal. apply heap_ext; [exact Hlen2 |].
  intros r _. destruct (in_dec Nat.eq_dec r data) as [Hr | Hr].
  - rewrite (Hin2 r Hr), Hrows'.
    rewrite (greatest_key_map _ _ (widened_last pad n) Hrows). fold n.
    rewrite (Hin r Hr). apply widened_idempotent.
  - now apply Hout2.
Qed.

Lemma mapM_keyed_empty_row (h : heap) (refs : list ref) (r : ref) :
  In r refs -> read h r = [] ->
  Py.mapM (PostPadding.keyed h) refs = Py.Raise Py.IndexError.
Proof.
  intros Hr Hrow. induction refs as [| r0 refs IH]; [destruct Hr |].
  cbn [Py.mapM]. unfold PostPadding.keyed at 1, Py.last_item.
  destruct (rev (read h r0)) as [| key front] eqn:Hrev; cbn [Py.bind]; [reflexivity |].
  destruct Hr as [-> | Hr].
  - rewrite Hrow in Hrev. discriminate.
  - now rewrite (IH Hr).
Qed.

(** X16.  Batches that [create_batch] cannot take: [PostPadding] raises
    [IndexError] on an empty batch, where [PrePadding] returns an empty
    array; both raise [IndexError] on a batch that holds a row without a
    last cell. *)
Theorem X16_create_batch_edges (self : Padding.t) :
  PostPadding.create_batch_of self [] = Py.Raise Py.IndexError
  /\ PrePadding.create_batch_of self [] = Py.Ok []
  /\ (forall rows : list (list Z),
         In [] rows ->
         PostPadding.create_batch_of self rows = Py.Raise Py.IndexError
         /\ PrePadding.create_batch_of self rows = Py.Raise Py.IndexError).
Proof.
  split; [reflexivity |]. split; [reflexivity |].
  intros rows Hin. destruct (In_nth rows [] [] Hin) as (r & Hr & Hrow).
  assert (Hkeys : Py.mapM (PostPadding.keyed rows) (seq 0 (length rows))
                  = Py.Raise Py.IndexError).
  { apply (mapM_keyed_empty_row rows _ r); [apply in_seq; lia | exact Hrow]. }
  unfold PostPadding.create_batch_of, PrePadding.create_batch_of,
    PostPadding.create_batch, PrePadding.create_batch, PostPadding.sorted_by_length.
  rewrite Hkeys. split; reflexivity.
Qed.

End BatchEffects.

Lemma X14_create_batch_in_place_witness :
  exists h',
    PostPadding.create_batch (demo_padder Padding.PostPadding) [2; 0]%nat
                             [[7; 1]; [8; 8; 8]; [5; 5; 5; 3]]
    = (Py.Ok [[5; 5; 5; 3]; [7; 6; 6; 1]], h')
    /\ h' = [[7; 6; 6; 1]; [8; 8; 8]; [5; 5; 5; 3]].
Proof.
  destruct (X14_create_batch_in_place (demo_padder Padding.PostPadding) 6
              [[7; 1]; [8; 8; 8]; [5; 5; 5; 3]] [2; 0]%nat) as (_ & h' & Hrun & _).
  - reflexivity.
  - discriminate.
  - repeat constructor; cbn; intuition lia.
  - intros r [<- | [<- | []]]; cbn; split; (lia || discriminate).
  - exists h'. split; [exact Hrun |].
    vm_compute in Hrun. now injection Hrun.
Defined.

Lemma X15_create_batch_idempotent_witness :
  PostPadding.create_batch (demo_padder Padding.PostPadding) [0; 1]%nat
                           [[7; 6; 6; 1]; [5; 5; 5; 3]]
  = (Py.Ok [[5; 5; 5; 3]; [7; 6; 6; 1]], [[7; 6; 6; 1]; [5; 5; 5; 3]]).
Proof.
  apply (X15_create_batch_idempotent (demo_padder Padding.PostPadding) 6
                                     [[7; 1]; [5; 5; 5; 3]]).
  - reflexivity.
  - repeat constructor; cbn; intuition lia.
  - reflexivity.
Defined.

Lemma X16_create_batch_edges_witness :
  PostPadding.create_batch_of (demo_padder Padding.PostPadding) [[1; 1]; []]
  = Py.Raise Py.IndexError
  /\ PrePadding.create_batch_of (demo_padder Padding.PrePadding) [[1; 1]; []]
     = Py.Raise Py.IndexError.
Proof.
  split.
  - apply (X16_create_batch_edges (demo_padder Padding.PostPadding)). cbn. auto.
  - apply (X16_create_batch_edges (demo_padder Padding.PrePadding)). cbn. auto.
Defined.

(** ** [MemoryInput.batch_generator] by value *)

Section PiecesFacts.

Lemma firstn_seq (n start len : nat) : firstn n (seq start len) = seq start (min n len).
Proof.
  revert start len. induction n as [| n IH]; intros start len; [reflexivity |].
  destruct len; [reflexivity |]. cbn [seq firstn min Nat.min]. now rewrite IH.
Qed.

Lemma piece_of_seq (size start count : nat) :
  (start + size <= count)%nat ->
  firstn size (skipn start (seq 0 count)) = seq start size.
Proof.
  intros Hle. rewrite skipn_seq, firstn_seq. cbn [Nat.add]. f_equal. lia.
Qed.

Lemma map_read_piece (rows : Heap.heap) (start size : nat) :
  (start + size <= length rows)%nat ->
  map (Heap.read rows) (seq start size) = firstn size (skipn start rows).
Proof.
  intros Hle. rewrite <- (map_read_seq rows) at 2.
  now rewrite skipn_map, firstn_map, piece_of_seq.
Qed.

(** The slices that [range(0, stop, size)] addresses are the pieces. *)
Lemma slices_of_range {A : Type} (l : list A) (size : Z) (count : nat) :
  0 < size ->
  map (fun index => Py.slice l index (index + size))
      (map (fun i => Z.of_nat i * size) (seq 0 count))
  = pieces (Z.to_nat size) count l.
Proof.
  intros Hsize. unfold pieces. rewrite map_map. apply map_ext. intros i.
  rewrite slice_from by lia. do 2 f_equal. lia.
Qed.

Lemma pieces_map {A B : Type} (f : A -> B) (size count : nat) (l : list A) :
  pieces size count (map f l) = map (map f) (pieces size count l).
Proof.
  unfold pieces. rewrite map_map. apply map_ext. intros i.
  now rewrite skipn_map, firstn_map.
Qed.

Lemma full_batches_map {A B : Type} (f : A -> B) (size : Z) (l : list A) :
  full_batches size (map f l) = map (map f) (full_batches size l).
Proof. unfold full_batches. now rewrite length_map, pieces_map. Qed.

Lemma segments_of_map {A B : Type} (f : A -> B) (size : Z) (l : list A) :
  segments_of size (map f l) = map (map f) (segments_of size l).
Proof. unfold segments_of. now rewrite length_map, pieces_map. Qed.

(** Every full batch has [size] elements. *)
Lemma full_batches_length {A : Type} (size : Z) (l batch : list A) :
  0 < size ->
  In batch (full_batches size l) -> Z.of_nat (length batch) = size.
Proof.
  intros Hsize Hin. unfold full_batches, pieces in Hin.
  apply in_map_iff in Hin as (i & <- & Hi). apply in_seq in Hi.
  rewrite length_firstn, length_skipn.
  assert (Hdiv : size * (Z.of_nat (length l) / size) <= Z.of_nat (length l))
    by (apply Z.mul_div_le; lia).
  remember (Z.of_nat (length l) / size) as q.
  assert (Hq : 0 <= q) by (subst q; apply Z.div_pos; lia).
  assert (Hi' : Z.of_nat i + 1 <= q) by lia.
  assert (Hle : (Z.of_nat i + 1) * size <= Z.of_nat (length l)) by nia.
  assert (Hnat : (i * Z.to_nat size + Z.to_nat size <= length l)%nat) by nia.
  lia.
Qed.

(** Every segment has at most [size] elements. *)
Lemma segments_of_length {A : Type} (size : Z) (l segment : list A) :
  In segment (segments_of size l) -> Z.of_nat (length segment) <= Z.max size 0.
Proof.
  intros Hin. unfold segments_of, pieces in Hin.
  apply in_map_iff in Hin as (i & <- & _). rewrite length_firstn. lia.
Qed.

Lemma arrays_then_app (padder : Padding.t) (a b : list (list (list Z)))
      (rest : Py.gen Numpy.ndarray) :
  arrays_then padder (a ++ b) rest = arrays_then padder a (arrays_then padder b rest).
Proof.
  induction a as [| rows a IH]; [reflexivity |].
  cbn [app arrays_then]. destruct (batch_of padder rows); [now rewrite IH | reflexivity].
Qed.

End PiecesFacts.

Section BatchGeneratorByValue.
Import Heap MemoryInput.
Variable shuffle : list ref -> list ref.

(** The inner loop on a segment that lies behind [old]: batch after
    batch, the rows of the segment that have not been in a batch are
    still as they were copied. *)
Lemma batches_by_value (self : t) (old rows : heap)
      (rest : heap -> Py.gen Numpy.ndarray * heap) (after : Py.gen Numpy.ndarray) :
  0 < _batch_size self ->
  (forall block, length block = length rows -> fst (rest (old ++ block)) = after) ->
  forall (count start : nat) (block : heap),
    length block = length rows ->
    (forall r, (start * Z.to_nat (_batch_size self) <= r)%nat ->
               read block r = read rows r) ->
    ((start + count) * Z.to_nat (_batch_size self) <= length rows)%nat ->
    fst (batches self (map (Nat.add (length old)) (seq 0 (length rows)))
                 (map (fun i => Z.of_nat i * _batch_size self) (seq start count))
                 (old ++ block) rest)
    = arrays_then (_padder self)
                  (map (fun i => firstn (Z.to_nat (_batch_size self))
                                        (skipn (i * Z.to_nat (_batch_size self)) rows))
                       (seq start count))
                  after.
Proof.
  intros Hsize Hrest. set (b := Z.to_nat (_batch_size self)).
  induction count as [| count IH]; intros start block Hlen Hkept Hfit.
  - cbn [seq map batches arrays_then]. now apply Hrest.
  - cbn [seq map arrays_then]. rewrite batches_step. cbn zeta.
    assert (Hslice : @Py.slice ref (seq 0 (length rows))
                                (Z.of_nat start * _batch_size self)
                                (Z.of_nat start * _batch_size self + _batch_size self)
                     = seq (start * b) b).
    { rewrite slice_from by lia.
      replace (Z.to_nat (Z.of_nat start * _batch_size self)) with (start * b)%nat
        by (unfold b; lia).
      apply piece_of_seq. fold b in Hfit. lia. }
    rewrite Hslice.
    destruct (create_batch_local (_padder self) (seq (start * b) b) block)
      as (Hvalue & Hlength & Hframe).
    { apply seq_NoDup. }
    { intros r Hr. apply in_seq in Hr. fold b in Hfit. lia. }
    cbn zeta in *. rewrite Hvalue.
    assert (Hrows : map (read block) (seq (start * b) b)
                    = firstn b (skipn (start * b) rows)).
    { rewrite <- map_read_piece by (fold b in Hfit; lia).
      apply map_ext_in. intros r Hr. apply in_seq in Hr. apply Hkept. fold b. lia. }
    rewrite Hrows.
    destruct (batch_of (_padder self) (firstn b (skipn (start * b) rows)))
      as [array | e]; [| reflexivity].
    specialize (IH (S start)
                   (snd (create_batch (_padder self) (seq (start * b) b) block))).
    destruct (batches self _ _ (old ++ snd (create_batch (_padder self)
                                                         (seq (start * b) b) block))
                      rest) as [g h''].
    cbn [fst] in *. f_equal. apply IH.
    + now rewrite Hlength.
    + intros r Hr. rewrite Hframe.
      * apply Hkept. fold b. lia.
      * intros Hin. apply in_seq in Hin. fold b in Hr. lia.
    + fold b in Hfit |- *. lia.
Qed.

(** One segment: its full batches, then the rest of the pass. *)
Lemma segments_by_value (self : t) (index : Z) (indices : list Z) (h : heap) :
  _shuffle self = false ->
  well_formed self h ->
  0 < _batch_size self ->
  fst (segments shuffle self (index :: indices) h)
  = arrays_then (_padder self)
      (full_batches (_batch_size self)
         (map (read h) (Py.slice (_data self) index (index + _max_segment_size self))))
      (fst (segments shuffle self indices h)).
Proof.
  intros Hshuffle [_ Hbound] Hsize.
  rewrite segments_step by exact Hshuffle. cbn zeta.
  set (rows := map (read h) _).
  rewrite range_positive by exact Hsize.
  replace ((Z.of_nat (length rows) - _batch_size self + 1 + _batch_size self - 1)
           / _batch_size self)
    with (Z.of_nat (length rows) / _batch_size self) by (f_equal; lia).
  unfold full_batches, pieces.
  apply (batches_by_value self h rows); try assumption.
  - intros block _. apply segments_agree; [exact Hshuffle | now apply agree_app].
  - reflexivity.
  - reflexivity.
  - cbn [Nat.add].
    assert (Hdiv : _batch_size self * (Z.of_nat (length rows) / _batch_size self)
                   <= Z.of_nat (length rows)) by (apply Z.mul_div_le; lia).
    remember (Z.of_nat (length rows) / _batch_size self) as q.
    assert (Hq : 0 <= q) by (subst q; apply Z.div_pos; lia).
    nia.
Qed.

Lemma segments_all_by_value (self : t) (h : heap) (indices : list Z) :
  _shuffle self = false ->
  well_formed self h ->
  0 < _batch_size self ->
  fst (segments shuffle self indices h)
  = arrays_of (_padder self)
      (flat_map (full_batches (_batch_size self))
         (map (fun index =>
                 map (read h)
                     (Py.slice (_data self) index (index + _max_segment_size self)))
              indices)).
Proof.
  intros Hshuffle Hwf Hsize. unfold arrays_of.
  induction indices as [| index indices IH]; [reflexivity |].
  rewrite segments_by_value by assumption.
  cbn [map flat_map]. now rewrite arrays_then_app, IH.
Qed.

(** A pass of [batch_generator] without shuffling, by value: the rows
    are cut into segments, every segment into its full batches, and
    [create_batch] is applied to each batch on its own. *)
Lemma batch_generator_by_value (self : t) (h : heap) :
  _shuffle self = false ->
  well_formed self h ->
  0 < _max_segment_size self ->
  0 < _batch_size self ->
  fst (batch_generator shuffle self h)
  = arrays_of (_padder self)
      (flat_map (full_batches (_batch_size self))
         (segments_of (_max_segment_size self) (map (read h) (_data self)))).
Proof.
  intros Hshuffle Hwf Hsegment Hsize. unfold batch_generator.
  rewrite range_positive by exact Hsegment.
  rewrite segments_all_by_value by assumption.
  do 2 f_equal. unfold segments_of. rewrite length_map, pieces_map.
  rewrite <- (slices_of_range (_data self)) by exact Hsegment.
  now rewrite !map_map.
Qed.

End BatchGeneratorByValue.


Section BatchGeneratorFacts.
Import Heap MemoryInput.
Variable ids_from_sentence : Vocabulary.t -> string -> Py.result (list Z).
Variable shuffle : list ref -> list ref.

(** X17.  A pass of [batch_generator] without shuffling, by value: the
    rows that the pipeline keeps are cut into consecutive segments of
    [max_segment_size] rows, every segment into its consecutive full
    batches of [batch_size] rows, and [create_batch] is applied to each
    batch on its own, up to the first batch that it refuses; what a
    batch becomes does not depend on the batches before it. *)
Theorem X17_batch_generator_by_value (self : t) (h : heap) :
  _shuffle self = false ->
  well_formed self h ->
  0 < _max_segment_size self ->
  0 < _batch_size self ->
  fst (batch_generator shuffle self h)
  = arrays_of (_padder self)
      (flat_map (full_batches (_batch_size self))
         (segments_of (_max_segment_size self) (map (read h) (_data self)))).
Proof.
  intros Hshuffle Hwf Hsegment Hsize. unfold batch_generator.
  rewrite range_positive by exact Hsegment.
  rewrite (segments_all_by_value shuffle) by assumption.
  do 2 f_equal. unfold segments_of. rewrite length_map, pieces_map.
  rewrite <- (slices_of_range (_data self)) by exact Hsegment.
  now rewrite !map_map.
Qed.

(** An array has as many rows as the batch it is made of. *)
Lemma batch_of_length (padder : Padding.t) (rows : list (list Z))
      (array : Numpy.ndarray) :
  batch_of padder rows = Py.Ok array -> length array = length rows.
Proof.
  unfold batch_of, create_batch, PostPadding.create_batch, PrePadding.create_batch.
  intros H.
  assert (Harray : forall h' sorted_data,
             Permutation sorted_data (seq 0 (length rows)) ->
             Numpy.array (map (read h') sorted_data) = Py.Ok array ->
             length array = length rows).
  { intros h' sorted_data Hperm Harray. unfold Numpy.array in Harray.
    destruct (Numpy.rectangular _); [| discriminate]. injection Harray as <-.
    rewrite length_map.
    etransitivity; [apply (Permutation_length Hperm) | apply length_seq]. }
  destruct (Padding.strategy padder).
  - destruct (PostPadding.sorted_by_length rows (seq 0 (length rows)))
      as [sorted_data |] eqn:Hsort; cbn [fst] in H; [| discriminate].
    destruct (first <- Py.first_item sorted_data ;; Py.last_item (read rows first))
      as [batch_length |]; cbn [fst] in H; [| discriminate].
    destruct (PostPadding.pad_rows _ batch_length sorted_data rows) as [[[] |] h'];
      cbn [fst] in H; [| discriminate].
    eapply Harray; [eapply sorted_by_length_perm; exact Hsort | exact H].
  - cbn [fst] in H.
    destruct (PostPadding.sorted_by_length rows (seq 0 (length rows)))
      as [sorted_data |] eqn:Hsort; cbn [Py.bind] in H; [| discriminate].
    eapply Harray; [eapply sorted_by_length_perm; exact Hsort | exact H].
Qed.

Lemma arrays_of_yielded (padder : Padding.t) (batches : list (list (list Z))) :
  Forall (fun array => exists rows, In rows batches /\ batch_of padder rows = Py.Ok array)
         (Py.yielded (arrays_of padder batches))
  /\ (length (Py.yielded (arrays_of padder batches)) <= length batches)%nat.
Proof.
  unfold arrays_of. induction batches as [| rows batches [IHall IHlen]].
  - split; [constructor | reflexivity].
  - cbn [arrays_then]. destruct (batch_of padder rows) as [array |] eqn:Hbatch.
    + cbn [Py.yielded length]. split; [| lia].
      constructor; [exists rows; split; [now left | exact Hbatch] |].
      eapply Forall_impl; [| exact IHall].
      intros a (rows' & Hin & Ha). exists rows'. split; [now right | exact Ha].
    + cbn [Py.yielded length]. split; [constructor | lia].
Qed.

Lemma pieces_concat {A : Type} (size : Z) (l : list A) :
  0 < size -> concat (segments_of size l) = l.
Proof.
  intros Hsize. unfold segments_of, pieces. rewrite <- flat_map_concat_map.
  apply flat_map_chunks_nat; [lia |].
  assert (Hceil : Z.of_nat (length l) <= size * ((Z.of_nat (length l) + size - 1) / size)).
  { pose proof (Z.mul_succ_div_gt (Z.of_nat (length l) + size - 1) size Hsize). lia. }
  remember ((Z.of_nat (length l) + size - 1) / size) as q.
  assert (Hq : 0 <= q) by (subst q; apply Z.div_pos; lia).
  nia.
Qed.

Lemma full_batches_count {A : Type} (size : Z) (l : list A) :
  0 < size ->
  Z.of_nat (length (full_batches size l)) * size <= Z.of_nat (length l).
Proof.
  intros Hsize. unfold full_batches, pieces. rewrite length_map, length_seq.
  pose proof (Z.mul_div_le (Z.of_nat (length l)) size Hsize).
  assert (0 <= Z.of_nat (length l) / size) by (apply Z.div_pos; lia).
  lia.
Qed.

Lemma flat_full_batches_count {A : Type} (size : Z) (segments : list (list A)) :
  0 < size ->
  Z.of_nat (length (flat_map (full_batches size) segments)) * size
  <= Z.of_nat (length (concat segments)).
Proof.
  intros Hsize. induction segments as [| segment segments IH]; [cbn; lia |].
  cbn [flat_map concat]. rewrite !length_app.
  pose proof (full_batches_count size segment Hsize). lia.
Qed.

(** X18.  Without shuffling every batch that a pass yields has
    exactly [batch_size] rows, and there are at most
    [len(data) / batch_size] of them: the rows of a segment that do not
    fill a batch are in no batch of the pass. *)
Theorem X18_batches_are_full (self : t) (h : heap) :
  _shuffle self = false ->
  well_formed self h ->
  0 < _max_segment_size self ->
  0 < _batch_size self ->
  let pass := Py.yielded (fst (batch_generator shuffle self h)) in
  Forall (fun array => Z.of_nat (length array) = _batch_size self) pass
  /\ Z.of_nat (length pass) <= Z.of_nat (length (_data self)) / _batch_size self.
Proof.
  intros Hshuffle Hwf Hsegment Hsize. cbn zeta.
  rewrite batch_generator_by_value by assumption.
  set (batches := flat_map _ _).
  destruct (arrays_of_yielded (_padder self) batches) as [Hall Hlen].
  split.
  - eapply Forall_impl; [| exact Hall].
    intros array (rows & Hin & Hbatch). rewrite (batch_of_length _ _ _ Hbatch).
    apply in_flat_map in Hin as (segment & _ & Hin).
    now apply (full_batches_length (_batch_size self) segment).
  - apply Z.div_le_lower_bound; [exact Hsize |].
    pose proof (flat_full_batches_count
                  (_batch_size self)
                  (segments_of (_max_segment_size self) (map (read h) (_data self)))
                  Hsize) as Hcount.
    rewrite pieces_concat, length_map in Hcount by exact Hsegment.
    fold batches in Hcount. nia.
Qed.

Lemma flat_map_map_swap {A B : Type} (f : A -> B) (size : Z)
      (segments : list (list A)) :
  flat_map (full_batches size) (map (map f) segments)
  = map (map f) (flat_map (full_batches size) segments).
Proof.
  induction segments as [| segment segments IH]; [reflexivity |].
  cbn [map flat_map]. now rewrite map_app, IH, full_batches_map.
Qed.

Lemma arrays_of_samples (padder : Padding.t) (pad : Z) (batches : list (list (list Z))) :
  Padding.strategy padder = Padding.PostPadding ->
  Vocabulary.pad_token (Padding._vocabulary padder) = Py.Ok pad ->
  Forall (fun batch => batch <> []) batches ->
  arrays_of padder (map (map sample) batches) = yields (map (post_array pad) batches).
Proof.
  intros Hstrategy Hpad Hall. unfold arrays_of, yields.
  induction Hall as [| batch batches Hbatch _ IH]; [reflexivity |].
  cbn [map arrays_then fold_right]. unfold batch_of at 1, create_batch.
  rewrite Hstrategy, length_map.
  rewrite (create_batch_samples padder pad batch Hpad Hbatch). cbn [fst].
  now rewrite IH.
Qed.

(** X19.  [MemoryInput] with [PostPadding] and without shuffling, from
    the corpus file to the batches: when the sentences tokenize, the
    constructor succeeds, and a pass yields, for every full batch of
    every segment of the tokenized corpus in file order, the array of
    that batch (longest sentence first, padded with [<PAD>] to the
    longest, true lengths last), and then ends. *)
Theorem X19_memory_input_post_padding
        (fs : Corpora.filesystem) (path : string) (vocabulary : Vocabulary.t)
        (pad : Z) (cuda cuda' : bool) (corpora : Corpora.instance)
        (max_segment_size batch_size : Z)
        (line : string) (lines : list string) (tokens : list (list Z)) :
  Monolingual.__init__ fs path vocabulary cuda = Py.Ok corpora ->
  fs path = Some (line :: lines) ->
  Forall2 (fun sentence ids => ids_from_sentence vocabulary sentence = Py.Ok ids)
          (line :: lines) tokens ->
  Vocabulary.pad_token vocabulary = Py.Ok pad ->
  0 < max_segment_size ->
  0 < batch_size ->
  exists self h,
    MemoryInput.__init__ ids_from_sentence fs max_segment_size batch_size false cuda'
                         corpora "PostPadding" = Py.Ok (self, h)
    /\ fst (batch_generator shuffle self h)
       = yields (map (post_array pad)
                     (flat_map (full_batches batch_size)
                               (segments_of max_segment_size tokens))).
Proof.
  intros Hinit Hfile Htokens Hpad Hsegment Hsize.
  destruct (initialize_corpus_lines _ _ _ _ _ _ _ Hinit Hfile)
    as (Hvocabulary & loaded & Hload & Hdata).
  unfold MemoryInput.__init__.
  change (Padding.subclasses "PostPadding") with (Py.Ok Padding.PostPadding).
  cbn [Py.bind]. rewrite Hvocabulary. cbn [Py.bind]. rewrite Hload. cbn [Py.bind].
  rewrite Hdata. cbn [Py.bind]. unfold convert. cbn [Padding.strategy].
  rewrite (post_conversion_tokens ids_from_sentence _ _ tokens) by assumption.
  cbn [Py.bind]. unfold alloc. cbn [app].
  do 2 eexists. split; [reflexivity |].
  rewrite batch_generator_by_value; cbn [_shuffle _data _max_segment_size _batch_size
                                          _padder]; try assumption; try reflexivity.
  - rewrite map_read_seq, segments_of_map, flat_map_map_swap.
    apply arrays_of_samples; [reflexivity | exact Hpad |].
    apply Forall_forall. intros batch Hin ->.
    apply in_flat_map in Hin as (segment & _ & Hin).
    apply (full_batches_length batch_size segment) in Hin; [cbn in Hin; lia | exact Hsize].
  - split; cbn [_data]; [apply seq_NoDup |].
    intros r Hr. apply in_seq in Hr. cbn [length] in Hr. lia.
Qed.

(** X20.  A batch size greater than the segment size (with a shuffle
    that keeps the number of rows, if any): no segment fills a batch,
    and the pass ends without yielding anything. *)
Theorem X20_batch_larger_than_segment (self : t) (h : heap) :
  (forall segment, length (shuffle segment) = length segment) ->
  0 < _max_segment_size self < _batch_size self ->
  fst (batch_generator shuffle self h) = Py.StopIteration.
Proof.
  intros Hshuffle Hsizes. unfold batch_generator.
  destruct (Py.range 0 _ (_max_segment_size self)) as [indices |] eqn:Hrange.
  2:{ rewrite range_positive in Hrange by lia. discriminate. }
  assert (Hbounds : forall index, In index indices -> 0 <= index).
  { intros index Hin. eapply range_bounds in Hin; [| | exact Hrange]; lia. }
  clear Hrange. revert h. induction indices as [| index indices IH]; intros h;
    [reflexivity |].
  cbn [segments]. unfold _segment, deepcopy, alloc.
  set (segment := Py.slice (_data self) index (index + _max_segment_size self)).
  assert (Hlen : Z.of_nat (length segment) <= _max_segment_size self).
  { unfold segment. rewrite slice_from; [| apply Hbounds; now left | lia].
    rewrite length_firstn. lia. }
  set (shuffled := if _shuffle self then _ else _).
  assert (Hshuffled : length shuffled = length segment).
  { unfold shuffled. destruct (_shuffle self); [rewrite Hshuffle |];
      now rewrite length_seq, length_map. }
  rewrite Hshuffled, range_none by lia. cbn [batches].
  apply IH. intros index' Hin. apply Hbounds. now right.
Qed.

(** X21.  Sizes that are not positive.  A segment size of 0 makes the
    pass raise [ValueError] before anything is yielded, and so does a
    batch size of 0 when there is data; with a negative segment size or
    a negative batch size the pass ends without yielding anything. *)
Theorem X21_sizes_not_positive (self : t) (h : heap) :
  (_max_segment_size self = 0 ->
   fst (batch_generator shuffle self h) = Py.Abort Py.ValueError)
  /\ (_max_segment_size self < 0 ->
      fst (batch_generator shuffle self h) = Py.StopIteration)
  /\ (0 < _max_segment_size self -> _batch_size self = 0 -> _data self <> [] ->
      fst (batch_generator shuffle self h) = Py.Abort Py.ValueError)
  /\ (0 < _max_segment_size self -> _batch_size self < 0 ->
      fst (batch_generator shuffle self h) = Py.StopIteration).
Proof.
  unfold batch_generator. repeat split.
  - intros ->. reflexivity.
  - intros Hsegment. now rewrite range_negative_step by lia.
  - intros Hsegment Hsize Hdata. rewrite range_positive by exact Hsegment.
    assert (Hcount : (0 < Z.to_nat ((Z.of_nat (length (_data self))
                                     + _max_segment_size self - 1)
                                    / _max_segment_size self))%nat).
    { destruct (_data self) as [| r data]; [congruence |]. cbn [length].
      assert (1 <= (Z.of_nat (S (length data)) + _max_segment_size self - 1)
                   / _max_segment_size self); [| lia].
      apply Z.div_le_lower_bound; lia. }
    destruct (Z.to_nat _) as [| count]; [lia |].
    cbn [seq map segments]. unfold _segment, deepcopy, alloc.
    rewrite Hsize. reflexivity.
  - intros Hsegment Hsize. rewrite range_positive by exact Hsegment.
    generalize (map (fun i => Z.of_nat i * _max_segment_size self)
                    (seq 0 (Z.to_nat ((Z.of_nat (length (_data self))
                                       + _max_segment_size self - 1)
                                      / _max_segment_size self)))).
    intros indices. revert h. induction indices as [| index indices IH]; intros h;
      [reflexivity |].
    cbn [segments]. unfold _segment, deepcopy, alloc.
    rewrite range_negative_step by lia. cbn [batches]. apply IH.
Qed.

End BatchGeneratorFacts.

Lemma demo_input_well_formed (max_segment_size batch_size : Z) :
  well_formed (demo_input max_segment_size batch_size) demo_rows.
Proof.
  split; cbn.
  - repeat constructor; cbn; intuition lia.
  - intros r Hr. repeat (destruct Hr as [<- | Hr]; [lia |]). destruct Hr.
Qed.

Lemma X17_batch_generator_by_value_witness :
  fst (MemoryInput.batch_generator (fun segment => segment) (demo_input 3 2) demo_rows)
  = Py.Yield [[0; 1; 2]; [0; 6; 1]] (Py.Yield [[0; 0; 2]; [1; 6; 1]] Py.StopIteration).
Proof.
  rewrite X17_batch_generator_by_value.
  - reflexivity.
  - reflexivity.
  - apply demo_input_well_formed.
  - cbn. lia.
  - cbn. lia.
Defined.

Lemma X18_batches_are_full_witness :
  let pass := Py.yielded (fst (MemoryInput.batch_generator
                                 (fun segment => segment) (demo_input 3 2) demo_rows)) in
  Forall (fun array => Z.of_nat (length array) = 2) pass
  /\ Z.of_nat (length pass) <= 5 / 2.
Proof.
  apply (X18_batches_are_full (fun segment => segment) (demo_input 3 2) demo_rows).
  - reflexivity.
  - apply demo_input_well_formed.
  - cbn. lia.
  - cbn. lia.
Defined.

Lemma X19_memory_input_post_padding_witness :
  exists self h,
    MemoryInput.__init__ Utils.ids_from_sentence (demo_fs demo_five_lines) 3 2
                         false false demo_corpora "PostPadding" = Py.Ok (self, h)
    /\ fst (MemoryInput.batch_generator (fun segment => segment) self h)
       = yields [[[0; 1; 2]; [0; 6; 1]]; [[0; 0; 2]; [1; 6; 1]]].
Proof.
  apply (X19_memory_input_post_padding
           Utils.ids_from_sentence (fun segment => segment)
           (demo_fs demo_five_lines) "corpus.txt" demo_vocabulary 6 false false
           demo_corpora 3 2 (ln "hello") (tl demo_five_lines)
           [[0]; [0; 1]; [1; 5; 0]; [1]; [0; 0]]).
  - reflexivity.
  - reflexivity.
  - repeat constructor.
  - reflexivity.
  - lia.
  - lia.
Defined.

Lemma X20_batch_larger_than_segment_witness :
  fst (MemoryInput.batch_generator (@rev Heap.ref) (demo_input 2 3) demo_rows)
  = Py.StopIteration.
Proof.
  apply X20_batch_larger_than_segment.
  - apply length_rev.
  - cbn. lia.
Defined.

Lemma X21_sizes_not_positive_witness :
  fst (MemoryInput.batch_generator (fun segment => segment) (demo_input 0 2) demo_rows)
  = Py.Abort Py.ValueError
  /\ fst (MemoryInput.batch_generator (fun segment => segment) (demo_input 2 0) demo_rows)
     = Py.Abort Py.ValueError
  /\ fst (MemoryInput.batch_generator (fun segment => segment) (demo_input 2 (-1))
                                      demo_rows)
     = Py.StopIteration.
Proof.
  split; [| split].
  - destruct (X21_sizes_not_positive (fun segment => segment) (demo_input 0 2) demo_rows)
      as (Hzero & _).
    apply Hzero. reflexivity.
  - destruct (X21_sizes_not_positive (fun segment => segment) (demo_input 2 0) demo_rows)
      as (_ & _ & Hzero & _).
    apply Hzero; [cbn; lia | reflexivity | discriminate].
  - destruct (X21_sizes_not_positive (fun segment => segment) (demo_input 2 (-1))
                                     demo_rows) as (_ & _ & _ & Hnegative).
    apply Hnegative; cbn; lia.
Defined.

(** ** The id-cache file: what [_generate_id_file] writes is what
    [generator] reads *)

Section StringFacts.

Lemma append_nil_r (s : string) : (s ++ "")%string = s.
Proof. induction s as [| c s IH]; cbn; [reflexivity | now rewrite IH]. Qed.

Lemma append_assoc (a b c : string) : ((a ++ b) ++ c)%string = (a ++ (b ++ c))%string.
Proof. induction a as [| x a IH]; cbn; [reflexivity | now rewrite IH]. Qed.

Lemma list_ascii_app (a b : string) :
  list_ascii_of_string (a ++ b) = list_ascii_of_string a ++ list_ascii_of_string b.
Proof. induction a as [| x a IH]; cbn; [reflexivity | now rewrite IH]. Qed.

Lemma string_of_list_app (a b : list ascii) :
  string_of_list_ascii (a ++ b)
  = (string_of_list_ascii a ++ string_of_list_ascii b)%string.
Proof. induction a as [| x a IH]; cbn; [reflexivity | now rewrite IH]. Qed.

Lemma string_rev_involutive (s : string) : Py.string_rev (Py.string_rev s) = s.
Proof.
  unfold Py.string_rev.
  now rewrite list_ascii_of_string_of_list_ascii, rev_involutive,
    string_of_list_ascii_of_string.
Qed.

Lemma string_rev_app (a b : string) :
  Py.string_rev (a ++ b) = (Py.string_rev b ++ Py.string_rev a)%string.
Proof.
  unfold Py.string_rev. now rewrite list_ascii_app, rev_app_distr, string_of_list_app.
Qed.

Lemma spaceless_app (a b : string) :
  spaceless (a ++ b) <-> spaceless a /\ spaceless b.
Proof. unfold spaceless. rewrite list_ascii_app. apply Forall_app. Qed.

Lemma spaceless_rev (s : string) : spaceless s -> spaceless (Py.string_rev s).
Proof.
  unfold spaceless, Py.string_rev. intros Hs.
  rewrite list_ascii_of_string_of_list_ascii. now apply Forall_rev.
Qed.

Lemma lstrip_spaceless (s : string) : spaceless s -> Py.lstrip s = s.
Proof.
  destruct s as [| c s]; [reflexivity |]. intros Hs.
  apply Forall_cons_iff in Hs as [Hc _]. cbn [Py.lstrip]. now rewrite Hc.
Qed.

(** A string without white space is its own [strip]. *)
Lemma strip_spaceless (s : string) : spaceless s -> Py.strip s = s.
Proof.
  intros Hs. unfold Py.strip, Py.rstrip.
  rewrite (lstrip_spaceless s Hs), lstrip_spaceless by now apply spaceless_rev.
  apply string_rev_involutive.
Qed.

(** [lstrip] takes white space off the front. *)
Lemma lstrip_decompose (s : string) :
  exists front,
    Forall (fun c => Py.is_space c = true) (list_ascii_of_string front)
    /\ s = (front ++ Py.lstrip s)%string.
Proof.
  induction s as [| c s (front & Hfront & Hs)]; [exists ""; split; [constructor | reflexivity] |].
  cbn [Py.lstrip]. destruct (Py.is_space c) eqn:Hc.
  - exists (String c front). split; [now constructor |]. cbn. now rewrite <- Hs.
  - exists "". split; [constructor | reflexivity].
Qed.

(** [rstrip] takes white space off the end. *)
Lemma rstrip_decompose (s : string) :
  exists back,
    Forall (fun c => Py.is_space c = true) (list_ascii_of_string back)
    /\ s = (Py.rstrip s ++ back)%string.
Proof.
  destruct (lstrip_decompose (Py.string_rev s)) as (front & Hfront & Hs).
  exists (Py.string_rev front). split.
  - unfold Py.string_rev. rewrite list_ascii_of_string_of_list_ascii.
    now apply Forall_rev.
  - unfold Py.rstrip. rewrite <- string_rev_app, <- Hs.
    symmetry. apply string_rev_involutive.
Qed.

Lemma split_trailing_space (back : string) :
  Forall (fun c => Py.is_space c = true) (list_ascii_of_string back) ->
  forall s cur,
    Py.split_whitespace_from cur (s ++ back) = Py.split_whitespace_from cur s.
Proof.
  intros Hback.
  assert (Hbase : forall cur, Py.split_whitespace_from cur back
                              = Py.split_whitespace_from cur "").
  { induction back as [| c back IH]; intros cur; [reflexivity |].
    apply Forall_cons_iff in Hback as [Hc Hback].
    cbn [Py.split_whitespace_from]. rewrite Hc, (IH Hback ""). cbn.
    now destruct (String.eqb cur ""). }
  induction s as [| c s IH]; intros cur; [apply Hbase |].
  cbn [append Py.split_whitespace_from].
  destruct (Py.is_space c); [| apply IH].
  now rewrite IH.
Qed.

Lemma split_lstrip (s : string) :
  Py.split_whitespace (Py.lstrip s) = Py.split_whitespace s.
Proof.
  unfold Py.split_whitespace. induction s as [| c s IH]; [reflexivity |].
  cbn [Py.lstrip]. destruct (Py.is_space c) eqn:Hc; [| reflexivity].
  cbn [Py.split_whitespace_from]. rewrite Hc. exact IH.
Qed.

(** [s.strip().split()] is [s.split()]. *)
Lemma split_strip (s : string) :
  Py.split_whitespace (Py.strip s) = Py.split_whitespace s.
Proof.
  unfold Py.strip. rewrite <- (split_lstrip s).
  destruct (rstrip_decompose (Py.lstrip s)) as (back & Hback & Hs).
  rewrite Hs at 2. unfold Py.split_whitespace.
  now rewrite (split_trailing_space back Hback).
Qed.

Lemma split_word (w : string) :
  spaceless w ->
  forall cur rest,
    Py.split_whitespace_from cur (w ++ rest)
    = Py.split_whitespace_from (cur ++ w) rest.
Proof.
  induction w as [| c w IH]; intros Hw cur rest.
  - now rewrite append_nil_r.
  - apply Forall_cons_iff in Hw as [Hc Hw].
    cbn [append Py.split_whitespace_from]. rewrite Hc, (IH Hw).
    unfold Py.snoc. now rewrite append_assoc.
Qed.

Lemma wordlike_not_empty (w : string) : wordlike w -> String.eqb w "" = false.
Proof. intros [Hne _]. now apply String.eqb_neq. Qed.

(** Words joined by single spaces, and followed by one, are split
    where they were joined. *)
Lemma split_joined (ws : list string) :
  Forall wordlike ws ->
  forall tail,
    Py.split_whitespace_from "" (String.concat " " ws ++ " " ++ tail)
    = ws ++ Py.split_whitespace_from "" tail.
Proof.
  induction 1 as [| w ws Hw Hws IH]; intros tail; [reflexivity |].
  assert (Hstep : forall rest,
             Py.split_whitespace_from "" (w ++ " " ++ rest)
             = w :: Py.split_whitespace_from "" rest).
  { intros rest. rewrite split_word by apply Hw.
    cbn [append Py.split_whitespace_from]. change (Py.is_space " ") with true.
    cbn iota. now rewrite (wordlike_not_empty w Hw). }
  destruct ws as [| w' ws].
  - cbn [String.concat app]. apply Hstep.
  - change (String.concat " " (w :: w' :: ws))
      with (w ++ " " ++ String.concat " " (w' :: ws))%string.
    rewrite !append_assoc. rewrite <- (append_assoc (String.concat " " (w' :: ws))).
    rewrite Hstep. cbn [app]. f_equal. rewrite append_assoc. apply IH.
Qed.

End StringFacts.

Section DecimalFacts.
Import DataQueueCache.

Lemma digit_cases (d : Z) :
  0 <= d < 10 ->
  In (digit d) ["0"; "1"; "2"; "3"; "4"; "5"; "6"; "7"; "8"; "9"]%char
  /\ Py.digit_value (digit d) = Some d.
Proof.
  intros Hd.
  assert (H : d = 0 \/ d = 1 \/ d = 2 \/ d = 3 \/ d = 4 \/ d = 5 \/ d = 6 \/ d = 7
              \/ d = 8 \/ d = 9) by lia.
  repeat (destruct H as [-> | H]; [split; [cbn; tauto | reflexivity] |]).
  subst d. split; [cbn; tauto | reflexivity].
Qed.

Lemma digit_not_space (d : Z) : 0 <= d < 10 -> Py.is_space (digit d) = false.
Proof.
  intros Hd. destruct (digit_cases d Hd) as [Hin _].
  cbn [In] in Hin. repeat (destruct Hin as [<- | Hin]; [reflexivity |]). destruct Hin.
Qed.

(** A string that starts with a digit is parsed as an unsigned number. *)
Lemma int_unsigned (d : Z) (s : string) :
  0 <= d < 10 ->
  spaceless s ->
  Py.int (String (digit d) s)
  = match Py.int_digits 0 false (String (digit d) s) with
    | Some z => Py.Ok z
    | None => Py.Raise Py.ValueError
    end.
Proof.
  intros Hd Hs. unfold Py.int. rewrite strip_spaceless.
  - destruct (digit_cases d Hd) as [Hin _]. cbn [In] in Hin.
    repeat (destruct Hin as [<- | Hin]; [reflexivity |]). destruct Hin.
  - constructor; [now apply digit_not_space | exact Hs].
Qed.

(** The digits that [digits] puts in front: a word that starts with a
    digit and reads back as the number. *)
Lemma digits_read_back (fuel : nat) :
  forall n less_significant,
    0 <= n < Z.of_nat fuel ->
    exists d w k,
      digits fuel n less_significant = (String (digit d) w ++ less_significant)%string
      /\ 0 <= d < 10
      /\ spaceless w
      /\ 0 <= k
      /\ forall acc after_digit,
          Py.int_digits acc after_digit (String (digit d) w ++ less_significant)
          = Py.int_digits (acc * 10 ^ k + n) true less_significant.
Proof.
  induction fuel as [| fuel IH]; intros n rest Hn; [lia |].
  cbn [digits]. cbv zeta.
  assert (Hmod : 0 <= n mod 10 < 10) by (apply Z.mod_pos_bound; lia).
  destruct (Z.eqb_spec (n / 10) 0) as [Hsmall | Hlarge].
  - assert (Hlt : n < 10).
    { destruct (Z.div_small_iff n 10 ltac:(lia)) as [H _]. specialize (H Hsmall). lia. }
    exists (n mod 10), "", 1.
    split; [reflexivity |]. split; [exact Hmod |]. split; [constructor |].
    split; [lia |].
    intros acc after_digit. cbn [append Py.int_digits].
    rewrite (proj2 (digit_cases _ Hmod)). f_equal.
    rewrite Z.mod_small, Z.pow_1_r by lia. lia.
  - assert (Hten : 10 <= n).
    { destruct (Z.lt_ge_cases n 10) as [Hlt | Hge]; [| exact Hge].
      exfalso. apply Hlarge, Z.div_small. lia. }
    assert (Hdiv : 0 <= n / 10 < Z.of_nat fuel).
    { split; [apply Z.div_pos; lia |].
      assert (n / 10 < n); [| lia].
      apply Z.div_lt; lia. }
    destruct (IH (n / 10) (String (digit (n mod 10)) rest) Hdiv)
      as (d & w & k & Hdigits & Hd & Hw & Hk & Hread).
    exists d, (w ++ String (digit (n mod 10)) "")%string, (k + 1).
    assert (Hshape : (String (digit d) (w ++ String (digit (n mod 10)) "") ++ rest)%string
                     = (String (digit d) w ++ String (digit (n mod 10)) rest)%string).
    { cbn [append]. now rewrite append_assoc. }
    split; [now rewrite Hshape |]. split; [exact Hd |]. split.
    { apply spaceless_app. split; [exact Hw |].
      constructor; [now apply digit_not_space | constructor]. }
    split; [lia |].
    intros acc after_digit. rewrite Hshape, Hread. cbn [Py.int_digits].
    rewrite (proj2 (digit_cases _ Hmod)). f_equal.
    rewrite Z.pow_add_r, Z.pow_1_r by lia.
    pose proof (Z.div_mod n 10 ltac:(lia)) as Hdm.
    remember (10 ^ k) as p. remember (n / 10) as q. remember (n mod 10) as r.
    rewrite Hdm. ring.
Qed.

End DecimalFacts.


Section IdFileFacts.
Import DataQueueCache.

(** [str] writes a word. *)
Lemma str_wordlike (z : Z) : wordlike (str z).
Proof.
  unfold str. destruct (Z.ltb_spec z 0) as [Hneg | Hpos].
  - destruct (digits_read_back (S (Z.to_nat (- z))) (- z) "" ltac:(lia))
      as (d & w & k & Hdigits & Hd & Hw & _).
    rewrite Hdigits, append_nil_r. split; [discriminate |].
    constructor; [reflexivity |]. constructor; [now apply digit_not_space | exact Hw].
  - destruct (digits_read_back (S (Z.to_nat z)) z "" ltac:(lia))
      as (d & w & k & Hdigits & Hd & Hw & _).
    rewrite Hdigits, append_nil_r. split; [discriminate |].
    constructor; [now apply digit_not_space | exact Hw].
Qed.

(** [int(str(z)) == z] *)
Lemma int_str (z : Z) : Py.int (str z) = Py.Ok z.
Proof.
  unfold str. destruct (Z.ltb_spec z 0) as [Hneg | Hpos].
  - destruct (digits_read_back (S (Z.to_nat (- z))) (- z) "" ltac:(lia))
      as (d & w & k & Hdigits & Hd & Hw & Hk & Hread).
    rewrite Hdigits. unfold Py.int. rewrite strip_spaceless.
    + rewrite Hread. cbn [Py.int_digits option_map]. f_equal; lia.
    + constructor; [reflexivity |]. rewrite append_nil_r.
      constructor; [now apply digit_not_space | exact Hw].
  - destruct (digits_read_back (S (Z.to_nat z)) z "" ltac:(lia))
      as (d & w & k & Hdigits & Hd & Hw & Hk & Hread).
    rewrite Hdigits. cbn [append]. rewrite int_unsigned.
    + change (String (digit d) (w ++ "")) with (String (digit d) w ++ "")%string.
      rewrite Hread. cbn [Py.int_digits]. f_equal; lia.
    + exact Hd.
    + now rewrite append_nil_r.
Qed.

Lemma mapM_int_str (l : list Z) : Py.mapM Py.int (map str l) = Py.Ok l.
Proof.
  induction l as [| z l IH]; [reflexivity |].
  cbn [map Py.mapM]. now rewrite int_str, IH.
Qed.

Lemma split_id_line (ids : list Z) :
  Py.split_whitespace (id_line ids) = map str (sample ids).
Proof.
  unfold Py.split_whitespace, id_line, sample.
  rewrite split_joined.
  2:{ apply Forall_forall. intros w Hw. apply in_map_iff in Hw as (z & <- & _).
      apply str_wordlike. }
  rewrite map_app. f_equal. unfold ln.
  pose proof (str_wordlike (Z.of_nat (length ids))) as Hword.
  rewrite split_word by apply Hword.
  cbn [append Py.split_whitespace_from]. change (Py.is_space (ascii_of_nat 10)) with true.
  cbn iota. now rewrite (wordlike_not_empty _ Hword).
Qed.

(** X22.  The line that [_generate_id_file] writes for a sentence is
    read back by [generator] as the sample of that sentence: its ids
    followed by their number, which is the row that
    [PostPadding.__call__] makes of the sentence. *)
Theorem X22_id_line_round_trip (ids : list Z) :
  DataQueue.parse_line (id_line ids) = Py.Ok (sample ids).
Proof.
  unfold DataQueue.parse_line. rewrite split_strip, split_id_line.
  apply mapM_int_str.
Qed.

End IdFileFacts.


Section CacheFacts.
Import Corpora DataQueueCache.
Variable ids_from_sentence : Vocabulary.t -> string -> Py.result (list Z).
Variable realpath : string -> string.

Lemma write_ids_all (corpora : instance) (vocabulary : Vocabulary.t)
      (lines : list string) (tokens : list (list Z)) :
  Corpora.vocabulary corpora = Py.Ok vocabulary ->
  Forall2 (fun sentence ids => ids_from_sentence vocabulary sentence = Py.Ok ids)
          lines tokens ->
  forall written,
    write_ids ids_from_sentence corpora lines written
    = (Py.Ok tt, written ++ map id_line tokens).
Proof.
  intros Hvocabulary. induction 1 as [| line ids lines tokens Hline _ IH]; intros written.
  - cbn. now rewrite app_nil_r.
  - cbn [write_ids map]. rewrite Hvocabulary. cbn [Py.bind]. rewrite Hline, IH.
    now rewrite <- app_assoc.
Qed.

Lemma write_ids_partial (corpora : instance) (vocabulary : Vocabulary.t)
      (good : list string) (bad : string) (rest : list string)
      (tokens : list (list Z)) (e : Py.exception) :
  Corpora.vocabulary corpora = Py.Ok vocabulary ->
  Forall2 (fun sentence ids => ids_from_sentence vocabulary sentence = Py.Ok ids)
          good tokens ->
  ids_from_sentence vocabulary bad = Py.Raise e ->
  forall written,
    write_ids ids_from_sentence corpora (good ++ bad :: rest) written
    = (Py.Raise e, written ++ map id_line tokens).
Proof.
  intros Hvocabulary Hgood Hbad.
  induction Hgood as [| line ids good tokens Hline _ IH]; intros written.
  - cbn [app write_ids map]. rewrite Hvocabulary. cbn [Py.bind]. rewrite Hbad.
    now rewrite app_nil_r.
  - cbn [app write_ids map]. rewrite Hvocabulary. cbn [Py.bind]. rewrite Hline, IH.
    now rewrite <- app_assoc.
Qed.

Lemma parse_id_lines (tokens : list (list Z)) :
  Py.mapM DataQueue.parse_line (map id_line tokens) = Py.Ok (map sample tokens).
Proof.
  induction tokens as [| ids tokens IH]; [reflexivity |].
  cbn [map Py.mapM]. unfold DataQueue.parse_line at 1.
  rewrite split_strip, split_id_line, mapM_int_str. cbn [Py.bind].
  now rewrite IH.
Qed.

Lemma read_written (fs : filesystem) (path : string) (lines : list string) :
  write fs path lines path = Some lines.
Proof. unfold write. now rewrite String.eqb_refl. Qed.

(** The generator of a queue over a cache of [tokens] that fits one
    segment. *)
Lemma generator_of_cache (self : t) (fs : filesystem) (tokens : list (list Z)) :
  fs (_id_data_path self) = Some (map id_line tokens) ->
  Z.of_nat (length tokens) <= _max_segment_size self ->
  generator self fs = Py.Yield (map sample tokens) Py.StopIteration.
Proof.
  intros Hfile Hfits. unfold generator. rewrite Hfile.
  unfold DataQueue.generator.
  rewrite generator_loop_small by (rewrite length_map; cbn; lia).
  now rewrite parse_id_lines.
Qed.

(** X23.  A [DataQueue] built over a corpus that has no id cache yet,
    and whose sentences tokenize: the constructor writes one line per
    sentence to the id path and changes no other file; when the corpus
    has at most [max_segment_size] sentences, the generator then yields
    one segment, the rows that [PostPadding.__call__] makes of the
    corpus. *)
Theorem X23_cache_generation (fs : filesystem) (corpora : instance) (path : string)
        (vocabulary : Vocabulary.t) (max_segment_size : Z)
        (lines : list string) (tokens : list (list Z)) :
  Corpora.data_path corpora = Py.Ok path ->
  Corpora.vocabulary corpora = Py.Ok vocabulary ->
  fs path = Some lines ->
  fs (_location_scheme realpath path) = None ->
  Forall2 (fun sentence ids => ids_from_sentence vocabulary sentence = Py.Ok ids)
          lines tokens ->
  let fs' := write fs (_location_scheme realpath path) (map id_line tokens) in
  exists self,
    DataQueueCache.__init__ ids_from_sentence realpath fs corpora max_segment_size
    = (Py.Ok self, fs')
    /\ _id_data_path self = _location_scheme realpath path
    /\ (Z.of_nat (length lines) <= max_segment_size ->
        generator self fs' = Py.Yield (map sample tokens) Py.StopIteration).
Proof.
  intros Hpath Hvocabulary Hfile Hcache Htokens. cbn zeta.
  unfold DataQueueCache.__init__. rewrite Hpath. cbn [_id_data_path].
  rewrite Hcache. unfold _generate_id_file. cbn [_data_path _corpora _id_data_path].
  rewrite Hfile, (write_ids_all _ _ _ _ Hvocabulary Htokens). cbn [app].
  eexists. split; [reflexivity |]. split; [reflexivity |].
  intros Hfits. apply generator_of_cache.
  - cbn [_id_data_path]. apply read_written.
  - cbn [_max_segment_size]. now rewrite <- (Forall2_length Htokens).
Qed.

(** X24.  A sentence that does not tokenize makes the constructor of
    [DataQueue] raise, but the id file is left behind with the lines of
    the sentences before it; a second construction finds that file,
    succeeds without reading the corpus, and its generator serves the
    sentences before the failing one. *)
Theorem X24_partial_cache (fs : filesystem) (corpora : instance) (path : string)
        (vocabulary : Vocabulary.t) (max_segment_size : Z)
        (good : list string) (bad : string) (rest : list string)
        (tokens : list (list Z)) (e : Py.exception) :
  Corpora.data_path corpora = Py.Ok path ->
  Corpora.vocabulary corpora = Py.Ok vocabulary ->
  fs path = Some (good ++ bad :: rest) ->
  fs (_location_scheme realpath path) = None ->
  Forall2 (fun sentence ids => ids_from_sentence vocabulary sentence = Py.Ok ids)
          good tokens ->
  ids_from_sentence vocabulary bad = Py.Raise e ->
  let fs' := write fs (_location_scheme realpath path) (map id_line tokens) in
  DataQueueCache.__init__ ids_from_sentence realpath fs corpora max_segment_size
  = (Py.Raise e, fs')
  /\ exists self,
      DataQueueCache.__init__ ids_from_sentence realpath fs' corpora max_segment_size
      = (Py.Ok self, fs')
      /\ (Z.of_nat (length good) <= max_segment_size ->
          generator self fs' = Py.Yield (map sample tokens) Py.StopIteration).
Proof.
  intros Hpath Hvocabulary Hfile Hcache Hgood Hbad. cbn zeta.
  unfold DataQueueCache.__init__. rewrite Hpath. cbn [_id_data_path].
  rewrite Hcache, read_written. unfold _generate_id_file.
  cbn [_data_path _corpora _id_data_path].
  rewrite Hfile, (write_ids_partial _ _ _ _ _ _ _ Hvocabulary Hgood Hbad). cbn [app].
  split; [reflexivity |]. eexists. split; [reflexivity |].
  intros Hfits. apply generator_of_cache.
  - cbn [_id_data_path]. apply read_written.
  - cbn [_max_segment_size]. now rewrite <- (Forall2_length Hgood).
Qed.

End CacheFacts.

Lemma X23_cache_generation_witness :
  exists self,
    DataQueueCache.__init__ Utils.ids_from_sentence demo_realpath
                            (demo_fs demo_corpus) demo_corpora 50000
    = (Py.Ok self,
       DataQueueCache.write (demo_fs demo_corpus) "/data/corpus_id.txt"
                            [ln "0 1 2"; ln "0 1"; ln "1 1"])
    /\ DataQueueCache._id_data_path self = "/data/corpus_id.txt"
    /\ DataQueueCache.generator
         self (DataQueueCache.write (demo_fs demo_corpus) "/data/corpus_id.txt"
                                    [ln "0 1 2"; ln "0 1"; ln "1 1"])
       = Py.Yield [[0; 1; 2]; [0; 1]; [1; 1]] Py.StopIteration.
Proof.
  destruct (X23_cache_generation Utils.ids_from_sentence demo_realpath
              (demo_fs demo_corpus) demo_corpora "corpus.txt" demo_vocabulary 50000
              demo_corpus [[0; 1]; [0]; [1]])
    as (self & Hinit & Hpath & Hgenerator).
  - reflexivity.
  - reflexivity.
  - reflexivity.
  - reflexivity.
  - repeat constructor.
  - exists self. split; [exact Hinit |]. split; [exact Hpath |].
    apply Hgenerator. cbn. lia.
Defined.

Lemma X24_partial_cache_witness :
  let fs' := DataQueueCache.write (demo_fs [ln "hello world"; ln "???"; ln "world"])
                                  "/data/corpus_id.txt" [ln "0 1 2"] in
  DataQueueCache.__init__ picky_ids_from_sentence demo_realpath
                          (demo_fs [ln "hello world"; ln "???"; ln "world"])
                          demo_corpora 50000
  = (Py.Raise Py.KeyError, fs')
  /\ exists self,
      DataQueueCache.__init__ picky_ids_from_sentence demo_realpath fs'
                              demo_corpora 50000
      = (Py.Ok self, fs')
      /\ DataQueueCache.generator self fs' = Py.Yield [[0; 1; 2]] Py.StopIteration.
Proof.
  destruct (X24_partial_cache picky_ids_from_sentence demo_realpath
              (demo_fs [ln "hello world"; ln "???"; ln "world"]) demo_corpora
              "corpus.txt" demo_vocabulary 50000
              [ln "hello world"] (ln "???") [ln "world"] [[0; 1]] Py.KeyError)
    as (Hfirst & self & Hsecond & Hgenerator).
  - reflexivity.
  - reflexivity.
  - reflexivity.
  - reflexivity.
  - repeat constructor.
  - reflexivity.
  - split; [exact Hfirst |]. exists self. split; [exact Hsecond |].
    apply Hgenerator. cbn. lia.
Defined.

(** ** [FileInput.batch_generator] *)

Section FileInputFacts.
Import Heap FileInput.
Variable ids_from_sentence : Vocabulary.t -> string -> Py.result (list Z).
Variable realpath : string -> string.
Variable shuffle : list ref -> list ref.

(** The rows of a segment of the file, read where they were put. *)
Lemma read_allocated (h rows t : heap) :
  map (read ((h ++ rows) ++ t)) (seq (length h) (length rows)) = rows.
Proof.
  rewrite seq_shift_add, map_map.
  transitivity (map (read rows) (seq 0 (length rows))); [| apply map_read_seq].
  apply map_ext_in. intros r Hr. apply in_seq in Hr.
  rewrite read_app_l by (rewrite length_app; lia). apply read_app_r.
Qed.

(** The loops over one segment of the file, by value: its segments, and
    of each segment the full batches. *)
Lemma file_segment_by_value (self : t) (h rows : heap)
      (rest : heap -> Py.gen Numpy.ndarray * heap) (after : Py.gen Numpy.ndarray) :
  _shuffle self = false ->
  0 < _batch_size self ->
  (forall h', fst (rest h') = after) ->
  forall (indices : list Z) (t : heap),
    fst (segments shuffle self (seq (length h) (length rows)) indices
                  ((h ++ rows) ++ t) rest)
    = arrays_then (_padder self)
        (flat_map (full_batches (_batch_size self))
                  (map (fun index => Py.slice rows index
                                              (index + _max_segment_size self))
                       indices))
        after.
Proof.
  intros Hshuffle Hsize Hrest.
  induction indices as [| index indices IH]; intros t; [apply Hrest |].
  cbn [segments map flat_map]. unfold deepcopy, alloc.
  rewrite Hshuffle, <- slice_map, read_allocated.
  set (copied := Py.slice rows index (index + _max_segment_size self)).
  set (h1 := (h ++ rows) ++ t).
  rewrite length_seq, range_positive by exact Hsize.
  replace ((Z.of_nat (length copied) - _batch_size self + 1 + _batch_size self - 1)
           / _batch_size self)
    with (Z.of_nat (length copied) / _batch_size self) by (f_equal; lia).
  rewrite arrays_then_app, seq_shift_add.
  unfold full_batches, pieces.
  apply (batches_by_value (as_memory_input self) h1 copied).
  - exact Hsize.
  - intros block _. unfold h1. rewrite <- app_assoc. apply IH.
  - reflexivity.
  - reflexivity.
  - cbn [Nat.add as_memory_input MemoryInput._batch_size].
    assert (Hdiv : _batch_size self * (Z.of_nat (length copied) / _batch_size self)
                   <= Z.of_nat (length copied)) by (apply Z.mul_div_le; lia).
    remember (Z.of_nat (length copied) / _batch_size self) as q.
    assert (Hq : 0 <= q) by (subst q; apply Z.div_pos; lia).
    nia.
Qed.

Lemma file_segments_by_value (self : t) (queue : Py.gen (list (list Z))) :
  _shuffle self = false ->
  0 < _max_segment_size self ->
  0 < _batch_size self ->
  forall h,
    fst (file_segments shuffle self queue h)
    = file_arrays (_padder self) (_max_segment_size self) (_batch_size self) queue.
Proof.
  intros Hshuffle Hsegment Hsize.
  induction queue as [rows queue IH | | e]; intros h; [| reflexivity | reflexivity].
  cbn [file_segments file_arrays]. unfold alloc.
  rewrite length_seq, range_positive by exact Hsegment.
  rewrite <- (app_nil_r (h ++ rows)).
  rewrite (file_segment_by_value self h rows _ _ Hshuffle Hsize IH).
  do 2 f_equal. unfold segments_of. now apply slices_of_range.
Qed.

(** X25.  A pass of [FileInput.batch_generator] without shuffling, by
    value: every segment that the [DataQueue] reads from the id file is
    cut into segments of [max_segment_size] rows and these into their
    full batches of [batch_size] rows, to each of which [create_batch]
    is applied on its own; a missing id file, or a line of it that does
    not parse, ends the pass with that exception after the batches of
    the segments read before. *)
Theorem X25_file_input_by_value (self : t) (fs : Corpora.filesystem) (h : heap) :
  _shuffle self = false ->
  0 < _max_segment_size self ->
  0 < _batch_size self ->
  fst (batch_generator shuffle self fs h)
  = file_arrays (_padder self) (_max_segment_size self) (_batch_size self)
                (DataQueueCache.generator (_data_reader self) fs).
Proof.
  intros Hshuffle Hsegment Hsize. unfold batch_generator.
  now apply file_segments_by_value.
Qed.

Lemma file_arrays_one_segment (padder : Padding.t) (max_segment_size batch_size : Z)
      (rows : list (list Z)) :
  file_arrays padder max_segment_size batch_size (Py.Yield rows Py.StopIteration)
  = arrays_of padder (flat_map (full_batches batch_size)
                               (segments_of max_segment_size rows)).
Proof. reflexivity. Qed.

(** X26.  [FileInput] with [PostPadding] and without shuffling, from
    the corpus file to the batches: over a corpus of at most 50000
    sentences that tokenize and that has no id cache yet, the constructor
    writes the cache, and a pass yields the arrays of the full batches of
    the segments of the tokenized corpus, the same arrays as
    [MemoryInput] with [PostPadding] yields over that corpus. *)
Theorem X26_file_input_post_padding
        (fs : Corpora.filesystem) (corpora : Corpora.instance) (path : string)
        (vocabulary : Vocabulary.t) (pad : Z) (cuda : bool)
        (max_segment_size batch_size : Z)
        (lines : list string) (tokens : list (list Z)) :
  Corpora.data_path corpora = Py.Ok path ->
  Corpora.vocabulary corpora = Py.Ok vocabulary ->
  fs path = Some lines ->
  fs (DataQueueCache._location_scheme realpath path) = None ->
  Forall2 (fun sentence ids => ids_from_sentence vocabulary sentence = Py.Ok ids)
          lines tokens ->
  Z.of_nat (length lines) <= DataQueue.MAX_SEGMENT ->
  Vocabulary.pad_token vocabulary = Py.Ok pad ->
  0 < max_segment_size ->
  0 < batch_size ->
  exists self fs',
    FileInput.__init__ ids_from_sentence realpath fs max_segment_size batch_size
                       cuda false corpora "PostPadding" = (Py.Ok self, fs')
    /\ forall h,
        fst (batch_generator shuffle self fs' h)
        = yields (map (post_array pad)
                      (flat_map (full_batches batch_size)
                                (segments_of max_segment_size tokens))).
Proof.
  intros Hpath Hvocabulary Hfile Hcache Htokens Hfits Hpad Hsegment Hsize.
  unfold FileInput.__init__, DataQueueCache.__init__.
  rewrite Hpath. cbn [DataQueueCache._id_data_path]. rewrite Hcache.
  unfold DataQueueCache._generate_id_file.
  cbn [DataQueueCache._data_path DataQueueCache._corpora DataQueueCache._id_data_path].
  rewrite Hfile, (write_ids_all _ _ _ _ _ Hvocabulary Htokens). cbn [app].
  change (Padding.subclasses "PostPadding") with (Py.Ok Padding.PostPadding).
  cbn [Py.bind]. rewrite Hvocabulary. cbn [Py.bind].
  do 2 eexists. split; [reflexivity |]. intros h.
  unfold batch_generator.
  rewrite file_segments_by_value by (cbn; assumption || reflexivity).
  cbn [_padder _max_segment_size _batch_size _data_reader].
  rewrite (generator_of_cache _ _ tokens).
  - rewrite file_arrays_one_segment, segments_of_map, flat_map_map_swap.
    apply arrays_of_samples; [reflexivity | exact Hpad |].
    apply Forall_forall. intros batch Hin ->.
    apply in_flat_map in Hin as (segment & _ & Hin).
    apply (full_batches_length batch_size segment) in Hin; [cbn in Hin; lia | exact Hsize].
  - cbn [DataQueueCache._id_data_path]. apply read_written.
  - cbn [DataQueueCache._max_segment_size]. now rewrite <- (Forall2_length Htokens).
Qed.

End FileInputFacts.

Section RaggedBatches.

Lemma rectangular_lengths (rows : list (list Z)) :
  Numpy.rectangular rows = true
  <-> forall a b, In a rows -> In b rows -> length a = length b.
Proof.
  destruct rows as [| r rows]; cbn [Numpy.rectangular]; [split; [intros _ a b [] | reflexivity] |].
  rewrite forallb_forall. split.
  - intros Hall a b Ha Hb.
    assert (Hr : forall x, In x (r :: rows) -> length x = length r).
    { intros x [<- | Hx]; [reflexivity |]. now apply Nat.eqb_eq, Hall. }
    now rewrite (Hr a Ha), (Hr b Hb).
  - intros Hall x Hx. apply Nat.eqb_eq, Hall; [now right | now left].
Qed.

(** X27.  [PrePadding.create_batch] never pads: on rows that all have a
    last cell it returns the rows sorted when they have one length, and
    raises [ValueError] as soon as two of them differ in length. *)
Theorem X27_pre_padding_never_pads (self : Padding.t) (rows : list (list Z)) :
  Forall (fun row => row <> []) rows ->
  ((forall a b, In a rows -> In b rows -> length a = length b) ->
   PrePadding.create_batch_of self rows = Py.Ok (by_true_length rows))
  /\ (forall a b, In a rows -> In b rows -> length a <> length b ->
      PrePadding.create_batch_of self rows = Py.Raise Py.ValueError).
Proof.
  intros Hrows.
  destruct (sorted_by_length_rows rows Hrows) as [Hsort Hsorted].
  assert (Hvalue : PrePadding.create_batch_of self rows
                   = Numpy.array (by_true_length rows)).
  { unfold PrePadding.create_batch_of, PrePadding.create_batch.
    rewrite Hsort. cbn [Py.bind]. now rewrite Hsorted. }
  assert (Hin : forall a, In a (by_true_length rows) <-> In a rows).
  { intros a. split; apply Permutation_in;
      [apply by_true_length_perm | apply Permutation_sym, by_true_length_perm]. }
  rewrite Hvalue. unfold Numpy.array. split.
  - intros Hsame.
    rewrite (proj2 (rectangular_lengths (by_true_length rows))); [reflexivity |].
    intros a b Ha Hb. apply Hsame; now apply Hin.
  - intros a b Ha Hb Hdiff.
    destruct (Numpy.rectangular (by_true_length rows)) eqn:Hrect; [| reflexivity].
    exfalso. apply Hdiff.
    apply (proj1 (rectangular_lengths _) Hrect); now apply Hin.
Qed.

End RaggedBatches.

Lemma X25_file_input_by_value_witness :
  fst (FileInput.batch_generator (fun segment => segment) (demo_file_input 2 2)
                                 demo_id_fs [])
  = Py.Yield [[0; 1; 2]; [0; 6; 1]] (Py.Abort Py.ValueError).
Proof.
  rewrite X25_file_input_by_value.
  - reflexivity.
  - reflexivity.
  - cbn. lia.
  - cbn. lia.
Defined.

Lemma X26_file_input_post_padding_witness :
  exists self fs',
    FileInput.__init__ Utils.ids_from_sentence demo_realpath (demo_fs demo_five_lines)
                       3 2 false false demo_corpora "PostPadding" = (Py.Ok self, fs')
    /\ forall h,
        fst (FileInput.batch_generator (fun segment => segment) self fs' h)
        = yields [[[0; 1; 2]; [0; 6; 1]]; [[0; 0; 2]; [1; 6; 1]]].
Proof.
  apply (X26_file_input_post_padding
           Utils.ids_from_sentence demo_realpath (fun segment => segment)
           (demo_fs demo_five_lines) demo_corpora "corpus.txt" demo_vocabulary 6 false
           3 2 demo_five_lines [[0]; [0; 1]; [1; 5; 0]; [1]; [0; 0]]).
  - reflexivity.
  - reflexivity.
  - reflexivity.
  - reflexivity.
  - repeat constructor.
  - vm_compute. discriminate.
  - reflexivity.
  - lia.
  - lia.
Defined.

Lemma X27_pre_padding_never_pads_witness :
  PrePadding.create_batch_of (demo_padder Padding.PrePadding) [[0; 1]; [0; 1; 2]]
  = Py.Raise Py.ValueError
  /\ PrePadding.create_batch_of (demo_padder Padding.PrePadding) [[0; 6; 1]; [0; 1; 2]]
     = Py.Ok [[0; 1; 2]; [0; 6; 1]].
Proof.
  split.
  - destruct (X27_pre_padding_never_pads (demo_padder Padding.PrePadding)
                                         [[0; 1]; [0; 1; 2]]) as [_ Hragged].
    + repeat constructor; discriminate.
    + apply (Hragged [0; 1] [0; 1; 2]); cbn; auto.
  - destruct (X27_pre_padding_never_pads (demo_padder Padding.PrePadding)
                                         [[0; 6; 1]; [0; 1; 2]]) as [Hsame _].
    + repeat constructor; discriminate.
    + apply Hsame. intros a b [<- | [<- | []]] [<- | [<- | []]]; reflexivity.
Defined.

(** ** [DataQueue._location_scheme] *)

Section LocationFacts.
Import Os.
Variable realpath : string -> string.

Lemma rfind_none (c : ascii) (s : string) :
  rfind c s = None
  <-> Forall (fun x => Ascii.eqb x c = false) (list_ascii_of_string s).
Proof.
  induction s as [| x s IH]; cbn [rfind list_ascii_of_string].
  - split; [constructor | reflexivity].
  - rewrite Forall_cons_iff, <- IH.
    destruct (rfind c s); [split; [discriminate | intros [_ H]; discriminate] |].
    destruct (Ascii.eqb x c); split; try discriminate; try tauto.
    intros [H _]. discriminate.
Qed.

Lemma rfind_bound (c : ascii) (s : string) (i : nat) :
  rfind c s = Some i -> (i < String.length s)%nat.
Proof.
  revert i. induction s as [| x s IH]; intros i; cbn [rfind String.length];
    [discriminate |].
  destruct (rfind c s) as [j |].
  - intros [= <-]. specialize (IH j eq_refl). lia.
  - destruct (Ascii.eqb x c); [intros [= <-]; lia | discriminate].
Qed.

Lemma rfind_app_none (c : ascii) (a b : string) :
  rfind c b = None -> rfind c (a ++ b) = rfind c a.
Proof.
  intros Hb. induction a as [| x a IH]; cbn [append rfind]; [exact Hb |].
  now rewrite IH.
Qed.

Lemma rfind_last (c : ascii) (a : string) :
  rfind c (a ++ String c "") = Some (String.length a).
Proof.
  induction a as [| x a IH]; cbn [append rfind String.length].
  - now rewrite Ascii.eqb_refl.
  - now rewrite IH.
Qed.

Lemma drop_after_last (c : ascii) (s : string) (i : nat) :
  rfind c s = Some i -> rfind c (drop (S i) s) = None.
Proof.
  revert i. induction s as [| x s IH]; intros i; cbn [rfind]; [discriminate |].
  destruct (rfind c s) as [j |] eqn:Hs.
  - intros [= <-]. cbn [drop]. now apply IH.
  - destruct (Ascii.eqb x c); [intros [= <-]; cbn [drop] | discriminate].
    destruct s; exact Hs.
Qed.

Lemma drop_app (n : nat) (a b : string) :
  (n <= String.length a)%nat -> drop n (a ++ b) = (drop n a ++ b)%string.
Proof.
  revert a. induction n as [| n IH]; intros a Hn.
  - now destruct a.
  - destruct a as [| x a]; cbn [String.length] in Hn; [lia |].
    cbn [append drop]. apply IH. lia.
Qed.

Lemma drop_all (n : nat) (a : string) : (String.length a <= n)%nat -> drop n a = "".
Proof.
  revert n. induction a as [| x a IH]; intros n Hn; [now destruct n |].
  cbn [String.length] in Hn. destruct n as [| n]; [lia |].
  cbn [drop]. apply IH. lia.
Qed.

Lemma take_drop (n : nat) (s : string) : (take n s ++ drop n s)%string = s.
Proof.
  revert s. induction n as [| n IH]; intros s; [now destruct s |].
  destruct s as [| x s]; [reflexivity |]. cbn [take drop append]. now rewrite IH.
Qed.

Lemma length_append (a b : string) :
  String.length (a ++ b) = (String.length a + String.length b)%nat.
Proof. induction a as [| x a IH]; cbn; [reflexivity | now rewrite IH]. Qed.

Lemma take_chars (P : ascii -> Prop) (n : nat) (s : string) :
  Forall P (list_ascii_of_string s) -> Forall P (list_ascii_of_string (take n s)).
Proof.
  revert s. induction n as [| n IH]; intros s Hs; [destruct s; constructor |].
  destruct s as [| x s]; [constructor |].
  apply Forall_cons_iff in Hs as [Hx Hs]. cbn. constructor; [exact Hx | now apply IH].
Qed.

Lemma drop_chars (P : ascii -> Prop) (n : nat) (s : string) :
  Forall P (list_ascii_of_string s) -> Forall P (list_ascii_of_string (drop n s)).
Proof.
  revert s. induction n as [| n IH]; intros s Hs; [now destruct s |].
  destruct s as [| x s]; [constructor |].
  apply Forall_cons_iff in Hs as [_ Hs]. cbn [drop]. now apply IH.
Qed.

(** The last component of a path holds no slash. *)
Lemma basename_slashless (p : string) : rfind "/" (basename p) = None.
Proof.
  unfold basename. destruct (rfind "/" p) as [i |] eqn:Hp; [| exact Hp].
  now apply drop_after_last.
Qed.

Lemma basename_app (a b : string) :
  rfind "/" b = None -> basename (a ++ b) = (basename a ++ b)%string.
Proof.
  intros Hb. unfold basename. rewrite rfind_app_none by exact Hb.
  destruct (rfind "/" a) as [i |] eqn:Ha; [| reflexivity].
  apply drop_app. apply rfind_bound in Ha. lia.
Qed.

Lemma basename_slash (a : string) : basename (a ++ "/") = "".
Proof.
  unfold basename. rewrite rfind_last.
  apply drop_all. rewrite length_append. cbn. lia.
Qed.

Lemma ends_with_slash_shape (a : string) :
  ends_with_slash a = true -> exists a', a = (a' ++ "/")%string.
Proof.
  unfold ends_with_slash. intros H.
  destruct (rev (list_ascii_of_string a)) as [| c l] eqn:Hrev; [discriminate |].
  apply Ascii.eqb_eq in H. subst c.
  exists (string_of_list_ascii (rev l)).
  rewrite <- (string_of_list_ascii_of_string a), <- (rev_involutive (list_ascii_of_string a)).
  rewrite Hrev. cbn [rev]. now rewrite string_of_list_app.
Qed.

(** The last component of [join(a, b)] is [b], when [b] holds no slash. *)
Lemma basename_join (a b : string) :
  rfind "/" b = None -> basename (join a b) = b.
Proof.
  intros Hb. unfold join.
  assert (Hprefix : String.prefix "/" b = false).
  { destruct b as [| x b]; [reflexivity |]. cbn [String.prefix].
    apply rfind_none, Forall_cons_iff in Hb as [Hx _].
    destruct (ascii_dec "/" x) as [<- | _]; [discriminate | reflexivity]. }
  rewrite Hprefix.
  assert (Hself : basename b = b) by (unfold basename; now rewrite Hb).
  destruct (String.eqb_spec a "") as [-> | _]; [exact Hself |].
  cbn [orb]. destruct (ends_with_slash a) eqn:Ha.
  - destruct (ends_with_slash_shape a Ha) as [a' ->].
    now rewrite basename_app, basename_slash.
  - change (a ++ "/" ++ b)%string with (a ++ String "/" ("" ++ b))%string.
    replace (a ++ String "/" ("" ++ b))%string with ((a ++ "/") ++ b)%string
      by (now rewrite append_assoc).
    now rewrite basename_app, basename_slash.
Qed.

Lemma splitext_parts (p : string) :
  (fst (splitext p) ++ snd (splitext p))%string = p.
Proof.
  unfold splitext. destruct (rfind "." p) as [dot_index |]; [| apply append_nil_r].
  destruct (_ && _); [apply take_drop | apply append_nil_r].
Qed.

Lemma splitext_slashless (p : string) :
  rfind "/" p = None ->
  rfind "/" (fst (splitext p)) = None /\ rfind "/" (snd (splitext p)) = None.
Proof.
  intros Hp. unfold splitext. rewrite Hp.
  destruct (rfind "." p) as [dot_index |]; [| split; [exact Hp | reflexivity]].
  destruct (_ && _); cbn [fst snd]; [| split; [exact Hp | reflexivity]].
  apply rfind_none in Hp.
  split; apply rfind_none; [now apply take_chars | now apply drop_chars].
Qed.

(** X28.  The id cache gets the name of the corpus file with [_id]
    put before its extension, in the directory of the resolved corpus
    path; its path is never the path of the corpus, so that writing the
    cache does not touch the corpus. *)
Theorem X28_location_scheme (path : string) :
  let file_name := splitext (basename path) in
  let id_path := DataQueueCache._location_scheme realpath path in
  (fst file_name ++ snd file_name)%string = basename path
  /\ basename id_path = (fst file_name ++ "_id" ++ snd file_name)%string
  /\ id_path = join (dirname (realpath path)) (basename id_path)
  /\ id_path <> path.
Proof.
  cbn zeta. set (file_name := splitext (basename path)).
  assert (Hparts : (fst file_name ++ snd file_name)%string = basename path)
    by apply splitext_parts.
  assert (Hname : basename (DataQueueCache._location_scheme realpath path)
                  = (fst file_name ++ "_id" ++ snd file_name)%string).
  { unfold DataQueueCache._location_scheme. fold file_name. apply basename_join.
    destruct (splitext_slashless (basename path) (basename_slashless path))
      as [Hroot Hext].
    fold file_name in Hroot, Hext.
    apply rfind_none. rewrite !list_ascii_app. apply rfind_none in Hroot, Hext.
    apply Forall_app. split; [exact Hroot |].
    apply Forall_app. split; [| exact Hext].
    cbn. repeat constructor. }
  split; [exact Hparts |]. split; [exact Hname |]. split.
  - rewrite Hname. reflexivity.
  - intros Hsame. rewrite Hsame in Hname. rewrite <- Hparts in Hname.
    apply (f_equal String.length) in Hname. rewrite !length_append in Hname.
    cbn [String.length] in Hname. lia.
Qed.

End LocationFacts.

Example location_scheme_examples :
  DataQueueCache._location_scheme demo_realpath "corpus/train.en.txt"
  = "/data/corpus/train.en_id.txt"
  /\ DataQueueCache._location_scheme (fun path => path) "train"
     = "train_id"
  /\ DataQueueCache._location_scheme (fun path => path) "/.hidden"
     = "/.hidden_id".
Proof. repeat split. Qed.

(** ** The pipelines with [PrePadding] *)

Section PrePaddingPipelines.
Import Heap.
Variable ids_from_sentence : Vocabulary.t -> string -> Py.result (list Z).
Variable realpath : string -> string.
Variable shuffle : list ref -> list ref.

Lemma pre_create_batch_ragged (padder : Padding.t) (rows : list (list Z))
      (a b : list Z) :
  Padding.strategy padder = Padding.PrePadding ->
  Forall (fun row => row <> []) rows ->
  In a rows -> In b rows -> length a <> length b ->
  batch_of padder rows = Py.Raise Py.ValueError.
Proof.
  intros Hstrategy Hrows Ha Hb Hdiff.
  destruct (sorted_by_length_rows rows Hrows) as [Hsort Hsorted].
  unfold batch_of, MemoryInput.create_batch. rewrite Hstrategy. cbn [fst].
  unfold PrePadding.create_batch. rewrite Hsort. cbn [Py.bind]. rewrite Hsorted.
  unfold Numpy.array.
  destruct (Numpy.rectangular (by_true_length rows)) eqn:Hrect; [| reflexivity].
  exfalso. apply Hdiff.
  apply (proj1 (rectangular_lengths _) Hrect);
    apply (Permutation_in _ (Permutation_sym (by_true_length_perm rows))); assumption.
Qed.

Lemma sample_nonempty (ids : list Z) : sample ids <> [].
Proof. unfold sample. intros H. now apply app_eq_nil in H as [_ H]. Qed.

Lemma in_piece {A : Type} (size start : nat) (l : list A) (x : A) :
  In x (firstn size (skipn start l)) -> In x l.
Proof.
  intros Hin. rewrite <- (firstn_skipn start l). apply in_or_app. right.
  rewrite <- (firstn_skipn size (skipn start l)). apply in_or_app. now left.
Qed.

(** X29.  [FileInput] with [PrePadding]: the id cache holds the rows
    without padding whatever the padding type, and
    [PrePadding.create_batch] does not pad, so that the first batch of a
    pass raises [ValueError] when its first two sentences differ in
    length, before anything is yielded. *)
Theorem X29_file_input_pre_padding (self : FileInput.t) (fs : Corpora.filesystem)
        (h : heap) (first second : list Z) (tokens : list (list Z)) :
  FileInput._shuffle self = false ->
  Padding.strategy (FileInput._padder self) = Padding.PrePadding ->
  fs (DataQueueCache._id_data_path (FileInput._data_reader self))
  = Some (map DataQueueCache.id_line (first :: second :: tokens)) ->
  Z.of_nat (length (first :: second :: tokens))
  <= DataQueueCache._max_segment_size (FileInput._data_reader self) ->
  2 <= FileInput._batch_size self <= FileInput._max_segment_size self ->
  FileInput._batch_size self <= Z.of_nat (length (first :: second :: tokens)) ->
  length first <> length second ->
  fst (FileInput.batch_generator shuffle self fs h) = Py.Abort Py.ValueError.
Proof.
  intros Hshuffle Hstrategy Hfile Hfits Hsizes Hbatch Hdiff.
  unfold FileInput.batch_generator.
  rewrite file_segments_by_value by (assumption || lia).
  rewrite (generator_of_cache _ _ _ Hfile Hfits), file_arrays_one_segment.
  set (rows := map sample (first :: second :: tokens)).
  set (s := FileInput._max_segment_size self) in *.
  set (b := FileInput._batch_size self) in *.
  assert (Hlen : length rows = length (first :: second :: tokens))
    by (unfold rows; apply length_map).
  unfold arrays_of, segments_of, pieces.
  assert (Hcount : (0 < Z.to_nat ((Z.of_nat (length rows) + s - 1) / s))%nat).
  { assert (1 <= (Z.of_nat (length rows) + s - 1) / s); [| lia].
    apply Z.div_le_lower_bound; [lia |]. rewrite Hlen. cbn [length] in *. lia. }
  destruct (Z.to_nat ((Z.of_nat (length rows) + s - 1) / s)) as [| count]; [lia |].
  cbn [seq map flat_map Nat.mul skipn]. rewrite arrays_then_app.
  set (segment := firstn (Z.to_nat s) rows).
  assert (Hsegment : (Z.to_nat b <= length segment)%nat).
  { unfold segment. rewrite length_firstn, Hlen. lia. }
  unfold full_batches, pieces.
  assert (Hbatches : (0 < Z.to_nat (Z.of_nat (length segment) / b))%nat).
  { assert (1 <= Z.of_nat (length segment) / b); [| lia].
    apply Z.div_le_lower_bound; lia. }
  destruct (Z.to_nat (Z.of_nat (length segment) / b)) as [| batches]; [lia |].
  cbn [seq map Nat.mul skipn arrays_then].
  rewrite (pre_create_batch_ragged (FileInput._padder self) _
                                   (sample first) (sample second));
    [reflexivity | exact Hstrategy | | | |].
  - apply Forall_forall. intros row Hrow.
    assert (Hin : In row rows).
    { apply (in_piece (Z.to_nat s) 0 rows).
      apply (in_piece (Z.to_nat b) 0 (firstn (Z.to_nat s) (skipn 0 rows))).
      exact Hrow. }
    unfold rows in Hin. apply in_map_iff in Hin as (ids & <- & _).
    apply sample_nonempty.
  - unfold segment, rows.
    destruct (Z.to_nat s) as [| [| s']] eqn:Hs; [lia | lia |].
    destruct (Z.to_nat b) as [| [| b']] eqn:Hb; [lia | lia |].
    cbn. auto.
  - unfold segment, rows.
    destruct (Z.to_nat s) as [| [| s']] eqn:Hs; [lia | lia |].
    destruct (Z.to_nat b) as [| [| b']] eqn:Hb; [lia | lia |].
    cbn. auto.
  - unfold sample. rewrite !length_app. cbn [length]. lia.
Qed.

Lemma pieces_succ {A : Type} (size count : nat) (l : list A) :
  pieces size (S count) l = firstn size l :: pieces size count (skipn size l).
Proof.
  unfold pieces. cbn [seq map Nat.mul skipn]. f_equal.
  rewrite <- seq_shift, map_map. apply map_ext. intros i.
  rewrite skipn_skipn. do 2 f_equal. lia.
Qed.

Lemma firstn_exact {A : Type} (n : nat) (a b : list A) :
  length a = n -> firstn n (a ++ b) = a.
Proof.
  intros <-. rewrite firstn_app, Nat.sub_diag, firstn_all. apply app_nil_r.
Qed.

Lemma skipn_exact {A : Type} (n : nat) (a b : list A) :
  length a = n -> skipn n (a ++ b) = b.
Proof.
  intros <-. now rewrite skipn_app, Nat.sub_diag, skipn_all.
Qed.

(** Pieces that are changed one by one without changing their sizes are
    the pieces of what they make up. *)
Lemma pieces_of_pieces {A B : Type} (g : list A -> list B) (size : nat) :
  (forall piece, length (g piece) = length piece) ->
  forall (count : nat) (l : list A),
    ((count - 1) * size <= length l)%nat ->
    pieces size count (concat (map g (pieces size count l)))
    = map g (pieces size count l).
Proof.
  intros Hg. induction count as [| count IH]; intros l Hfull; [reflexivity |].
  rewrite !pieces_succ. cbn [map concat].
  destruct count as [| count].
  - cbn [pieces seq map concat]. rewrite app_nil_r.
    rewrite firstn_all2 by (rewrite Hg, length_firstn; lia).
    reflexivity.
  - assert (Hsize : length (g (firstn size l)) = size).
    { rewrite Hg, length_firstn.
      replace (S (S count) - 1)%nat with (S count) in Hfull by lia.
      apply Nat.min_l. nia. }
    rewrite (firstn_exact _ _ _ Hsize), (skipn_exact _ _ _ Hsize).
    f_equal. apply IH. rewrite length_skipn.
    replace (S (S count) - 1)%nat with (S count) in Hfull by lia.
    replace (S count - 1)%nat with count by lia. nia.
Qed.

Lemma length_concat_map {A B : Type} (g : list A -> list B)
      (pieces : list (list A)) :
  (forall piece, length (g piece) = length piece) ->
  length (concat (map g pieces)) = length (concat pieces).
Proof.
  intros Hg. induction pieces as [| piece pieces IH]; [reflexivity |].
  cbn [map concat]. now rewrite !length_app, Hg, IH.
Qed.

Lemma segments_of_segments {A B : Type} (g : list A -> list B) (size : Z)
      (l : list A) :
  0 < size ->
  (forall piece, length (g piece) = length piece) ->
  segments_of size (concat (map g (segments_of size l))) = map g (segments_of size l).
Proof.
  intros Hsize Hg.
  assert (Hlen : length (concat (map g (segments_of size l))) = length l).
  { rewrite (length_concat_map g _ Hg). now rewrite pieces_concat. }
  unfold segments_of at 1. rewrite Hlen. unfold segments_of.
  apply pieces_of_pieces; [exact Hg |].
  assert (Hceil : ((Z.of_nat (length l) + size - 1) / size) * size
                  < Z.of_nat (length l) + size).
  { pose proof (Z.mul_div_le (Z.of_nat (length l) + size - 1) size Hsize). lia. }
  assert (Hq : 0 <= (Z.of_nat (length l) + size - 1) / size)
    by (apply Z.div_pos; lia).
  remember ((Z.of_nat (length l) + size - 1) / size) as q.
  nia.
Qed.

Lemma arrays_of_ok (padder : Padding.t) (f : list (list Z) -> Numpy.ndarray)
      (batches : list (list (list Z))) :
  (forall batch, In batch batches -> batch_of padder batch = Py.Ok (f batch)) ->
  arrays_of padder batches = yields (map f batches).
Proof.
  unfold arrays_of, yields. induction batches as [| batch batches IH]; intros Hall;
    [reflexivity |].
  cbn [map arrays_then fold_right]. rewrite (Hall batch) by now left.
  rewrite IH; [reflexivity |]. intros b Hb. apply Hall. now right.
Qed.

(** X30.  [MemoryInput] with [PrePadding] and without shuffling, from
    the corpus file to the batches: when the sentences tokenize and no
    sentence has more ids than the first of its segment, the constructor
    succeeds, the segments of a pass are the chunks that the conversion
    padded, and the pass yields the full batches of every padded chunk,
    each sorted by descending true length, and then ends. *)
Theorem X30_memory_input_pre_padding
        (fs : Corpora.filesystem) (path : string) (vocabulary : Vocabulary.t)
        (pad : Z) (cuda cuda' : bool) (corpora : Corpora.instance)
        (max_segment_size batch_size : Z)
        (line : string) (lines : list string) (tokens : list (list Z)) :
  Monolingual.__init__ fs path vocabulary cuda = Py.Ok corpora ->
  fs path = Some (line :: lines) ->
  Forall2 (fun sentence ids => ids_from_sentence vocabulary sentence = Py.Ok ids)
          (line :: lines) tokens ->
  Vocabulary.pad_token vocabulary = Py.Ok pad ->
  0 < max_segment_size ->
  0 < batch_size ->
  (forall segment,
      In segment (segments_of max_segment_size tokens) -> first_is_longest segment) ->
  exists self h,
    MemoryInput.__init__ ids_from_sentence fs max_segment_size batch_size false cuda'
                         corpora "PrePadding" = Py.Ok (self, h)
    /\ fst (MemoryInput.batch_generator shuffle self h)
       = yields (map by_true_length
                     (flat_map (full_batches batch_size)
                               (map (pre_padded_chunk pad)
                                    (segments_of max_segment_size tokens)))).
Proof.
  intros Hinit Hfile Htokens Hpad Hsegment Hsize Hfirst.
  destruct (initialize_corpus_lines _ _ _ _ _ _ _ Hinit Hfile)
    as (Hvocabulary & loaded & Hload & Hdata).
  set (padder := {| Padding.strategy := Padding.PrePadding;
                    Padding._vocabulary := vocabulary;
                    Padding._max_segment_size := max_segment_size |}).
  assert (Hchunks : map (chunk max_segment_size tokens)
                        (map (fun i => Z.of_nat i * max_segment_size)
                             (seq 0 (Z.to_nat ((Z.of_nat (length (line :: lines))
                                                + max_segment_size - 1)
                                               / max_segment_size))))
                    = segments_of max_segment_size tokens).
  { unfold segments_of. rewrite <- (Forall2_length Htokens).
    now apply slices_of_range. }
  assert (Hconvert : PrePadding.__call__ ids_from_sentence padder (line :: lines)
                     = Py.Ok (concat (map (pre_padded_chunk pad)
                                          (segments_of max_segment_size tokens)))).
  { unfold PrePadding.__call__. cbn [Padding._max_segment_size padder].
    rewrite range_positive by exact Hsegment. cbn [Py.bind].
    rewrite (convert_segments_fit ids_from_sentence padder pad (line :: lines) tokens).
    - cbn [app Padding._max_segment_size padder].
      now rewrite flat_map_concat_map, <- (map_map (chunk max_segment_size tokens)),
        Hchunks.
    - exact Hpad.
    - exact Htokens.
    - exact Hsegment.
    - apply Forall_forall. intros index Hin. split.
      + eapply range_bounds; [exact Hsegment | apply range_positive, Hsegment | exact Hin].
      + apply Hfirst. rewrite <- Hchunks. cbn [Padding._max_segment_size padder].
        apply in_map. exact Hin. }
  unfold MemoryInput.__init__.
  change (Padding.subclasses "PrePadding") with (Py.Ok Padding.PrePadding).
  cbn [Py.bind]. rewrite Hvocabulary. cbn [Py.bind]. rewrite Hload. cbn [Py.bind].
  rewrite Hdata. cbn [Py.bind]. unfold MemoryInput.convert. cbn [Padding.strategy].
  fold padder. rewrite Hconvert. cbn [Py.bind]. unfold alloc. cbn [app].
  do 2 eexists. split; [reflexivity |].
  rewrite batch_generator_by_value;
    cbn [MemoryInput._shuffle MemoryInput._data MemoryInput._max_segment_size
         MemoryInput._batch_size MemoryInput._padder];
    try assumption; try reflexivity.
  - rewrite map_read_seq.
    rewrite (segments_of_segments (pre_padded_chunk pad) _ _ Hsegment)
      by (intros piece; apply length_map).
    apply arrays_of_ok. intros batch Hbatch.
    apply in_flat_map in Hbatch as (rows & Hrows & Hbatch).
    apply in_map_iff in Hrows as (segment & <- & Hin).
    unfold batch_of, MemoryInput.create_batch. cbn [Padding.strategy padder fst].
    apply (pre_create_batch_rows padder (length (hd [] segment))).
    apply Forall_forall. intros row Hrow.
    unfold full_batches, pieces in Hbatch.
    apply in_map_iff in Hbatch as (i & <- & _). apply in_piece in Hrow.
    apply in_map_iff in Hrow as (ids & <- & Hids).
    apply length_padded.
    specialize (Hfirst segment Hin). unfold first_is_longest in Hfirst.
    rewrite Forall_forall in Hfirst. now apply Hfirst.
  - split; cbn [MemoryInput._data]; [apply seq_NoDup |].
    intros r Hr. apply in_seq in Hr. cbn [length] in Hr. lia.
Qed.

End PrePaddingPipelines.

Lemma X29_file_input_pre_padding_witness :
  fst (FileInput.batch_generator
         (fun segment => segment) demo_pre_file_input
         (DataQueueCache.write (demo_fs demo_corpus) "/data/corpus_id.txt"
                               (map DataQueueCache.id_line [[0; 1]; [0]; [1]]))
         [])
  = Py.Abort Py.ValueError.
Proof.
  apply (X29_file_input_pre_padding (fun segment => segment) demo_pre_file_input _ []
                                    [0; 1] [0] [[1]]).
  - reflexivity.
  - reflexivity.
  - reflexivity.
  - vm_compute. discriminate.
  - cbn. lia.
  - cbn. lia.
  - discriminate.
Defined.

Lemma X30_memory_input_pre_padding_witness :
  exists self h,
    MemoryInput.__init__ Utils.ids_from_sentence (demo_fs demo_sorted_lines) 3 2
                         false false demo_corpora "PrePadding" = Py.Ok (self, h)
    /\ fst (MemoryInput.batch_generator (fun segment => segment) self h)
       = yields [[[1; 5; 0; 3]; [0; 1; 6; 2]]; [[0; 0; 2]; [1; 6; 1]]].
Proof.
  apply (X30_memory_input_pre_padding
           Utils.ids_from_sentence (fun segment => segment)
           (demo_fs demo_sorted_lines) "corpus.txt" demo_vocabulary 6 false false
           demo_corpora 3 2 (ln "world moon hello") (tl demo_sorted_lines)
           [[1; 5; 0]; [0; 1]; [0]; [0; 0]; [1]]).
  - reflexivity.
  - reflexivity.
  - repeat constructor.
  - reflexivity.
  - lia.
  - lia.
  - intros segment [<- | [<- | []]]; repeat constructor; cbn; lia.
Defined.
